(** * The appointment-scheduling service of the EMR back end

    A shallow embedding of [backend/appointment_service.py] and of the
    gateway [backend/db.py] it talks to, with the properties of conflict
    detection, business-hours validation and the create / update / delete
    use cases.

    Layout:
    - [Py]: the pieces of the Python runtime the service calls
      ([str.split], [int], slicing, format specifications, exceptions);
    - [Store]: the [appointments] table and the statements the service
      sends to it;
    - [Db]: the gateway of [db.py], which tries a statement and, on a
      driver error, once more;
    - [Data], [Wire]: the dictionaries a request carries and a reply holds;
    - [AppointmentService]: the static methods of the class of that name;
    - the vocabulary of the properties, and the properties. *)

From Stdlib Require Import ZArith List String Ascii Bool Lia DecimalString Sorted.
Import ListNotations.
Local Open Scope string_scope.
Local Open Scope Z_scope.

(* ================================================================== *)
(** ** The Python runtime, as far as the service uses it *)

Module Py.

(** Exceptions the service can meet.  All of them derive from
    [Exception]; [DatabaseError] stands for [psycopg2.Error]. *)
Inductive exn : Type :=
| ValueError (msg : string)
| IndexError (msg : string)
| KeyError (key : string)
| DatabaseError (msg : string).

(** [str(e)] *)
Definition str_exn (e : exn) : string :=
  match e with
  | ValueError m => m
  | IndexError m => m
  | KeyError k => "'" ++ k ++ "'"
  | DatabaseError m => m
  end.

(** A computation that returns or raises. *)
Definition Exc (A : Type) : Type := (exn + A)%type.

Definition ret {A} (a : A) : Exc A := inr a.
Definition raise {A} (e : exn) : Exc A := inl e.
Definition bind {A B} (m : Exc A) (k : A -> Exc B) : Exc B :=
  match m with
  | inl e => inl e
  | inr a => k a
  end.

(** [s.split(':')]: never empty, one more item than there are colons. *)
Fixpoint split_colon (s : string) : list string :=
  match s with
  | EmptyString => [EmptyString]
  | String c rest =>
      if Ascii.eqb c ":" then EmptyString :: split_colon rest
      else match split_colon rest with
           | [] => [String c EmptyString]
           | item :: items => String c item :: items
           end
  end.

(** [l[i]] for [i >= 0] *)
Definition index {A} (l : list A) (i : nat) : Exc A :=
  match nth_error l i with
  | Some x => ret x
  | None => raise (IndexError "list index out of range")
  end.

(** [s[:n]] for [n >= 0] *)
Definition slice_to (n : nat) (s : string) : string := substring 0 n s.

(** White space as [int] skips it around an ASCII literal: tab, line
    feed, vertical tab, form feed, carriage return and space.  Texts are
    taken in the ASCII range. *)
Definition is_space (c : ascii) : bool :=
  let n := nat_of_ascii c in
  (((9 <=? n) && (n <=? 13)) || (n =? 32))%nat.

Fixpoint lstrip (s : string) : string :=
  match s with
  | String c rest => if is_space c then lstrip rest else s
  | EmptyString => EmptyString
  end.

Definition rev_string (s : string) : string :=
  string_of_list_ascii (rev (list_ascii_of_string s)).

Definition strip (s : string) : string :=
  rev_string (lstrip (rev_string (lstrip s))).

Definition digit_val (c : ascii) : option Z :=
  let n := nat_of_ascii c in
  if ((48 <=? n) && (n <=? 57))%nat then Some (Z.of_nat (n - 48)) else None.

(** Decimal digits with single underscores between them. *)
Fixpoint digits (acc : Z) (after_digit : bool) (s : string) : option Z :=
  match s with
  | EmptyString => if after_digit then Some acc else None
  | String c rest =>
      if Ascii.eqb c "_" then
        if after_digit then digits acc false rest else None
      else
        match digit_val c with
        | Some d => digits (acc * 10 + d) true rest
        | None => None
        end
  end.

Definition int_literal (s : string) : option Z :=
  match strip s with
  | String "+" rest => digits 0 false rest
  | String "-" rest => option_map Z.opp (digits 0 false rest)
  | body => digits 0 false body
  end.

(** [int(s)] for a string [s] *)
Definition int (s : string) : Exc Z :=
  match int_literal s with
  | Some z => ret z
  | None =>
      raise (ValueError ("invalid literal for int() with base 10: '" ++ s ++ "'"))
  end.

(** [str(z)] for an integer *)
Definition str_int (z : Z) : string := NilZero.string_of_int (Z.to_int z).

(** [f"{z:02d}"] *)
Definition format_02d (z : Z) : string :=
  if (0 <=? z) && (z <? 10) then "0" ++ str_int z else str_int z.

(** [x in l] for a list of strings *)
Definition contains (x : string) (l : list string) : bool :=
  existsb (String.eqb x) l.

(** [", ".join(l)] *)
Fixpoint join_comma (l : list string) : string :=
  match l with
  | [] => ""
  | [x] => x
  | x :: rest => x ++ ", " ++ join_comma rest
  end.

End Py.

(* ================================================================== *)
(** ** The store: the [appointments] table and its statements *)

Module Store.

(** A [time] column value as the driver hands it over
    ([datetime.time], no fractional part). *)
Record TimeOfDay : Type := mkTime { hour : nat; minute : nat; second : nat }.

Definition valid_time (t : TimeOfDay) : bool :=
  ((hour t <? 24) && (minute t <? 60) && (second t <? 60))%nat.

Definition time_eqb (a b : TimeOfDay) : bool :=
  ((hour a =? hour b) && (minute a =? minute b) && (second a =? second b))%nat.

Definition two_digits (n : nat) : string := Py.format_02d (Z.of_nat n).

(** [str(t)] for a [datetime.time]: [HH:MM:SS] *)
Definition str_time (t : TimeOfDay) : string :=
  two_digits (hour t) ++ ":" ++ two_digits (minute t) ++ ":" ++ two_digits (second t).

(** Minutes since midnight of a stored time. *)
Definition minutes_of (t : TimeOfDay) : Z :=
  Z.of_nat (hour t) * 60 + Z.of_nat (minute t).

(** One row of [appointments], with the columns the statements of the
    service name.  Dates are kept as their ISO text, which is all the
    service ever compares; time stamps are ticks of the store's clock. *)
Record Row : Type := mkRow {
  id : string;
  patient_name : string;
  doctor_name : string;
  date : string;
  time : TimeOfDay;
  duration : Z;
  status : string;
  mode : string;
  notes : string;
  created_at : Z;
  updated_at : Z
}.

(** Modelled from the spec: the table declaration ([schema.sql]) is not
    among the sources.  The store generates [id] and the two time stamps
    (section 3 of the specification); which rows the declaration admits
    (column types, CHECK constraints) is left open as [accepts].  The
    connection is the one [init_db] opened at start-up; from then on each
    attempt at a statement may find it lost. *)
Record World : Type := mkWorld {
  table : list Row;          (* rows in the order a SELECT without ORDER BY
                                returns them; an INSERT appends *)
  accepts : Row -> bool;     (* what the table declaration lets in *)
  clock : Z;                 (* CURRENT_TIMESTAMP / datetime.now() *)
  next_id : nat;             (* supply of generated identifiers *)
  outages : list bool        (* per statement attempt: does the connection fail? *)
}.

Definition with_table (rows : list Row) (w : World) : World :=
  mkWorld rows (accepts w) (clock w) (next_id w) (outages w).

Definition with_outages (o : list bool) (w : World) : World :=
  mkWorld (table w) (accepts w) (clock w) (next_id w) o.

Definition tick (w : World) : World :=
  mkWorld (table w) (accepts w) (clock w + 1) (next_id w) (outages w).

Definition bump_id (w : World) : World :=
  mkWorld (table w) (accepts w) (clock w) (S (next_id w)) (outages w).

Definition gen_id (n : nat) : string := "apt-" ++ Py.str_int (Z.of_nat n).

(** Input conversion of the [time] column, for the plain texts: hour,
    minute and optionally second, one or two digits each and in range,
    separated by colons.  Anything else is refused here.  PostgreSQL also
    takes other spellings (an AM or PM suffix, a zone, fractions of a
    second), which the service may read differently from the store;
    properties that need the two readings to agree say so, see
    [reads_alike]. *)
Definition is_digit (c : ascii) : bool :=
  match Py.digit_val c with
  | Some _ => true
  | None => false
  end.

Definition field (s : string) : option nat :=
  if ((1 <=? String.length s) && (String.length s <=? 2))%nat
     && forallb is_digit (list_ascii_of_string s)
  then option_map Z.to_nat (Py.digits 0 false s)
  else None.

Definition checked (t : TimeOfDay) : option TimeOfDay :=
  if valid_time t then Some t else None.

Definition pg_time_in (s : string) : option TimeOfDay :=
  match Py.split_colon s with
  | [h; m] =>
      match field h, field m with
      | Some h', Some m' => checked (mkTime h' m' 0)
      | _, _ => None
      end
  | [h; m; sec] =>
      match field h, field m, field sec with
      | Some h', Some m', Some s' => checked (mkTime h' m' s')
      | _, _, _ => None
      end
  | _ => None
  end.

(** *** Statements *)

(** The SELECT statements of the service. *)
Inductive Query : Type :=
| SelectActiveOfDoctor (doctor day : string) (exclude : option string)
    (* SELECT id, patient_name, time, duration FROM appointments
       WHERE doctor_name = %s AND date = %s AND status != 'Cancelled'
       [AND id != %s] *)
| SelectById (key : string)
    (* SELECT * FROM appointments WHERE id = %s *)
| SelectCreated (patient day at_time : string).
    (* SELECT * FROM appointments WHERE patient_name = %s AND date = %s
       AND time = %s ORDER BY created_at DESC LIMIT 1 *)

(** One [column = %s] item of a dynamic UPDATE with its value. *)
Inductive Assignment : Type :=
| SetPatientName (v : string)
| SetDoctorName (v : string)
| SetDate (v : string)
| SetTime (v : string)
| SetDuration (v : Z)
| SetStatus (v : string)
| SetMode (v : string)
| SetNotes (v : string).

(** The INSERT, DELETE and UPDATE statements of the service. *)
Inductive Mutation : Type :=
| InsertAppointment (patient doctor day at_time : string) (minutes : Z)
    (state how note : string)
| DeleteById (key : string)
| UpdateFields (sets : list Assignment) (key : string)
    (* UPDATE appointments SET ..., updated_at = CURRENT_TIMESTAMP WHERE id = %s *)
| UpdateStatus (state key : string).
    (* UPDATE appointments SET status = %s, updated_at = CURRENT_TIMESTAMP
       WHERE id = %s RETURNING id, status, updated_at *)

Definition bad_time (s : string) : Py.exn :=
  Py.DatabaseError ("invalid input syntax for type time: " ++ s).

Definition refused : Py.exn :=
  Py.DatabaseError "new row violates the table declaration".

Definition is_active_of (doctor day : string) (exclude : option string) (r : Row) : bool :=
  String.eqb (doctor_name r) doctor && String.eqb (date r) day
  && negb (String.eqb (status r) "Cancelled")
  && match exclude with
     | Some key => negb (String.eqb (id r) key)
     | None => true
     end.

(** ORDER BY created_at DESC, ties in table order. *)
Fixpoint insert_newest (r : Row) (l : list Row) : list Row :=
  match l with
  | [] => [r]
  | x :: rest =>
      if created_at x <=? created_at r then r :: l else x :: insert_newest r rest
  end.

Definition newest_first (l : list Row) : list Row := fold_right insert_newest [] l.

Definition run_query (q : Query) (w : World) : Py.Exc (list Row) :=
  match q with
  | SelectActiveOfDoctor doctor day exclude =>
      Py.ret (filter (is_active_of doctor day exclude) (table w))
  | SelectById key =>
      Py.ret (filter (fun r => String.eqb (id r) key) (table w))
  | SelectCreated patient day at_time =>
      match pg_time_in at_time with
      | None => Py.raise (bad_time at_time)
      | Some t =>
          Py.ret (firstn 1 (newest_first
            (filter (fun r => String.eqb (patient_name r) patient
                              && String.eqb (date r) day && time_eqb (time r) t)
                    (table w))))
      end
  end.

Definition set_updated_at (now : Z) (r : Row) : Row :=
  mkRow (id r) (patient_name r) (doctor_name r) (date r) (time r) (duration r)
        (status r) (mode r) (notes r) (created_at r) now.

Definition set_status (v : string) (r : Row) : Row :=
  mkRow (id r) (patient_name r) (doctor_name r) (date r) (time r) (duration r)
        v (mode r) (notes r) (created_at r) (updated_at r).

Definition set_duration (v : Z) (r : Row) : Row :=
  mkRow (id r) (patient_name r) (doctor_name r) (date r) (time r) v
        (status r) (mode r) (notes r) (created_at r) (updated_at r).

(** The value of an assignment is converted to its column type when the
    statement is prepared; what is left is a change of the row. *)
Definition convert (a : Assignment) : Py.Exc (Row -> Row) :=
  match a with
  | SetPatientName v =>
      Py.ret (fun r =>
        mkRow (id r) v (doctor_name r) (date r) (time r) (duration r)
              (status r) (mode r) (notes r) (created_at r) (updated_at r))
  | SetDoctorName v =>
      Py.ret (fun r =>
        mkRow (id r) (patient_name r) v (date r) (time r) (duration r)
              (status r) (mode r) (notes r) (created_at r) (updated_at r))
  | SetDate v =>
      Py.ret (fun r =>
        mkRow (id r) (patient_name r) (doctor_name r) v (time r) (duration r)
              (status r) (mode r) (notes r) (created_at r) (updated_at r))
  | SetTime v =>
      match pg_time_in v with
      | Some t =>
          Py.ret (fun r =>
            mkRow (id r) (patient_name r) (doctor_name r) (date r) t (duration r)
                  (status r) (mode r) (notes r) (created_at r) (updated_at r))
      | None => Py.raise (bad_time v)
      end
  | SetDuration v => Py.ret (set_duration v)
  | SetStatus v => Py.ret (set_status v)
  | SetMode v =>
      Py.ret (fun r =>
        mkRow (id r) (patient_name r) (doctor_name r) (date r) (time r) (duration r)
              (status r) v (notes r) (created_at r) (updated_at r))
  | SetNotes v =>
      Py.ret (fun r =>
        mkRow (id r) (patient_name r) (doctor_name r) (date r) (time r) (duration r)
              (status r) (mode r) v (created_at r) (updated_at r))
  end.

Fixpoint convert_all (sets : list Assignment) : Py.Exc (Row -> Row) :=
  match sets with
  | [] => Py.ret (fun r => r)
  | a :: rest =>
      Py.bind (convert a) (fun first =>
      Py.bind (convert_all rest) (fun others =>
      Py.ret (fun r => others (first r))))
  end.

(** The rows after an UPDATE ... WHERE id = key, with the number of rows
    it touched; one refused row fails the whole statement. *)
Fixpoint update_where (key : string) (change : Row -> Row)
    (ok : Row -> bool) (rows : list Row) : Py.Exc (Z * list Row) :=
  match rows with
  | [] => Py.ret (0, [])
  | r :: rest =>
      if String.eqb (id r) key then
        if ok (change r) then
          Py.bind (update_where key change ok rest) (fun '(n, rest') =>
            Py.ret (n + 1, change r :: rest'))
        else Py.raise refused
      else
        Py.bind (update_where key change ok rest) (fun '(n, rest') =>
          Py.ret (n, r :: rest'))
  end.

(** What a committed statement returns ([cursor.rowcount]) and leaves. *)
Definition run_mutation (m : Mutation) (w : World) : Py.Exc (Z * World) :=
  match m with
  | InsertAppointment patient doctor day at_time minutes state how note =>
      match pg_time_in at_time with
      | None => Py.raise (bad_time at_time)
      | Some t =>
          let r := mkRow (gen_id (next_id w)) patient doctor day t minutes
                         state how note (clock w) (clock w) in
          if accepts w r
          then Py.ret (1, tick (bump_id (with_table (table w ++ [r]) w)))
          else Py.raise refused
      end
  | DeleteById key =>
      let gone := filter (fun r => String.eqb (id r) key) (table w) in
      let kept := filter (fun r => negb (String.eqb (id r) key)) (table w) in
      Py.ret (Z.of_nat (List.length gone), tick (with_table kept w))
  | UpdateFields sets key =>
      Py.bind (convert_all sets) (fun change =>
      Py.bind (update_where key (fun r => set_updated_at (clock w) (change r))
                 (accepts w) (table w))
        (fun '(n, rows) => Py.ret (n, tick (with_table rows w))))
  | UpdateStatus state key =>
      Py.bind (update_where key (fun r => set_updated_at (clock w) (set_status state r))
                 (accepts w) (table w))
        (fun '(n, rows) => Py.ret (n, tick (with_table rows w)))
  end.

End Store.

(* ================================================================== *)
(** ** The gateway of [db.py] *)

Module Db.
Import Store.

(** A method of the service: it runs against the store, and returns or
    raises. *)
Definition M (A : Type) : Type := World -> Py.Exc A * World.

Definition ret {A} (a : A) : M A := fun w => (inr a, w).
Definition raise {A} (e : Py.exn) : M A := fun w => (inl e, w).
Definition bind {A B} (m : M A) (k : A -> M B) : M B :=
  fun w => match m w with
           | (inl e, w') => (inl e, w')
           | (inr a, w') => k a w'
           end.
Definition lift {A} (c : Py.Exc A) : M A := fun w => (c, w).

(** [datetime.now()] *)
Definition now : M Z := fun w => (inr (clock w), w).

Definition connection_lost : Py.exn := Py.DatabaseError "connection lost".

(** Does the connection fail on this attempt?  Consumes one entry of the
    outage script; an exhausted script means a healthy connection. *)
Definition next_outage (w : World) : bool * World :=
  match outages w with
  | [] => (false, w)
  | down :: later => (down, with_outages later w)
  end.

(** One pass through [with self.get_cursor() as cursor: ...] for a SELECT. *)
Definition try_query (q : Query) : M (list Row) :=
  fun w =>
    let (down, w1) := next_outage w in
    if down then (inl connection_lost, w1) else (run_query q w1, w1).

(** One pass through [with self.get_cursor(commit=True) as cursor: ...]:
    the statement commits, or is rolled back and raises. *)
Definition try_mutation (m : Mutation) : M Z :=
  fun w =>
    let (down, w1) := next_outage w in
    if down then (inl connection_lost, w1)
    else match run_mutation m w1 with
         | inl e => (inl e, w1)
         | inr (count, w2) => (inr count, w2)
         end.

(** [execute_query]: on a driver error, reconnect and try once more; a
    second failure is raised. *)
Definition execute_query (q : Query) : M (list Row) :=
  fun w =>
    match try_query q w with
    | (inl _, w1) => try_query q w1
    | done => done
    end.

(** [execute_mutation]: same discipline, returning the affected-row count. *)
Definition execute_mutation (m : Mutation) : M Z :=
  fun w =>
    match try_mutation m w with
    | (inl _, w1) => try_mutation m w1
    | done => done
    end.

End Db.

Notation "x <- m ;; k" := (Db.bind m (fun x => k))
  (at level 61, m at next level, right associativity).

(* ================================================================== *)
(** ** Dictionaries the service receives and returns *)

(** The [data] dictionary of a create or update request: a key is present
    or not, with a value of the type the service uses it at. *)
Module Data.
Record t : Type := mk {
  name : option string;
  doctorName : option string;
  date : option string;
  time : option string;
  duration : option Z;
  status : option string;
  mode : option string;
  notes : option string
}.
End Data.

(** The appointment as [_format_appointment] hands it to the front end. *)
Module Wire.
Record t : Type := mk {
  id : string;
  name : string;
  doctorName : string;
  date : string;
  time : string;
  duration : Z;
  status : string;
  mode : string;
  notes : string;
  createdAt : Z
}.
End Wire.

(* ================================================================== *)
(** ** [class AppointmentService] *)

Module AppointmentService.
Import Store.

(** [{'valid': ..., 'message': ...}] *)
Record Validation : Type := mkValidation {
  valid : bool;
  validation_message : option string
}.

(** ['conflicting_appointment'] *)
Record ConflictInfo : Type := mkConflictInfo {
  patient : string;
  booked_time : string;
  endTime : string;
  booked_duration : Z
}.

(** [{'available': ..., 'message': ..., 'conflicting_appointment': ...}] *)
Record Availability : Type := mkAvailability {
  available : bool;
  availability_message : option string;
  conflicting_appointment : option ConflictInfo
}.

(** [{'success': ..., 'message': ..., 'data': ..., 'conflict': ...}] *)
Record Reply : Type := mkReply {
  success : bool;
  message : string;
  data : option Wire.t;
  conflict : option ConflictInfo
}.

(** [{'success': ..., 'message': ..., 'id': ..., 'status': ..., 'timestamp': ...}] *)
Record StatusReply : Type := mkStatusReply {
  status_success : bool;
  status_message : string;
  status_id : string;
  new_status_value : option string;
  timestamp : option Z
}.

(** A method whose body sits in [try: ... except Exception as e: return ...]:
    it always returns. *)
Definition Method (A : Type) : Type := World -> A * World.

Definition guarded {A} (body : Db.M A) (handler : Py.exn -> A) : Method A :=
  fun w => match body w with
           | (inr a, w') => (a, w')
           | (inl e, w') => (handler e, w')
           end.

(** Calling such a method from inside another body. *)
Definition call {A} (m : Method A) : Db.M A :=
  fun w => let (a, w') := m w in (inr a, w').

(** [d[key]] *)
Definition item {A} (key : string) (v : option A) : Db.M A :=
  match v with
  | Some a => Db.ret a
  | None => Db.raise (Py.KeyError key)
  end.

(** [d.get(key, default)] *)
Definition get {A} (v : option A) (default : A) : A :=
  match v with
  | Some a => a
  | None => default
  end.

(** [key in d] *)
Definition has {A} (v : option A) : bool :=
  match v with
  | Some _ => true
  | None => false
  end.

(** Truth value of an optional string argument ([if exclude_id:]). *)
Definition truthy (v : option string) : bool :=
  match v with
  | Some s => negb (String.eqb s "")
  | None => false
  end.

Definition _format_appointment (row : Row) : Wire.t :=
  Wire.mk (id row) (patient_name row) (doctor_name row) (date row)
          (Py.slice_to 5 (str_time (time row)))
          (duration row) (status row) (mode row) (notes row) (created_at row).

Definition valid_statuses : list string :=
  ["Confirmed"; "Scheduled"; "Upcoming"; "Cancelled"].

Definition update_appointment_status (appointment_id new_status : string)
  : Method StatusReply :=
  guarded
    (if negb (Py.contains new_status valid_statuses) then
       Db.ret (mkStatusReply false
                 ("Invalid status. Must be one of: " ++ Py.join_comma valid_statuses)
                 appointment_id None None)
     else
       result <- Db.execute_mutation (UpdateStatus new_status appointment_id) ;;
       if result >? 0 then
         stamp <- Db.now ;;
         Db.ret (mkStatusReply true
                   ("Appointment status updated to " ++ new_status)
                   appointment_id (Some new_status) (Some stamp))
       else
         Db.ret (mkStatusReply false
                   ("Appointment not found: " ++ appointment_id)
                   appointment_id None None))
    (fun e =>
       mkStatusReply false ("Error updating appointment: " ++ Py.str_exn e)
                     appointment_id None None).

(** Validate appointment time is within business hours (8 AM - 9 PM) *)
Definition validate_appointment_time (time_str : string) : Validation :=
  match Py.bind (Py.index (Py.split_colon time_str) 0) Py.int with
  | inr hour =>
      if (hour <? 8) || (hour >=? 21) then
        mkValidation false
          (Some "Appointments are only available between 8:00 AM and 9:00 PM")
      else mkValidation true None
  | inl e =>
      mkValidation false (Some ("Invalid time format: " ++ Py.str_exn e))
  end.

(** [hour * 60 + minute] of the first two colon-separated items: the
    parsing steps [check_time_slot_conflict] runs on the requested time
    and, in its loop, on the time of each stored appointment. *)
Definition minutes_of_text (text : string) : Py.Exc Z :=
  let parts := Py.split_colon text in
  Py.bind (Py.bind (Py.index parts 0) Py.int) (fun start_hour =>
  Py.bind (Py.bind (Py.index parts 1) Py.int) (fun start_min =>
  Py.ret (start_hour * 60 + start_min))).

(** The [for apt in existing:] loop of [check_time_slot_conflict]. *)
Fixpoint first_overlap (existing : list Row) (start_minutes end_minutes : Z)
  : Py.Exc Availability :=
  match existing with
  | [] => Py.ret (mkAvailability true None None)
  | apt :: later =>
      let apt_time := Py.slice_to 5 (str_time (time apt)) in
      Py.bind (minutes_of_text apt_time) (fun apt_start_minutes =>
      let apt_end_minutes := apt_start_minutes + duration apt in
      if (start_minutes <? apt_end_minutes) && (end_minutes >? apt_start_minutes) then
        let apt_end_hour := apt_end_minutes / 60 in
        let apt_end_min := apt_end_minutes mod 60 in
        let apt_end_time := Py.format_02d apt_end_hour ++ ":" ++ Py.format_02d apt_end_min in
        Py.ret (mkAvailability false
          (Some ("This time slot is already booked! " ++ patient_name apt
                 ++ " has an appointment from " ++ apt_time ++ " to " ++ apt_end_time
                 ++ ". Please choose a different time."))
          (Some (mkConflictInfo (patient_name apt) apt_time apt_end_time (duration apt))))
      else first_overlap later start_minutes end_minutes)
  end.

(** Check if time slot conflicts with existing appointments *)
Definition check_time_slot_conflict (doctor_name date time : string) (duration : Z)
    (exclude_id : option string) : Method Availability :=
  guarded
    (start_minutes <- Db.lift (minutes_of_text time) ;;
     let end_minutes := start_minutes + duration in
     existing <- Db.execute_query
                   (SelectActiveOfDoctor doctor_name date
                      (if truthy exclude_id then exclude_id else None)) ;;
     Db.lift (first_overlap existing start_minutes end_minutes))
    (fun e =>
       mkAvailability false
         (Some ("Error checking availability: " ++ Py.str_exn e)) None).

(** Create new appointment with validation *)
Definition create_appointment (data : Data.t) : Method Reply :=
  guarded
    (at_time <- item "time" (Data.time data) ;;
     let time_validation := validate_appointment_time at_time in
     if negb (valid time_validation) then
       text <- item "message" (validation_message time_validation) ;;
       Db.ret (mkReply false text None None)
     else
       doctor <- item "doctorName" (Data.doctorName data) ;;
       day <- item "date" (Data.date data) ;;
       minutes <- item "duration" (Data.duration data) ;;
       conflict_check <- call (check_time_slot_conflict doctor day at_time minutes None) ;;
       if negb (available conflict_check) then
         text <- item "message" (availability_message conflict_check) ;;
         Db.ret (mkReply false text None (conflicting_appointment conflict_check))
       else
         who <- item "name" (Data.name data) ;;
         result <- Db.execute_mutation
                     (InsertAppointment who doctor day at_time minutes
                        (get (Data.status data) "Scheduled")
                        (get (Data.mode data) "In-Person")
                        (get (Data.notes data) "")) ;;
         if result >? 0 then
           created <- Db.execute_query (SelectCreated who day at_time) ;;
           match created with
           | newest :: _ =>
               Db.ret (mkReply true "Appointment created successfully"
                               (Some (_format_appointment newest)) None)
           | [] => Db.ret (mkReply false "Failed to create appointment" None None)
           end
         else Db.ret (mkReply false "Failed to create appointment" None None))
    (fun e => mkReply false ("Error creating appointment: " ++ Py.str_exn e) None None).

(** Delete appointment by ID *)
Definition delete_appointment (appointment_id : string) : Method Reply :=
  guarded
    (result <- Db.execute_query (SelectById appointment_id) ;;
     match result with
     | [] => Db.ret (mkReply false "Appointment not found" None None)
     | found :: _ =>
         deleted_count <- Db.execute_mutation (DeleteById appointment_id) ;;
         if deleted_count >? 0 then
           Db.ret (mkReply true "Appointment deleted successfully"
                           (Some (_format_appointment found)) None)
         else Db.ret (mkReply false "Failed to delete appointment" None None)
     end)
    (fun e => mkReply false ("Error deleting appointment: " ++ Py.str_exn e) None None).

(** The [update_fields] / [values] pair built from the keys present. *)
Definition update_fields (data : Data.t) : list Assignment :=
  (match Data.name data with Some v => [SetPatientName v] | None => [] end)
  ++ (match Data.doctorName data with Some v => [SetDoctorName v] | None => [] end)
  ++ (match Data.date data with Some v => [SetDate v] | None => [] end)
  ++ (match Data.time data with Some v => [SetTime v] | None => [] end)
  ++ (match Data.duration data with Some v => [SetDuration v] | None => [] end)
  ++ (match Data.status data with Some v => [SetStatus v] | None => [] end)
  ++ (match Data.mode data with Some v => [SetMode v] | None => [] end)
  ++ (match Data.notes data with Some v => [SetNotes v] | None => [] end).

(** [any(key in data for key in ['time', 'date', 'doctorName', 'duration'])] *)
Definition touches_schedule (data : Data.t) : bool :=
  has (Data.time data) || has (Data.date data)
  || has (Data.doctorName data) || has (Data.duration data).

(** Update appointment with new data and validation *)
Definition update_appointment (appointment_id : string) (data : Data.t)
  : Method Reply :=
  guarded
    (result <- Db.execute_query (SelectById appointment_id) ;;
     match result with
     | [] => Db.ret (mkReply false "Appointment not found" None None)
     | existing :: _ =>
         (* if 'time' in data: the business-hours test; without the key
            there is nothing to refuse *)
         let time_validation :=
           match Data.time data with
           | Some at_time => validate_appointment_time at_time
           | None => mkValidation true None
           end in
         if negb (valid time_validation) then
           text <- item "message" (validation_message time_validation) ;;
           Db.ret (mkReply false text None None)
         else
           (* if any(...): the conflict check on the supplied values laid
              over the stored ones; otherwise nothing stands in the way *)
           conflict_check <-
             (if touches_schedule data then
                let check_doctor := get (Data.doctorName data) (doctor_name existing) in
                let check_date := get (Data.date data) (date existing) in
                let check_time :=
                  get (Data.time data) (Py.slice_to 5 (str_time (time existing))) in
                let check_duration := get (Data.duration data) (duration existing) in
                call (check_time_slot_conflict check_doctor check_date check_time
                        check_duration (Some appointment_id))
              else Db.ret (mkAvailability true None None)) ;;
           if negb (available conflict_check) then
             text <- item "message" (availability_message conflict_check) ;;
             Db.ret (mkReply false text None (conflicting_appointment conflict_check))
           else
             updated_count <- Db.execute_mutation
                                (UpdateFields (update_fields data) appointment_id) ;;
             if updated_count >? 0 then
               updated <- Db.execute_query (SelectById appointment_id) ;;
               fresh <- Db.lift (Py.index updated 0) ;;
               Db.ret (mkReply true "Appointment updated successfully"
                               (Some (_format_appointment fresh)) None)
             else Db.ret (mkReply false "Failed to update appointment" None None)
     end)
    (fun e => mkReply false ("Error updating appointment: " ++ Py.str_exn e) None None).

End AppointmentService.

(* ================================================================== *)
(** ** Properties: vocabulary and sample data *)

Import Store AppointmentService.

(** *** Vocabulary of the statements *)

(** The connection does not fail during the call. *)
Definition healthy (w : World) : Prop := outages w = [].

(** Every stored time is a time of day, as a [time] column guarantees. *)
Definition times_valid (w : World) : Prop :=
  Forall (fun r => valid_time (time r) = true) (table w).

(** Two worlds that differ at most in the outages still to come. *)
Definition same_store (w w1 : World) : Prop :=
  table w1 = table w /\ accepts w1 = accepts w
  /\ clock w1 = clock w /\ next_id w1 = next_id w.

(** The rows [check_time_slot_conflict] is handed for a doctor and a day:
    not cancelled, and not the row named by a non-empty [exclude_id]. *)
Definition candidate (doctor day : string) (exclude : option string) (apt : Row) : Prop :=
  doctor_name apt = doctor /\ date apt = day /\ status apt <> "Cancelled"
  /\ (forall key, exclude = Some key -> key <> "" -> id apt <> key).

(** The slot [[start, start + minutes)] holds the minute [m]. *)
Definition in_slot (start minutes m : Z) : Prop := start <= m < start + minutes.

(** The overlap test of the loop, on the stored values of a row. *)
Definition overlaps (start_minutes end_minutes : Z) (apt : Row) : bool :=
  (start_minutes <? minutes_of (time apt) + duration apt)
  && (end_minutes >? minutes_of (time apt)).

(** What the loop reports about the row it stops at. *)
Definition info_of (apt : Row) : ConflictInfo :=
  let apt_end_minutes := minutes_of (time apt) + duration apt in
  mkConflictInfo (patient_name apt) (Py.slice_to 5 (str_time (time apt)))
    (Py.format_02d (apt_end_minutes / 60) ++ ":" ++ Py.format_02d (apt_end_minutes mod 60))
    (duration apt).

(** Ascending order of start time. *)
Definition starts_no_later (a b : Row) : Prop :=
  minutes_of (time a) <= minutes_of (time b).

(** The reading under which the reported conflict is the overlapping
    booking that starts earliest. *)
Definition reports_earliest (w : World) (doctor day at_time : string) (minutes : Z)
    (exclude : option string) : Prop :=
  forall start info,
    minutes_of_text at_time = inr start ->
    conflicting_appointment
      (fst (check_time_slot_conflict doctor day at_time minutes exclude w)) = Some info ->
    exists apt,
      In apt (table w) /\ candidate doctor day exclude apt /\ info = info_of apt
      /\ forall other,
           In other (table w) -> candidate doctor day exclude other ->
           overlaps start (start + minutes) other = true ->
           minutes_of (time apt) <= minutes_of (time other).

(** The rows [WHERE id = key] selects, and the others. *)
Definition matching (key : string) (rows : list Row) : list Row :=
  filter (fun r => String.eqb (id r) key) rows.

Definition without (key : string) (rows : list Row) : list Row :=
  filter (fun r => negb (String.eqb (id r) key)) rows.

(** A row after an UPDATE ... WHERE id = key that applies [change]. *)
Definition changed (key : string) (change : Row -> Row) (r : Row) : Row :=
  if String.eqb (id r) key then change r else r.

(** [status != 'Cancelled'] *)
Definition not_cancelled (r : Row) : bool := negb (String.eqb (status r) "Cancelled").

(** The change an accepted status update makes to a row. *)
Definition restamped (state : string) (now : Z) (r : Row) : Row :=
  set_updated_at now (set_status state r).

(** The change a duration-only update makes to a row. *)
Definition relengthened (minutes now : Z) (r : Row) : Row :=
  set_updated_at now (set_duration minutes r).

(** The row an INSERT of the service adds to a store. *)
Definition inserted (w : World) (who doctor day : string) (t : TimeOfDay)
    (minutes : Z) (data : Data.t) : Row :=
  mkRow (gen_id (next_id w)) who doctor day t minutes
        (get (Data.status data) "Scheduled") (get (Data.mode data) "In-Person")
        (get (Data.notes data) "") (clock w) (clock w).

(** The values the conflict check of an update is run on: the supplied
    ones laid over the stored row. *)
Definition check_doctor (data : Data.t) (existing : Row) : string :=
  get (Data.doctorName data) (doctor_name existing).

Definition check_date (data : Data.t) (existing : Row) : string :=
  get (Data.date data) (date existing).

Definition check_time (data : Data.t) (existing : Row) : string :=
  get (Data.time data) (Py.slice_to 5 (str_time (time existing))).

Definition check_duration (data : Data.t) (existing : Row) : Z :=
  get (Data.duration data) (duration existing).

(** The answer of the [except] branch of the check. *)
Definition checking_failed (e : Py.exn) : Availability :=
  mkAvailability false (Some ("Error checking availability: " ++ Py.str_exn e)) None.

(** The answer of delete and update for an id nobody has. *)
Definition not_found : Reply := mkReply false "Appointment not found" None None.

(** Every stored duration is positive. *)
Definition durations_positive (w : World) : Prop :=
  Forall (fun r => 0 < duration r) (table w).

(** Every stored status is one of the four values. *)
Definition statuses_valid (w : World) : Prop :=
  Forall (fun r => In (status r) valid_statuses) (table w).

(** *** Sample data *)

(** A store on a healthy connection whose table declares no constraint. *)
Definition open_store (rows : list Row) : World :=
  mkWorld rows (fun _ => true) (Z.of_nat (List.length rows)) (List.length rows) [].

Definition booking (key who doctor day : string) (t : TimeOfDay) (minutes : Z)
    (state : string) : Row :=
  mkRow key who doctor day t minutes state "In-Person" "" 0 0.

(** Request dictionaries: the five required keys; those and a status; a
    duration alone; a status alone. *)
Definition request (who doctor day at_time : string) (minutes : Z) : Data.t :=
  Data.mk (Some who) (Some doctor) (Some day) (Some at_time) (Some minutes)
          None None None.

Definition request_with_status (who doctor day at_time : string) (minutes : Z)
    (state : string) : Data.t :=
  Data.mk (Some who) (Some doctor) (Some day) (Some at_time) (Some minutes)
          (Some state) None None.

Definition duration_only (minutes : Z) : Data.t :=
  Data.mk None None None None (Some minutes) None None None.

Definition status_only (state : string) : Data.t :=
  Data.mk None None None None None (Some state) None None.

(** Alice, 09:00 for 30 minutes with Dr. Smith. *)
Definition alice : Row :=
  booking "a1" "Alice" "Dr. Smith" "2025-12-15" (mkTime 9 0 0) 30 "Scheduled".

(** A booking that starts before closing time and ends after it. *)
Definition late_booking : Data.t := request "Bob" "Dr. Smith" "2025-12-15" "20:45" 30.

(** Carol books 10:00-10:30, then Dave books 09:30-10:00. *)
Definition carol_then_dave : World :=
  snd (create_appointment (request "Dave" "Dr. Smith" "2025-12-15" "09:30" 30)
         (snd (create_appointment (request "Carol" "Dr. Smith" "2025-12-15" "10:00" 30)
                 (open_store [])))).

(** *** Checks run over all hours and minutes *)

Definition two_chars (s : string) : bool :=
  match s with
  | String _ (String _ EmptyString) => true
  | _ => false
  end.

(** The minutes read from the text HH:MM are those written. *)
Definition reads_back (h m : nat) : bool :=
  match minutes_of_text (two_digits h ++ ":" ++ two_digits m) with
  | inr z => z =? Z.of_nat h * 60 + Z.of_nat m
  | inl _ => false
  end.

(** The store takes the text HH:MM as that time. *)
Definition stores_back (h m : nat) : bool :=
  match pg_time_in (two_digits h ++ ":" ++ two_digits m) with
  | Some t => time_eqb t (mkTime h m 0)
  | None => false
  end.

(** The business-hours test on HH:MM is the test [8 <= HH < 21]. *)
Definition hours_agree (h m : nat) : bool :=
  Bool.eqb (valid (validate_appointment_time (two_digits h ++ ":" ++ two_digits m)))
           ((8 <=? h) && (h <? 21))%nat.

(** *** Vocabulary of the further properties *)

(** [doctor_name = %s AND date = %s] *)
Definition of_doctor_and_day (doctor day : string) (r : Row) : bool :=
  String.eqb (doctor_name r) doctor && String.eqb (date r) day.

(** The ten decimal digits. *)
Definition digit_chars : list ascii :=
  ["0"; "1"; "2"; "3"; "4"; "5"; "6"; "7"; "8"; "9"]%char.

(** A character that is no digit or one of the ten. *)
Definition digit_listed (c : ascii) : bool :=
  negb (is_digit c) || existsb (Ascii.eqb c) digit_chars.

(** On a text of one or two given digits, [int] reads what the store
    reads. *)
Definition field_agrees (s : string) : bool :=
  match field s, Py.int_literal s with
  | Some n, Some z => z =? Z.of_nat n
  | _, _ => false
  end.

(** Two bookings in each other's way: the same doctor and date, neither
    cancelled, and slots that pass the overlap test of the check. *)
Definition clash (a b : Row) : Prop :=
  doctor_name a = doctor_name b /\ date a = date b
  /\ status a <> "Cancelled" /\ status b <> "Cancelled"
  /\ minutes_of (time a) < minutes_of (time b) + duration b
  /\ minutes_of (time a) + duration a > minutes_of (time b).

(** No two appointments of the table are in each other's way. *)
Definition bookings_apart (w : World) : Prop :=
  forall a b, In a (table w) -> In b (table w) -> id a <> id b -> ~ clash a b.

(** The ids of the table are pairwise different. *)
Definition unique_ids (w : World) : Prop := NoDup (map id (table w)).

(** A row with the values of a payload laid over it: a key that is present
    replaces the column, [new_time] being the time the store reads from the
    payload's time text. *)
Definition patched (data : Data.t) (new_time : TimeOfDay) (r : Row) : Row :=
  mkRow (id r)
        (get (Data.name data) (patient_name r))
        (get (Data.doctorName data) (doctor_name r))
        (get (Data.date data) (date r))
        (if has (Data.time data) then new_time else time r)
        (get (Data.duration data) (duration r))
        (get (Data.status data) (status r))
        (get (Data.mode data) (mode r))
        (get (Data.notes data) (notes r))
        (created_at r) (updated_at r).

(** One assignment applied to a row, where its value converts. *)
Definition applied (r : Row) (a : Assignment) : Row :=
  match convert a with
  | inr change => change r
  | inl _ => r
  end.


(** Two versions of a row that differ at most in status and update stamp. *)
Definition same_but_status (before after : Row) : Prop :=
  id after = id before /\ patient_name after = patient_name before
  /\ doctor_name after = doctor_name before /\ date after = date before
  /\ time after = time before /\ duration after = duration before
  /\ mode after = mode before /\ notes after = notes before
  /\ created_at after = created_at before.

(** Two versions of a row of which only the one named [key] may differ,
    and then not in its id or creation stamp. *)
Definition same_unless_named (key : string) (before after : Row) : Prop :=
  id after = id before /\ created_at after = created_at before
  /\ (id before <> key -> after = before).

(** The service reads a time text as the store does: whatever time the
    store makes of the text, its minutes since midnight are the ones
    [check_time_slot_conflict] computes from the text. *)
Definition reads_alike (s : string) : Prop :=
  forall t, pg_time_in s = Some t -> minutes_of_text s = inr (minutes_of t).

(* ================================================================== *)
(** ** Lemmas and theorems *)

(** *** The runtime on examples *)

Example split_colon_hhmm : Py.split_colon "09:30" = ["09"; "30"].
Proof. reflexivity. Qed.

Example split_colon_plain : Py.split_colon "0930" = ["0930"].
Proof. reflexivity. Qed.

Example int_examples :
  Py.int_literal "09" = Some 9 /\ Py.int_literal " 21 " = Some 21 /\
  Py.int_literal "-1" = Some (-1) /\ Py.int_literal "1_0" = Some 10 /\
  Py.int_literal "" = None /\ Py.int_literal "9a" = None /\
  Py.int_literal "1__0" = None /\ Py.int_literal "+ 5" = None.
Proof. repeat split; reflexivity. Qed.

Example format_02d_examples :
  Py.format_02d 9 = "09" /\ Py.format_02d 30 = "30" /\
  Py.format_02d 0 = "00" /\ Py.format_02d (-5) = "-5" /\
  Py.format_02d 123 = "123".
Proof. repeat split; reflexivity. Qed.

(** *** Times of day and their text *)

Lemma below_all (P : nat -> bool) (n : nat) :
  forallb P (seq 0 n) = true -> forall k, (k < n)%nat -> P k = true.
Proof.
  intros H k Hk. rewrite forallb_forall in H. apply H, in_seq. lia.
Qed.

Lemma two_digits_shape (n : nat) :
  (n < 100)%nat -> exists a b, two_digits n = String a (String b EmptyString).
Proof.
  intros Hn.
  assert (H : two_chars (two_digits n) = true).
  { revert n Hn. apply below_all. vm_compute. reflexivity. }
  destruct (two_digits n) as [|a [|b [|c s]]]; try discriminate.
  now exists a, b.
Qed.

Lemma slice_str_time (t : TimeOfDay) :
  valid_time t = true ->
  Py.slice_to 5 (str_time t) = two_digits (hour t) ++ ":" ++ two_digits (minute t).
Proof.
  unfold valid_time. intros H.
  apply andb_true_iff in H as [H Hs]. apply andb_true_iff in H as [Hh Hm].
  apply Nat.ltb_lt in Hh, Hm.
  destruct (two_digits_shape (hour t)) as (a & b & Eh); [lia|].
  destruct (two_digits_shape (minute t)) as (c & d & Em); [lia|].
  unfold str_time. rewrite Eh, Em. reflexivity.
Qed.

Lemma minutes_of_text_two_digits (h m : nat) :
  (h < 24)%nat -> (m < 60)%nat ->
  minutes_of_text (two_digits h ++ ":" ++ two_digits m)
  = inr (Z.of_nat h * 60 + Z.of_nat m).
Proof.
  intros Hh Hm.
  assert (H : reads_back h m = true).
  { revert m Hm. apply below_all. revert h Hh. apply below_all.
    vm_compute. reflexivity. }
  unfold reads_back in H.
  destruct (minutes_of_text _) as [e|z]; [discriminate|].
  apply Z.eqb_eq in H. now subst.
Qed.

(** The text the service derives from a stored time reads back as the
    minutes since midnight of that time. *)
Lemma minutes_of_text_stored (t : TimeOfDay) :
  valid_time t = true ->
  minutes_of_text (Py.slice_to 5 (str_time t)) = inr (minutes_of t).
Proof.
  intros H. rewrite (slice_str_time t H).
  unfold valid_time in H.
  apply andb_true_iff in H as [H Hs]. apply andb_true_iff in H as [Hh Hm].
  apply Nat.ltb_lt in Hh, Hm.
  now apply minutes_of_text_two_digits.
Qed.

Lemma time_eqb_eq (a b : TimeOfDay) : time_eqb a b = true -> a = b.
Proof.
  destruct a, b. unfold time_eqb. simpl. intros H.
  apply andb_true_iff in H as [H H3]. apply andb_true_iff in H as [H1 H2].
  apply Nat.eqb_eq in H1, H2, H3. now subst.
Qed.

Lemma time_eqb_refl (a : TimeOfDay) : time_eqb a a = true.
Proof. unfold time_eqb. now rewrite !Nat.eqb_refl. Qed.

(** The store takes that text, and keeps hour and minute. *)
Lemma pg_time_in_stored (t : TimeOfDay) :
  valid_time t = true ->
  pg_time_in (Py.slice_to 5 (str_time t)) = Some (mkTime (hour t) (minute t) 0).
Proof.
  intros H. rewrite (slice_str_time t H).
  unfold valid_time in H.
  apply andb_true_iff in H as [H Hs]. apply andb_true_iff in H as [Hh Hm].
  apply Nat.ltb_lt in Hh, Hm.
  assert (E : stores_back (hour t) (minute t) = true).
  { generalize (minute t) Hm. apply below_all.
    generalize (hour t) Hh. apply below_all. vm_compute. reflexivity. }
  unfold stores_back in E.
  destruct (pg_time_in _) as [t'|]; [|discriminate].
  now rewrite (time_eqb_eq _ _ E).
Qed.

Lemma validate_two_digits (h m : nat) :
  (h < 24)%nat -> (m < 60)%nat ->
  valid (validate_appointment_time (two_digits h ++ ":" ++ two_digits m))
  = ((8 <=? h) && (h <? 21))%nat.
Proof.
  intros Hh Hm.
  assert (E : hours_agree h m = true).
  { revert m Hm. apply below_all. revert h Hh. apply below_all.
    vm_compute. reflexivity. }
  unfold hours_agree in E. now apply Bool.eqb_prop in E.
Qed.

(** Business hours on the text of a stored time. *)
Lemma validate_stored (t : TimeOfDay) :
  valid_time t = true ->
  valid (validate_appointment_time (Py.slice_to 5 (str_time t)))
  = ((8 <=? hour t) && (hour t <? 21))%nat.
Proof.
  intros H. rewrite (slice_str_time t H).
  unfold valid_time in H.
  apply andb_true_iff in H as [H Hs]. apply andb_true_iff in H as [Hh Hm].
  apply Nat.ltb_lt in Hh, Hm.
  now apply validate_two_digits.
Qed.

(** *** The gateway on a healthy connection, and in general *)

Lemma execute_query_healthy (q : Query) (w : World) :
  healthy w -> Db.execute_query q w = (run_query q w, w).
Proof.
  unfold healthy, Db.execute_query, Db.try_query, Db.next_outage. intros H.
  rewrite H. destruct (run_query q w) as [e|rows] eqn:E; [|reflexivity].
  now rewrite H, E.
Qed.

Lemma execute_mutation_healthy (m : Mutation) (w : World) :
  healthy w ->
  Db.execute_mutation m w
  = match run_mutation m w with
    | inl e => (inl e, w)
    | inr (count, w') => (inr count, w')
    end.
Proof.
  unfold healthy, Db.execute_mutation, Db.try_mutation, Db.next_outage. intros H.
  rewrite H. destruct (run_mutation m w) as [e|[count w']] eqn:E; [|reflexivity].
  now rewrite H, E.
Qed.

Lemma run_query_table (q : Query) (w w' : World) :
  table w = table w' -> run_query q w = run_query q w'.
Proof. intros E. destruct q; simpl; now rewrite E. Qed.

Lemma next_outage_table (w : World) : table (snd (Db.next_outage w)) = table w.
Proof. unfold Db.next_outage. now destruct (outages w). Qed.

Lemma try_query_table (q : Query) (w : World) :
  table (snd (Db.try_query q w)) = table w.
Proof.
  unfold Db.try_query. pose proof (next_outage_table w) as H.
  destruct (Db.next_outage w) as [down w1]. simpl in H. now destruct down.
Qed.

Lemma try_query_rows (q : Query) (w w' : World) (rows : list Row) :
  Db.try_query q w = (inr rows, w') -> run_query q w = inr rows.
Proof.
  unfold Db.try_query. pose proof (next_outage_table w) as H.
  destruct (Db.next_outage w) as [down w1]. simpl in H.
  destruct down; intros E; [discriminate|].
  injection E as E1 E2. rewrite <- E1. apply run_query_table. now symmetry.
Qed.

(** A SELECT through the gateway leaves the table alone. *)
Lemma execute_query_table (q : Query) (w : World) :
  table (snd (Db.execute_query q w)) = table w.
Proof.
  unfold Db.execute_query. pose proof (try_query_table q w) as H.
  destruct (Db.try_query q w) as [[e|rows] w1]; simpl in H; [|assumption].
  now rewrite try_query_table.
Qed.

(** Rows it returns are those the statement selects from the table. *)
Lemma execute_query_rows (q : Query) (w w' : World) (rows : list Row) :
  Db.execute_query q w = (inr rows, w') -> run_query q w = inr rows.
Proof.
  unfold Db.execute_query. pose proof (try_query_table q w) as H.
  destruct (Db.try_query q w) as [[e|rows1] w1] eqn:E; simpl in H.
  - intros E2. apply try_query_rows in E2. rewrite <- E2.
    now apply run_query_table.
  - intros E2. inversion E2; subst. now apply try_query_rows in E.
Qed.

(** Two selections with the same rows get the same answer. *)
Lemma execute_query_fst (q q' : Query) (w w' : World) :
  outages w = outages w' -> run_query q w = run_query q' w' ->
  fst (Db.execute_query q w) = fst (Db.execute_query q' w').
Proof.
  intros Ho Hq.
  assert (T : forall v v', outages v = outages v' -> run_query q v = run_query q' v' ->
            fst (Db.try_query q v) = fst (Db.try_query q' v')
            /\ outages (snd (Db.try_query q v)) = outages (snd (Db.try_query q' v'))).
  { intros v v' Eo Eq. unfold Db.try_query, Db.next_outage. rewrite <- Eo.
    destruct (outages v) as [|down later] eqn:Ov.
    - simpl. split; [exact Eq|congruence].
    - destruct down; simpl; [tauto|].
      split; [|reflexivity].
      transitivity (run_query q v); [now apply run_query_table|].
      rewrite Eq. now apply run_query_table. }
  unfold Db.execute_query.
  destruct (T w w' Ho Hq) as [T1 T2].
  pose proof (try_query_table q w) as Tw. pose proof (try_query_table q' w') as Tw'.
  destruct (Db.try_query q w) as [[e|rows] w1], (Db.try_query q' w') as [[e'|rows'] w1'];
    simpl in *; try discriminate; try assumption.
  apply T; [assumption|].
  transitivity (run_query q w); [now apply run_query_table|].
  rewrite Hq. symmetry. now apply run_query_table.
Qed.

(** *** The scan *)

Lemma is_active_of_candidate (doctor day : string) (exclude : option string) (apt : Row) :
  is_active_of doctor day (if truthy exclude then exclude else None) apt = true
  <-> candidate doctor day exclude apt.
Proof.
  unfold is_active_of, candidate.
  rewrite !andb_true_iff, !String.eqb_eq, negb_true_iff, String.eqb_neq.
  split.
  - intros [[[Hd Hy] Hs] He]. repeat split; try assumption.
    intros key -> Hk. simpl in He.
    destruct (String.eqb key "") eqn:K.
    + apply String.eqb_eq in K. contradiction.
    + simpl in He. apply negb_true_iff in He. now apply String.eqb_neq in He.
  - intros (Hd & Hy & Hs & He). repeat split; try assumption.
    destruct exclude as [key|]; simpl; [|reflexivity].
    destruct (String.eqb key "") eqn:K; simpl; [reflexivity|].
    apply negb_true_iff, String.eqb_neq, (He key eq_refl).
    now apply String.eqb_neq.
Qed.

Lemma overlaps_iff (start_minutes end_minutes : Z) (apt : Row) :
  overlaps start_minutes end_minutes apt = true
  <-> start_minutes < minutes_of (time apt) + duration apt
      /\ end_minutes > minutes_of (time apt).
Proof. unfold overlaps. rewrite andb_true_iff, Z.ltb_lt, Z.gtb_ltb, Z.ltb_lt. lia. Qed.

(** The loop stops at the first row, in the order given, that passes the
    overlap test. *)
Lemma first_overlap_find (existing : list Row) (start_minutes end_minutes : Z) :
  Forall (fun r => valid_time (time r) = true) existing ->
  match find (overlaps start_minutes end_minutes) existing with
  | Some apt =>
      exists text,
        first_overlap existing start_minutes end_minutes
        = inr (mkAvailability false (Some text) (Some (info_of apt)))
  | None =>
      first_overlap existing start_minutes end_minutes
      = inr (mkAvailability true None None)
  end.
Proof.
  induction 1 as [|apt later Hv _ IH]; simpl; [reflexivity|].
  rewrite (minutes_of_text_stored _ Hv). simpl.
  unfold overlaps at 1.
  destruct ((start_minutes <? minutes_of (time apt) + duration apt)
            && (end_minutes >? minutes_of (time apt))); [|exact IH].
  eexists. reflexivity.
Qed.

Lemma find_none_iff {A} (f : A -> bool) (l : list A) :
  find f l = None <-> forall x, In x l -> f x = false.
Proof.
  split.
  - intros H x Hx. now apply (find_none f l H).
  - induction l as [|a l IH]; simpl; [reflexivity|]. intros H.
    rewrite (H a (or_introl eq_refl)). apply IH. intros x Hx. apply H. now right.
Qed.

(** On a healthy connection the check is the scan of the selection. *)
Lemma check_healthy (w : World) (doctor day at_time : string) (minutes : Z)
    (exclude : option string) (start : Z) :
  healthy w -> minutes_of_text at_time = inr start ->
  check_time_slot_conflict doctor day at_time minutes exclude w
  = (match first_overlap
             (filter (is_active_of doctor day (if truthy exclude then exclude else None))
                     (table w))
             start (start + minutes) with
     | inr answer => answer
     | inl e => mkAvailability false
                  (Some ("Error checking availability: " ++ Py.str_exn e)) None
     end, w).
Proof.
  intros Hw Ht.
  unfold check_time_slot_conflict, guarded, Db.bind, Db.lift.
  rewrite Ht, (execute_query_healthy _ _ Hw). simpl.
  now destruct (first_overlap _ _ _).
Qed.

Lemma times_valid_filter (f : Row -> bool) (w : World) :
  times_valid w -> Forall (fun r => valid_time (time r) = true) (filter f (table w)).
Proof.
  unfold times_valid. rewrite !Forall_forall. intros H r Hr.
  apply filter_In in Hr. now apply H.
Qed.

(** ... and it answers by the first selected row that overlaps. *)
Lemma check_find (w : World) (doctor day at_time : string) (minutes : Z)
    (exclude : option string) (start : Z) :
  healthy w -> times_valid w -> minutes_of_text at_time = inr start ->
  match find (overlaps start (start + minutes))
             (filter (is_active_of doctor day (if truthy exclude then exclude else None))
                     (table w)) with
  | Some apt =>
      exists text,
        check_time_slot_conflict doctor day at_time minutes exclude w
        = (mkAvailability false (Some text) (Some (info_of apt)), w)
  | None =>
      check_time_slot_conflict doctor day at_time minutes exclude w
      = (mkAvailability true None None, w)
  end.
Proof.
  intros Hw Hv Ht. rewrite (check_healthy w _ _ _ _ _ start Hw Ht).
  pose proof (first_overlap_find _ start (start + minutes)
                (times_valid_filter
                   (is_active_of doctor day (if truthy exclude then exclude else None))
                   w Hv)) as H.
  destruct (find _ _) as [apt|].
  - destruct H as [text H]. exists text. now rewrite H.
  - now rewrite H.
Qed.

(* ------------------------------------------------------------------ *)
(** *** Conflict detection *)

Lemma slots_meet (s d b e : Z) :
  0 < d -> 0 < e ->
  (s < b + e /\ s + d > b) <-> (exists m, in_slot s d m /\ in_slot b e m).
Proof.
  unfold in_slot. intros Hd He. split.
  - intros [H1 H2]. exists (Z.max s b). lia.
  - intros (m & H1 & H2). lia.
Qed.

(** C1.  On a healthy connection, for a candidate whose time text reads as
    [start] minutes, [check_time_slot_conflict] reports a conflict exactly
    when some row it is handed (same doctor and date, not cancelled, not
    excluded) satisfies [start < otherEnd && end > otherStart]; for positive
    durations this is exactly when the half-open minute slots
    [[time, time + duration)] share a minute. *)
Theorem check_time_slot_conflict_half_open
    (w : World) (doctor day at_time : string) (minutes : Z)
    (exclude : option string) (start : Z) :
  healthy w -> times_valid w -> minutes_of_text at_time = inr start ->
  let answer := fst (check_time_slot_conflict doctor day at_time minutes exclude w) in
  (available answer = false
   <-> exists apt,
         In apt (table w) /\ candidate doctor day exclude apt
         /\ start < minutes_of (time apt) + duration apt
         /\ start + minutes > minutes_of (time apt))
  /\ (0 < minutes ->
      (forall apt, In apt (table w) -> candidate doctor day exclude apt ->
                   0 < duration apt) ->
      (available answer = false
       <-> exists apt m,
             In apt (table w) /\ candidate doctor day exclude apt
             /\ in_slot start minutes m
             /\ in_slot (minutes_of (time apt)) (duration apt) m)).
Proof.
  intros Hw Hv Ht answer.
  assert (Main : available answer = false
                 <-> exists apt,
                       In apt (table w) /\ candidate doctor day exclude apt
                       /\ start < minutes_of (time apt) + duration apt
                       /\ start + minutes > minutes_of (time apt)).
  { subst answer.
    pose proof (check_find w doctor day at_time minutes exclude start Hw Hv Ht) as H.
    destruct (find _ _) as [apt|] eqn:F.
    - destruct H as [text H]. rewrite H. simpl. split; [intros _|reflexivity].
      apply find_some in F as [Hin Ho].
      apply filter_In in Hin as [Hin Hc].
      apply is_active_of_candidate in Hc. apply overlaps_iff in Ho.
      exists apt. tauto.
    - rewrite H. simpl. split; [discriminate|].
      intros (apt & Hin & Hc & Ho). exfalso.
      rewrite find_none_iff in F.
      assert (E : overlaps start (start + minutes) apt = false).
      { apply F, filter_In. split; [assumption|]. now apply is_active_of_candidate. }
      assert (E' : overlaps start (start + minutes) apt = true)
        by now apply overlaps_iff.
      congruence. }
  split; [exact Main|].
  intros Hm Hpos. rewrite Main. split.
  - intros (apt & Hin & Hc & Ho).
    apply (slots_meet start minutes _ (duration apt) Hm (Hpos apt Hin Hc)) in Ho.
    destruct Ho as (m & H1 & H2). exists apt, m. tauto.
  - intros (apt & m & Hin & Hc & H1 & H2). exists apt.
    split; [assumption|]. split; [assumption|].
    apply (slots_meet start minutes _ (duration apt) Hm (Hpos apt Hin Hc)).
    now exists m.
Qed.

(** With Alice booked 09:00 for 30 minutes, 09:29 conflicts and 09:30 does
    not. *)
Lemma check_time_slot_conflict_half_open_witness :
  available (fst (check_time_slot_conflict "Dr. Smith" "2025-12-15" "09:29" 30 None
                    (open_store [alice]))) = false
  /\ available (fst (check_time_slot_conflict "Dr. Smith" "2025-12-15" "09:30" 30 None
                       (open_store [alice]))) = true.
Proof.
  assert (Hw : healthy (open_store [alice])) by reflexivity.
  assert (Hv : times_valid (open_store [alice])) by (repeat constructor).
  split.
  - pose proof (check_time_slot_conflict_half_open (open_store [alice])
                  "Dr. Smith" "2025-12-15" "09:29" 30 None 569 Hw Hv eq_refl) as T.
    cbv zeta in T. destruct T as [T _]. apply T.
    exists alice. simpl. unfold candidate. simpl.
    repeat split; try lia; try discriminate. left. reflexivity.
  - apply not_false_is_true. intros H.
    pose proof (check_time_slot_conflict_half_open (open_store [alice])
                  "Dr. Smith" "2025-12-15" "09:30" 30 None 570 Hw Hv eq_refl) as T.
    cbv zeta in T. destruct T as [T _]. apply T in H.
    destruct H as (apt & [<-|[]] & _ & H1 & _). vm_compute in H1. discriminate.
Defined.

(* ------------------------------------------------------------------ *)
(** *** Business hours *)

Lemma index_0_split (s : string) :
  Py.index (Py.split_colon s) 0 = inr (hd "" (Py.split_colon s)).
Proof.
  destruct s as [|c s]; [reflexivity|]. simpl.
  destruct (Ascii.eqb c ":"); [reflexivity|].
  now destruct (Py.split_colon s).
Qed.

(** C2.  [validate_appointment_time] accepts a text exactly when the text
    before its first colon reads as an hour with [8 <= hour < 21]; on every
    time of day written HH:MM that is [8 <= HH < 21].  08:00 and 20:59 pass,
    07:59 and 21:00 do not.  The duration has no part in it: a rejected time
    fails [create_appointment] whatever the duration, leaving the store as
    it was, and 20:45 for 30 minutes is created. *)
Theorem validate_appointment_time_start_hour_only :
  (forall time_str,
      valid (validate_appointment_time time_str) = true
      <-> exists hour,
            Py.int_literal (hd "" (Py.split_colon time_str)) = Some hour
            /\ 8 <= hour < 21)
  /\ (forall h m, (h < 24)%nat -> (m < 60)%nat ->
        (valid (validate_appointment_time (two_digits h ++ ":" ++ two_digits m)) = true
         <-> (8 <= h < 21)%nat))
  /\ valid (validate_appointment_time "08:00") = true
  /\ valid (validate_appointment_time "20:59") = true
  /\ valid (validate_appointment_time "07:59") = false
  /\ valid (validate_appointment_time "21:00") = false
  /\ (forall data w at_time,
        Data.time data = Some at_time ->
        valid (validate_appointment_time at_time) = false ->
        success (fst (create_appointment data w)) = false
        /\ snd (create_appointment data w) = w)
  /\ valid (validate_appointment_time "20:45") = true
  /\ success (fst (create_appointment late_booking (open_store []))) = true.
Proof.
  split; [|split; [|repeat split; try reflexivity]].
  - intros time_str. unfold validate_appointment_time.
    rewrite index_0_split. simpl. unfold Py.int.
    destruct (Py.int_literal _) as [hour|]; simpl.
    + destruct ((hour <? 8) || (hour >=? 21)) eqn:E; simpl.
      * split; [discriminate|]. intros (h' & Eh & Hh). injection Eh as <-.
        apply orb_true_iff in E. rewrite Z.ltb_lt, Z.geb_leb, Z.leb_le in E. lia.
      * split; [intros _|reflexivity]. exists hour. split; [reflexivity|].
        apply orb_false_iff in E. rewrite Z.ltb_ge, Z.geb_leb, Z.leb_gt in E. lia.
    + split; [discriminate|]. intros (h' & Eh & _). discriminate.
  - intros h m Hh Hm. rewrite (validate_two_digits h m Hh Hm).
    rewrite andb_true_iff, Nat.leb_le, Nat.ltb_lt. reflexivity.
  - unfold create_appointment, guarded, Db.bind, item.
    rewrite H. unfold Db.ret at 1. rewrite H0. simpl.
    now destruct (validation_message _).
  - unfold create_appointment, guarded, Db.bind, item.
    rewrite H. unfold Db.ret at 1. rewrite H0. simpl.
    now destruct (validation_message _).
Qed.

(** The boundary at 20:59 / 21:00, and a rejected 21:00 with two durations. *)
Lemma validate_appointment_time_start_hour_only_witness :
  (valid (validate_appointment_time (two_digits 20 ++ ":" ++ two_digits 59)) = true
   <-> (8 <= 20 < 21)%nat)
  /\ success (fst (create_appointment (request "Bob" "Dr. Smith" "2025-12-15" "21:00" 30)
                     (open_store []))) = false
  /\ success (fst (create_appointment (request "Bob" "Dr. Smith" "2025-12-15" "21:00" 1)
                     (open_store [alice]))) = false.
Proof.
  destruct validate_appointment_time_start_hour_only
    as (_ & Hhm & _ & _ & _ & _ & Hcreate & _).
  split; [apply Hhm; lia|].
  split.
  - apply (Hcreate (request "Bob" "Dr. Smith" "2025-12-15" "21:00" 30)
                   (open_store []) "21:00"); reflexivity.
  - apply (Hcreate (request "Bob" "Dr. Smith" "2025-12-15" "21:00" 1)
                   (open_store [alice]) "21:00"); reflexivity.
Defined.

(* ------------------------------------------------------------------ *)
(** *** What the check does on any connection *)

(** The answer of the check: the handler's on an unreadable time or a
    raising query, the scan's otherwise. *)
Lemma check_fst (w : World) (doctor day at_time : string) (minutes : Z)
    (exclude : option string) :
  fst (check_time_slot_conflict doctor day at_time minutes exclude w)
  = match minutes_of_text at_time with
    | inl e => checking_failed e
    | inr start =>
        match fst (Db.execute_query
                     (SelectActiveOfDoctor doctor day
                        (if truthy exclude then exclude else None)) w) with
        | inl e => checking_failed e
        | inr existing =>
            match first_overlap existing start (start + minutes) with
            | inl e => checking_failed e
            | inr answer => answer
            end
        end
    end.
Proof.
  unfold check_time_slot_conflict, guarded, Db.bind, Db.lift.
  destruct (minutes_of_text at_time) as [e|start]; [reflexivity|].
  destruct (Db.execute_query _ w) as [[e|existing] w1]; [reflexivity|]. simpl.
  now destruct (first_overlap _ _ _).
Qed.

(** The check never writes. *)
Lemma check_table (w : World) (doctor day at_time : string) (minutes : Z)
    (exclude : option string) :
  table (snd (check_time_slot_conflict doctor day at_time minutes exclude w)) = table w.
Proof.
  unfold check_time_slot_conflict, guarded, Db.bind, Db.lift.
  destruct (minutes_of_text at_time) as [e|start]; [reflexivity|].
  pose proof (execute_query_table
                (SelectActiveOfDoctor doctor day (if truthy exclude then exclude else None))
                w) as H.
  destruct (Db.execute_query _ w) as [[e|existing] w1]; simpl in *; [assumption|].
  now destruct (first_overlap _ _ _).
Qed.

(** A failed scan step still answers "not available", with a message. *)
Lemma first_overlap_message (existing : list Row) (start_minutes end_minutes : Z)
    (answer : Availability) :
  first_overlap existing start_minutes end_minutes = inr answer ->
  available answer = false -> availability_message answer <> None.
Proof.
  induction existing as [|apt later IH]; simpl.
  - intros E. inversion E. discriminate.
  - destruct (minutes_of_text _) as [e|apt_start]; simpl; [discriminate|].
    destruct (_ && _); [|exact IH].
    intros E. inversion E. discriminate.
Qed.

(** Whenever the check says "not available", it says why. *)
Lemma check_message (w : World) (doctor day at_time : string) (minutes : Z)
    (exclude : option string) :
  available (fst (check_time_slot_conflict doctor day at_time minutes exclude w)) = false ->
  exists text,
    availability_message
      (fst (check_time_slot_conflict doctor day at_time minutes exclude w)) = Some text.
Proof.
  rewrite check_fst.
  destruct (minutes_of_text at_time) as [e|start]; [now eexists|].
  destruct (fst _) as [e|existing]; [now eexists|].
  destruct (first_overlap _ _ _) as [e|answer] eqn:E; [now eexists|].
  intros H. pose proof (first_overlap_message _ _ _ _ E H) as N.
  destruct (availability_message answer) as [text|]; [now exists text|contradiction].
Qed.

(* ------------------------------------------------------------------ *)
(** *** UPDATE ... WHERE id = key *)

Lemma update_where_done (key : string) (change : Row -> Row) (ok : Row -> bool)
    (rows rows' : list Row) (n : Z) :
  update_where key change ok rows = inr (n, rows') ->
  rows' = map (changed key change) rows
  /\ n = Z.of_nat (List.length (matching key rows))
  /\ (forall r, In r (matching key rows) -> ok (change r) = true).
Proof.
  revert rows' n. induction rows as [|r rest IH]; simpl; intros rows' n E.
  - inversion E. repeat split. intros r [].
  - unfold changed at 1. unfold matching in *. simpl.
    destruct (String.eqb (id r) key) eqn:K.
    + destruct (ok (change r)) eqn:A; [|discriminate].
      destruct (update_where key change ok rest) as [e|[n0 rest']]; [discriminate|].
      simpl in E. inversion E; subst.
      destruct (IH rest' n0 eq_refl) as (-> & -> & Hok).
      repeat split.
      * simpl. lia.
      * intros x [<-|Hx]; [assumption|now apply Hok].
    + destruct (update_where key change ok rest) as [e|[n0 rest']]; [discriminate|].
      simpl in E. inversion E; subst.
      destruct (IH rest' n eq_refl) as (-> & -> & Hok).
      repeat split. exact Hok.
Qed.

Lemma update_where_accepted (key : string) (change : Row -> Row) (ok : Row -> bool)
    (rows : list Row) :
  (forall r, In r (matching key rows) -> ok (change r) = true) ->
  update_where key change ok rows
  = inr (Z.of_nat (List.length (matching key rows)), map (changed key change) rows).
Proof.
  unfold matching. induction rows as [|r rest IH]; simpl; intros Hok; [reflexivity|].
  unfold changed at 1.
  destruct (String.eqb (id r) key) eqn:K.
  - rewrite (Hok r (or_introl eq_refl)).
    rewrite IH by (intros x Hx; apply Hok; now right).
    cbn [Py.bind Py.ret List.length]. apply f_equal.
    apply (f_equal2 pair); [lia|reflexivity].
  - rewrite IH by exact Hok. reflexivity.
Qed.

Lemma matching_nil (key : string) (rows : list Row) :
  matching key rows = [] <-> forall r, In r rows -> id r <> key.
Proof.
  unfold matching. split.
  - intros E r Hr K.
    assert (In r (filter (fun r => String.eqb (id r) key) rows)).
    { apply filter_In. split; [assumption|]. now apply String.eqb_eq. }
    rewrite E in H. contradiction.
  - induction rows as [|r rest IH]; simpl; intros H; [reflexivity|].
    destruct (String.eqb (id r) key) eqn:K.
    + apply String.eqb_eq in K. exfalso. apply (H r); auto.
    + apply IH. intros x Hx. apply H. now right.
Qed.

Lemma changed_none (key : string) (change : Row -> Row) (rows : list Row) :
  matching key rows = [] -> map (changed key change) rows = rows.
Proof.
  rewrite matching_nil. intros H.
  induction rows as [|r rest IH]; simpl; [reflexivity|].
  unfold changed at 1.
  destruct (String.eqb (id r) key) eqn:K.
  - apply String.eqb_eq in K. exfalso. apply (H r); simpl; auto.
  - f_equal. apply IH. intros x Hx. apply H. now right.
Qed.

(* ------------------------------------------------------------------ *)
(** *** Mutations through the gateway *)

Lemma same_store_refl (w : World) : same_store w w.
Proof. now repeat split. Qed.

Lemma same_store_trans (a b c : World) :
  same_store a b -> same_store b c -> same_store a c.
Proof. unfold same_store. intros (?&?&?&?) (?&?&?&?). repeat split; congruence. Qed.

Lemma next_outage_same (w : World) : same_store w (snd (Db.next_outage w)).
Proof. unfold Db.next_outage. destruct (outages w); now repeat split. Qed.

Lemma try_mutation_cases (m : Mutation) (w : World) :
  match Db.try_mutation m w with
  | (inr count, w') => exists w1, same_store w w1 /\ run_mutation m w1 = inr (count, w')
  | (inl _, w') => same_store w w'
  end.
Proof.
  unfold Db.try_mutation. pose proof (next_outage_same w) as H.
  destruct (Db.next_outage w) as [down w1]. simpl in H.
  destruct down; [assumption|].
  destruct (run_mutation m w1) as [e|[count w2]] eqn:E; [assumption|].
  now exists w1.
Qed.

(** A mutation through the gateway commits once, on the store as it was,
    or raises and leaves the store as it was. *)
Lemma execute_mutation_cases (m : Mutation) (w : World) :
  match Db.execute_mutation m w with
  | (inr count, w') => exists w1, same_store w w1 /\ run_mutation m w1 = inr (count, w')
  | (inl _, w') => same_store w w'
  end.
Proof.
  unfold Db.execute_mutation. pose proof (try_mutation_cases m w) as H.
  destruct (Db.try_mutation m w) as [[e|count] w1]; [|assumption].
  pose proof (try_mutation_cases m w1) as H1.
  destruct (Db.try_mutation m w1) as [[e'|count] w2].
  - now apply (same_store_trans _ w1).
  - destruct H1 as (w3 & S3 & R). exists w3. split; [|assumption].
    now apply (same_store_trans _ w1).
Qed.

Lemma contains_In (x : string) (l : list string) :
  Py.contains x l = true <-> In x l.
Proof.
  unfold Py.contains. rewrite existsb_exists. split.
  - intros (y & Hy & E). apply String.eqb_eq in E. now subst.
  - intros H. exists x. split; [assumption|apply String.eqb_refl].
Qed.

(* ------------------------------------------------------------------ *)
(** *** The status-only update *)

(** C5.  [update_appointment_status]: a status outside the four values is
    answered with the validation message and the store is not touched at
    all; for one of the four values, a committed update of zero rows is
    answered "not found" with the table as it was, and a committed update
    of some rows is answered with success, the new status and a time stamp,
    the rows of that id carrying the new status. *)
Theorem update_appointment_status_outcomes
    (appointment_id new_status : string) (w : World) :
  (~ In new_status valid_statuses ->
   update_appointment_status appointment_id new_status w
   = (mkStatusReply false
        "Invalid status. Must be one of: Confirmed, Scheduled, Upcoming, Cancelled"
        appointment_id None None, w))
  /\ (In new_status valid_statuses ->
      forall count w',
        Db.execute_mutation (UpdateStatus new_status appointment_id) w = (inr count, w') ->
        (count = 0 ->
         update_appointment_status appointment_id new_status w
         = (mkStatusReply false ("Appointment not found: " ++ appointment_id)
              appointment_id None None, w')
         /\ table w' = table w
         /\ forall r, In r (table w) -> id r <> appointment_id)
        /\ (count <> 0 ->
            update_appointment_status appointment_id new_status w
            = (mkStatusReply true ("Appointment status updated to " ++ new_status)
                 appointment_id (Some new_status) (Some (clock w')), w')
            /\ table w'
               = map (changed appointment_id (restamped new_status (clock w))) (table w)
            /\ exists r, In r (table w) /\ id r = appointment_id)).
Proof.
  split.
  - intros H. rewrite <- contains_In in H. apply not_true_is_false in H.
    unfold update_appointment_status, guarded. now rewrite H.
  - intros H count w' E. rewrite <- contains_In in H.
    pose proof (execute_mutation_cases (UpdateStatus new_status appointment_id) w) as C.
    rewrite E in C. destruct C as (w1 & (St & Sa & Sc & Sn) & R).
    simpl in R. rewrite St, Sa, Sc in R.
    destruct (update_where _ _ _ _) as [e|[n rows]] eqn:U; [discriminate|].
    simpl in R. inversion R; subst count w'. clear R.
    apply update_where_done in U as (Hrows & Hn & _).
    unfold update_appointment_status, guarded, Db.bind.
    rewrite H. cbv beta iota delta [negb]. rewrite E.
    unfold Db.now, Db.ret. cbn [clock tick with_table].
    split; intros Hc.
    + rewrite Hc. simpl. split; [reflexivity|].
      assert (M : matching appointment_id (table w) = []).
      { destruct (matching appointment_id (table w)); [reflexivity|].
        simpl in Hn. lia. }
      split.
      * rewrite Hrows. now apply changed_none.
      * now apply matching_nil.
    + assert (P : (n >? 0) = true) by (apply Z.gtb_lt; lia).
      rewrite P. simpl. split; [reflexivity|]. split; [exact Hrows|].
      destruct (matching appointment_id (table w)) as [|r rest] eqn:M.
      * simpl in Hn. lia.
      * exists r.
        assert (I : In r (matching appointment_id (table w)))
          by (rewrite M; now left).
        apply filter_In in I as [I K]. apply String.eqb_eq in K. tauto.
Qed.

(** An unknown status leaves a booked store alone; a known one on a known
    id is applied, on an unknown id it is "not found". *)
Lemma update_appointment_status_outcomes_witness :
  snd (update_appointment_status "a1" "Done" (open_store [alice])) = open_store [alice]
  /\ status_success (fst (update_appointment_status "a1" "Done" (open_store [alice]))) = false
  /\ new_status_value
       (fst (update_appointment_status "a1" "Confirmed" (open_store [alice])))
     = Some "Confirmed"
  /\ status_message
       (fst (update_appointment_status "zz" "Confirmed" (open_store [alice])))
     = "Appointment not found: zz".
Proof.
  assert (N : ~ In "Done" valid_statuses).
  { simpl. intros [H|[H|[H|[H|[]]]]]; discriminate. }
  assert (Y : In "Confirmed" valid_statuses) by (simpl; tauto).
  destruct (update_appointment_status_outcomes "a1" "Done" (open_store [alice]))
    as [Bad _].
  destruct (update_appointment_status_outcomes "a1" "Confirmed" (open_store [alice]))
    as [_ Good].
  destruct (update_appointment_status_outcomes "zz" "Confirmed" (open_store [alice]))
    as [_ Missing].
  rewrite (Bad N). split; [reflexivity|]. split; [reflexivity|]. split.
  - destruct (Good Y 1 _ eq_refl) as [_ G].
    destruct G as [G _]; [discriminate|]. now rewrite G.
  - destruct (Missing Y 0 _ eq_refl) as [G _].
    destruct G as [G _]; [reflexivity|]. now rewrite G.
Defined.

(* ------------------------------------------------------------------ *)
(** *** Delete *)

Lemma without_In (key : string) (rows : list Row) (r : Row) :
  In r (without key rows) -> id r <> key.
Proof.
  unfold without. intros H. apply filter_In in H as [_ H].
  now apply negb_true_iff, String.eqb_neq in H.
Qed.

Lemma select_by_id (key : string) (w : World) :
  run_query (SelectById key) w = inr (matching key (table w)).
Proof. reflexivity. Qed.

(** C9.  [delete_appointment] on a healthy connection: with no row of that
    id it answers "Appointment not found" and leaves the store as it was;
    with one, it answers with the row as it was read before the DELETE, and
    the table is left without the rows of that id, so that a second delete
    and an update of that id are "not found".  On any connection it either
    succeeds so, or fails and leaves the table as it was. *)
Theorem delete_appointment_outcomes (appointment_id : string) (w : World) :
  (healthy w ->
   (forall r, In r (table w) -> id r <> appointment_id) ->
   delete_appointment appointment_id w = (not_found, w))
  /\ (healthy w ->
      forall found others,
        matching appointment_id (table w) = found :: others ->
        let after := snd (delete_appointment appointment_id w) in
        fst (delete_appointment appointment_id w)
        = mkReply true "Appointment deleted successfully"
            (Some (_format_appointment found)) None
        /\ table after = without appointment_id (table w)
        /\ (forall r, In r (table after) -> id r <> appointment_id)
        /\ fst (delete_appointment appointment_id after) = not_found
        /\ forall data, fst (update_appointment appointment_id data after) = not_found)
  /\ (let reply := fst (delete_appointment appointment_id w) in
      let after := snd (delete_appointment appointment_id w) in
      (success reply = true
       /\ (exists found,
              In found (table w) /\ id found = appointment_id
              /\ data reply = Some (_format_appointment found))
       /\ table after = without appointment_id (table w))
      \/ (success reply = false /\ table after = table w)).
Proof.
  assert (NF : forall v, healthy v ->
             (forall r, In r (table v) -> id r <> appointment_id) ->
             delete_appointment appointment_id v = (not_found, v)).
  { intros v Hv Hno. apply matching_nil in Hno.
    unfold delete_appointment, guarded, Db.bind.
    rewrite (execute_query_healthy _ _ Hv), select_by_id, Hno. reflexivity. }
  split; [exact (NF w)|]. split.
  - intros Hw found others M after.
    assert (D : delete_appointment appointment_id w
                = (mkReply true "Appointment deleted successfully"
                     (Some (_format_appointment found)) None,
                   tick (with_table (without appointment_id (table w)) w))).
    { unfold delete_appointment, guarded, Db.bind.
      rewrite (execute_query_healthy _ _ Hw), select_by_id, M.
      rewrite (execute_mutation_healthy _ _ Hw).
      cbn [run_mutation Py.ret]. fold (matching appointment_id (table w)).
      rewrite M. reflexivity. }
    subst after. rewrite D. cbn [fst snd].
    assert (Ha : healthy (tick (with_table (without appointment_id (table w)) w)))
      by exact Hw.
    assert (Hn : forall r,
               In r (table (tick (with_table (without appointment_id (table w)) w))) ->
               id r <> appointment_id)
      by (intros r; apply without_In).
    repeat split; try assumption.
    + now rewrite (NF _ Ha Hn).
    + intros data'. apply matching_nil in Hn.
      unfold update_appointment, guarded, Db.bind.
      rewrite (execute_query_healthy _ _ Ha), select_by_id, Hn. reflexivity.
  - cbv zeta. unfold delete_appointment, guarded, Db.bind.
    pose proof (execute_query_table (SelectById appointment_id) w) as T.
    destruct (Db.execute_query (SelectById appointment_id) w) as [[e|rows] w1] eqn:Q;
      cbn [fst snd] in *; [now right|].
    apply execute_query_rows in Q. rewrite select_by_id in Q. inversion Q as [R].
    destruct (matching appointment_id (table w)) as [|found others] eqn:M;
      [now right|].
    pose proof (execute_mutation_cases (DeleteById appointment_id) w1) as C.
    destruct (Db.execute_mutation (DeleteById appointment_id) w1) as [[e|count] w2];
      cbn [fst snd].
    + right. destruct C as (C & _). split; [reflexivity|congruence].
    + destruct C as (w3 & (St & _) & C). cbn [run_mutation Py.ret] in C.
      inversion C as [[Hc Hw2]]. clear C.
      fold (matching appointment_id (table w3)). rewrite St, T, M.
      left. cbn [List.length]. split; [reflexivity|]. split.
      * exists found.
        assert (I : In found (matching appointment_id (table w)))
          by (rewrite M; now left).
        apply filter_In in I as [I K]. apply String.eqb_eq in K. tauto.
      * reflexivity.
Qed.

(** Deleting Alice's booking answers with it and empties the table;
    deleting an id nobody has changes nothing. *)
Lemma delete_appointment_outcomes_witness :
  delete_appointment "zz" (open_store [alice]) = (not_found, open_store [alice])
  /\ data (fst (delete_appointment "a1" (open_store [alice])))
     = Some (_format_appointment alice)
  /\ table (snd (delete_appointment "a1" (open_store [alice]))) = [].
Proof.
  destruct (delete_appointment_outcomes "zz" (open_store [alice])) as (Missing & _).
  destruct (delete_appointment_outcomes "a1" (open_store [alice])) as (_ & Found & _).
  split.
  - apply Missing; [reflexivity|].
    intros r [<-|[]]. discriminate.
  - destruct (Found eq_refl alice [] eq_refl) as (F & T & _).
    rewrite F, T. split; reflexivity.
Defined.

(* ------------------------------------------------------------------ *)
(** *** Create *)

Lemma insert_newest_cons (r : Row) (l : list Row) : insert_newest r l <> [].
Proof. destruct l as [|x l]; simpl; [discriminate|]. now destruct (_ <=? _). Qed.

Lemma newest_first_nil (l : list Row) : newest_first l = [] -> l = [].
Proof.
  destruct l as [|r l]; [reflexivity|]. simpl. intros H.
  now apply insert_newest_cons in H.
Qed.

(** A request with the five required keys, inside business hours, on a
    free slot and on a healthy connection is inserted as it stands, if the
    store takes the time text and the row. *)
Lemma create_appointment_succeeds (w : World) (data : Data.t)
    (who doctor day at_time : string) (minutes start : Z) (t : TimeOfDay) :
  Data.name data = Some who -> Data.doctorName data = Some doctor ->
  Data.date data = Some day -> Data.time data = Some at_time ->
  Data.duration data = Some minutes ->
  healthy w -> times_valid w ->
  valid (validate_appointment_time at_time) = true ->
  minutes_of_text at_time = inr start ->
  pg_time_in at_time = Some t ->
  (forall apt, In apt (table w) -> candidate doctor day None apt ->
     ~ (start < minutes_of (time apt) + duration apt
        /\ start + minutes > minutes_of (time apt))) ->
  accepts w (inserted w who doctor day t minutes data) = true ->
  success (fst (create_appointment data w)) = true
  /\ snd (create_appointment data w)
     = tick (bump_id (with_table
                        (table w ++ [inserted w who doctor day t minutes data]) w)).
Proof.
  intros Dn Dd Dy Dt Dm Hw Hv Hval Hstart Hpg Hfree Hacc.
  assert (Chk : check_time_slot_conflict doctor day at_time minutes None w
                = (mkAvailability true None None, w)).
  { pose proof (check_find w doctor day at_time minutes None start Hw Hv Hstart) as H.
    destruct (find _ _) as [apt|] eqn:F; [|exact H]. exfalso.
    apply find_some in F as [Hin Ho]. apply filter_In in Hin as [Hin Hc].
    apply is_active_of_candidate in Hc. apply overlaps_iff in Ho.
    now apply (Hfree apt Hin Hc). }
  set (row := inserted w who doctor day t minutes data) in *.
  set (w2 := tick (bump_id (with_table (table w ++ [row]) w))).
  assert (H2 : healthy w2) by exact Hw.
  assert (Ins : Db.execute_mutation
                  (InsertAppointment who doctor day at_time minutes
                     (get (Data.status data) "Scheduled")
                     (get (Data.mode data) "In-Person")
                     (get (Data.notes data) "")) w = (inr 1, w2)).
  { rewrite (execute_mutation_healthy _ _ Hw). cbn [run_mutation].
    rewrite Hpg. fold (inserted w who doctor day t minutes data). fold row.
    rewrite Hacc. reflexivity. }
  assert (E : exists newest,
             create_appointment data w
             = (mkReply true "Appointment created successfully"
                  (Some (_format_appointment newest)) None, w2));
    [|destruct E as [newest E]; rewrite E; split; reflexivity].
  unfold create_appointment, guarded, Db.bind, item, call.
  rewrite Dt. unfold Db.ret at 1. cbv beta iota.
  rewrite Hval. cbn [negb]. rewrite Dd, Dy, Dm. unfold Db.ret at 1 2 3.
  cbv beta iota. rewrite Chk. cbn [available negb]. rewrite Dn.
  unfold Db.ret at 1. cbv beta iota. rewrite Ins.
  change (1 >? 0) with true. cbv beta iota.
  rewrite (execute_query_healthy _ _ H2). cbn [run_query]. rewrite Hpg.
  destruct (firstn 1 _) as [|newest rest] eqn:F; [exfalso|now exists newest].
  destruct (newest_first _) as [|x l] eqn:N; [|discriminate].
  apply newest_first_nil in N.
  assert (I : In row (filter (fun r => String.eqb (patient_name r) who
                                       && String.eqb (date r) day
                                       && time_eqb (time r) t) (table w2))).
  { apply filter_In. split.
    - unfold w2. cbn [table tick bump_id with_table]. apply in_or_app. right. now left.
    - unfold row, inserted. cbn [patient_name date time].
      now rewrite !String.eqb_refl, time_eqb_refl. }
  rewrite N in I. contradiction.
Qed.

(* ------------------------------------------------------------------ *)
(** *** Cancelled appointments *)

Lemma active_among_not_cancelled (doctor day : string) (exclude : option string)
    (rows : list Row) :
  filter (is_active_of doctor day exclude) (filter not_cancelled rows)
  = filter (is_active_of doctor day exclude) rows.
Proof.
  induction rows as [|r rest IH]; simpl; [reflexivity|].
  unfold not_cancelled at 1.
  destruct (String.eqb (status r) "Cancelled") eqn:S; simpl.
  - rewrite IH. unfold is_active_of at 2. rewrite S. simpl.
    now rewrite andb_false_r.
  - now rewrite IH.
Qed.

(** What a committed status update leaves behind. *)
Lemma status_update_committed (key state : string) (w : World) :
  healthy w ->
  status_success (fst (update_appointment_status key state w)) = true ->
  snd (update_appointment_status key state w)
  = tick (with_table (map (changed key (restamped state (clock w))) (table w)) w).
Proof.
  intros Hw. unfold update_appointment_status, guarded, Db.bind.
  destruct (Py.contains state valid_statuses); cbn [negb]; [|discriminate].
  rewrite (execute_mutation_healthy _ _ Hw). cbn [run_mutation].
  fold (restamped state (clock w)).
  destruct (update_where _ _ _ _) as [e|[n rows]] eqn:U; cbn [Py.bind Py.ret fst snd];
    [discriminate|].
  apply update_where_done in U as (-> & _ & _).
  destruct (n >? 0); cbn [fst snd]; [reflexivity|discriminate].
Qed.

(** C3.  Cancelled rows have no part in conflict detection: the check
    answers the same with them removed from the table.  So once a booking
    inside business hours has been set to Cancelled, a create for its
    doctor, date, time and duration succeeds, when no other active booking
    of that doctor and date overlaps the slot and the store takes the new
    row: the reply says so, and the table holds the rows it held after the
    cancellation, the cancelled one among them, followed by the new
    Scheduled row for that doctor, date, time and duration. *)
Theorem cancelled_rows_free_their_slot :
  (forall w doctor day at_time minutes exclude,
      fst (check_time_slot_conflict doctor day at_time minutes exclude w)
      = fst (check_time_slot_conflict doctor day at_time minutes exclude
               (with_table (filter not_cancelled (table w)) w)))
  /\ (forall w r who,
        healthy w -> times_valid w -> In r (table w) ->
        (8 <= hour (time r) < 21)%nat ->
        (forall apt,
            In apt (table w) -> id apt <> id r ->
            doctor_name apt = doctor_name r -> date apt = date r ->
            status apt <> "Cancelled" ->
            ~ (minutes_of (time r) < minutes_of (time apt) + duration apt
               /\ minutes_of (time r) + duration r > minutes_of (time apt))) ->
        (forall key stamp,
            accepts w (mkRow key who (doctor_name r) (date r)
                             (mkTime (hour (time r)) (minute (time r)) 0) (duration r)
                             "Scheduled" "In-Person" "" stamp stamp) = true) ->
        status_success (fst (update_appointment_status (id r) "Cancelled" w)) = true ->
        success
          (fst (create_appointment
                  (request who (doctor_name r) (date r)
                           (Py.slice_to 5 (str_time (time r))) (duration r))
                  (snd (update_appointment_status (id r) "Cancelled" w)))) = true
        /\ In (restamped "Cancelled" (clock w) r)
              (table (snd (update_appointment_status (id r) "Cancelled" w)))
        /\ table
             (snd (create_appointment
                     (request who (doctor_name r) (date r)
                              (Py.slice_to 5 (str_time (time r))) (duration r))
                     (snd (update_appointment_status (id r) "Cancelled" w))))
           = (table (snd (update_appointment_status (id r) "Cancelled" w))
              ++ [mkRow (gen_id (next_id w)) who (doctor_name r) (date r)
                        (mkTime (hour (time r)) (minute (time r)) 0) (duration r)
                        "Scheduled" "In-Person" "" (clock w + 1) (clock w + 1)])%list).
Proof.
  split.
  - intros w doctor day at_time minutes exclude. rewrite !check_fst.
    destruct (minutes_of_text at_time) as [e|start]; [reflexivity|].
    rewrite (execute_query_fst _ (SelectActiveOfDoctor doctor day
                                    (if truthy exclude then exclude else None))
               w (with_table (filter not_cancelled (table w)) w));
      [reflexivity|reflexivity|].
    cbn [run_query table with_table]. now rewrite active_among_not_cancelled.
  - intros w r who Hw Hv Hin Hhours Hfree Hacc Hdone.
    rewrite (status_update_committed _ _ _ Hw Hdone).
    set (w1 := tick (with_table _ w)).
    assert (Vr : valid_time (time r) = true).
    { unfold times_valid in Hv. rewrite Forall_forall in Hv. now apply Hv. }
    assert (Kept : In (restamped "Cancelled" (clock w) r) (table w1)).
    { unfold w1. cbn [table tick with_table]. apply in_map_iff. exists r.
      split; [|exact Hin]. unfold changed. now rewrite String.eqb_refl. }
    enough (Created :
              success
                (fst (create_appointment
                        (request who (doctor_name r) (date r)
                                 (Py.slice_to 5 (str_time (time r))) (duration r)) w1))
              = true
              /\ snd (create_appointment
                        (request who (doctor_name r) (date r)
                                 (Py.slice_to 5 (str_time (time r))) (duration r)) w1)
                 = tick (bump_id
                           (with_table
                              (table w1
                               ++ [inserted w1 who (doctor_name r) (date r)
                                     (mkTime (hour (time r)) (minute (time r)) 0)
                                     (duration r)
                                     (request who (doctor_name r) (date r)
                                        (Py.slice_to 5 (str_time (time r)))
                                        (duration r))]) w1))).
    { destruct Created as [Ok After]. split; [exact Ok|]. split; [exact Kept|].
      rewrite After. reflexivity. }
    apply (create_appointment_succeeds w1 _ who (doctor_name r) (date r)
             (Py.slice_to 5 (str_time (time r))) (duration r) (minutes_of (time r))
             (mkTime (hour (time r)) (minute (time r)) 0));
      try reflexivity.
    + exact Hw.
    + unfold times_valid, w1. cbn [table tick with_table].
      unfold times_valid in Hv. rewrite Forall_forall in *.
      intros x Hx. apply in_map_iff in Hx as (y & <- & Hy).
      unfold changed. destruct (String.eqb (id y) (id r)); [|now apply Hv].
      cbn [restamped set_updated_at set_status time]. now apply Hv.
    + rewrite (validate_stored _ Vr).
      apply andb_true_iff. rewrite Nat.leb_le, Nat.ltb_lt. lia.
    + now apply minutes_of_text_stored.
    + now apply pg_time_in_stored.
    + intros apt Hapt (Hd & Hy & Hs & _).
      unfold w1 in Hapt. cbn [table tick with_table] in Hapt.
      apply in_map_iff in Hapt as (y & <- & Hy').
      unfold changed in *. destruct (String.eqb (id y) (id r)) eqn:K.
      * exfalso. apply Hs. reflexivity.
      * apply String.eqb_neq in K. now apply Hfree.
    + apply Hacc.
Qed.

(** Alice's 09:00 booking is cancelled; Bob then gets the same slot, and
    the table holds Alice's cancelled row and Bob's new one. *)
Lemma cancelled_rows_free_their_slot_witness :
  success
    (fst (create_appointment
            (request "Bob" "Dr. Smith" "2025-12-15" "09:00" 30)
            (snd (update_appointment_status "a1" "Cancelled" (open_store [alice])))))
  = true
  /\ table
       (snd (create_appointment
               (request "Bob" "Dr. Smith" "2025-12-15" "09:00" 30)
               (snd (update_appointment_status "a1" "Cancelled" (open_store [alice])))))
     = [mkRow "a1" "Alice" "Dr. Smith" "2025-12-15" (mkTime 9 0 0) 30
              "Cancelled" "In-Person" "" 0 1;
        mkRow "apt-1" "Bob" "Dr. Smith" "2025-12-15" (mkTime 9 0 0) 30
              "Scheduled" "In-Person" "" 2 2].
Proof.
  destruct cancelled_rows_free_their_slot as [_ H].
  destruct (H (open_store [alice]) alice "Bob") as (Ok & _ & Stored).
  - reflexivity.
  - repeat constructor.
  - now left.
  - simpl. lia.
  - intros apt [<-|[]] N. now contradiction N.
  - reflexivity.
  - reflexivity.
  - split; [exact Ok|exact Stored].
Defined.

(* ------------------------------------------------------------------ *)
(** *** Update and the row's own slot *)

Lemma check_snd_healthy (w : World) (doctor day at_time : string) (minutes : Z)
    (exclude : option string) :
  healthy w ->
  snd (check_time_slot_conflict doctor day at_time minutes exclude w) = w.
Proof.
  intros Hw. unfold check_time_slot_conflict, guarded, Db.bind, Db.lift.
  destruct (minutes_of_text at_time) as [e|start]; [reflexivity|].
  rewrite (execute_query_healthy _ _ Hw). cbn [run_query Py.ret].
  now destruct (first_overlap _ _ _).
Qed.

(** Excluding an id from the selection is selecting from the table
    without the rows of that id. *)
Lemma active_excluding (doctor day key : string) (rows : list Row) :
  filter (is_active_of doctor day (Some key)) rows
  = filter (is_active_of doctor day None) (without key rows).
Proof.
  unfold without. induction rows as [|r rest IH]; simpl; [reflexivity|].
  assert (E : is_active_of doctor day (Some key) r
              = negb (String.eqb (id r) key) && is_active_of doctor day None r).
  { unfold is_active_of.
    destruct (negb (String.eqb (id r) key));
      now rewrite ?andb_true_r, ?andb_false_r. }
  rewrite E. destruct (negb (String.eqb (id r) key)); simpl; now rewrite IH.
Qed.

(** Whatever the scan reports was read off a row it was given. *)
Lemma first_overlap_origin (existing : list Row) (start_minutes end_minutes : Z)
    (answer : Availability) (info : ConflictInfo) :
  first_overlap existing start_minutes end_minutes = inr answer ->
  conflicting_appointment answer = Some info ->
  exists apt,
    In apt existing /\ patient info = patient_name apt
    /\ booked_time info = Py.slice_to 5 (str_time (time apt))
    /\ booked_duration info = duration apt.
Proof.
  induction existing as [|apt later IH]; simpl.
  - intros E. inversion E. discriminate.
  - destruct (minutes_of_text _) as [e|apt_start]; simpl; [discriminate|].
    destruct (_ && _).
    + intros E C. inversion E; subst. simpl in C. inversion C; subst.
      exists apt. simpl. tauto.
    + intros E C. destruct (IH E C) as (x & Hx & R). exists x. tauto.
Qed.

(** An update past its look-up and its business-hours test: a refusing
    check is the answer and nothing is written; an accepting one lets the
    update through, and no conflict is reported. *)
Lemma update_after_check (w : World) (key : string) (data : Data.t)
    (existing : Row) (others : list Row) :
  healthy w -> matching key (table w) = existing :: others ->
  touches_schedule data = true ->
  (forall at_time, Data.time data = Some at_time ->
                   valid (validate_appointment_time at_time) = true) ->
  let verdict :=
    fst (check_time_slot_conflict (check_doctor data existing) (check_date data existing)
           (check_time data existing) (check_duration data existing) (Some key) w) in
  (available verdict = false ->
   exists text,
     availability_message verdict = Some text
     /\ update_appointment key data w
        = (mkReply false text None (conflicting_appointment verdict), w))
  /\ (available verdict = true -> conflict (fst (update_appointment key data w)) = None).
Proof.
  intros Hw M Ht Hval verdict.
  pose proof (check_snd_healthy w (check_doctor data existing) (check_date data existing)
                (check_time data existing) (check_duration data existing) (Some key) Hw)
    as Hsnd.
  assert (Hv : valid match Data.time data with
                     | Some at_time => validate_appointment_time at_time
                     | None => mkValidation true None
                     end = true).
  { destruct (Data.time data) as [at_time|]; [now apply Hval|reflexivity]. }
  unfold update_appointment, guarded, Db.bind, call.
  rewrite (execute_query_healthy _ _ Hw), select_by_id, M. cbn [Py.ret].
  rewrite Hv, Ht. cbn [negb].
  fold (check_doctor data existing) (check_date data existing)
       (check_time data existing) (check_duration data existing).
  destruct (check_time_slot_conflict _ _ _ _ _ w) as [answer w1] eqn:C.
  cbn [fst snd] in *. subst w1 verdict. split.
  - intros Ha.
    pose proof (check_message w (check_doctor data existing) (check_date data existing)
                  (check_time data existing) (check_duration data existing) (Some key))
      as Hm.
    rewrite C in Hm. cbn [fst] in Hm. destruct (Hm Ha) as [text Et]. exists text.
    split; [exact Et|]. rewrite Ha. cbn [negb]. unfold item. now rewrite Et.
  - intros Ha. rewrite Ha. cbn [negb].
    destruct (Db.execute_mutation _ w) as [[e|count] w2]; [reflexivity|].
    destruct (count >? 0); [|reflexivity].
    destruct (Db.execute_query _ w2) as [[e|updated] w3]; [reflexivity|].
    unfold Db.lift. now destruct (Py.index updated 0).
Qed.

(** C4.  For a stored appointment and a payload naming any of time, date,
    doctorName or duration (with a time inside business hours, if any),
    [update_appointment] decides by [check_time_slot_conflict] on the
    supplied values laid over the stored row, with the row's own id
    excluded: a refusal of that check is the reply and nothing is written;
    the check is the one on the table without the rows of that id; any
    conflict reported was read off a row with another id; and an update of
    the duration alone reports no conflict unless another active booking of
    that doctor and date overlaps the new slot. *)
Theorem update_appointment_excludes_own_row
    (w : World) (appointment_id : string) (data : Data.t)
    (existing : Row) (others : list Row) :
  healthy w -> appointment_id <> "" ->
  matching appointment_id (table w) = existing :: others ->
  touches_schedule data = true ->
  (forall at_time, Data.time data = Some at_time ->
                   valid (validate_appointment_time at_time) = true) ->
  let verdict :=
    fst (check_time_slot_conflict (check_doctor data existing) (check_date data existing)
           (check_time data existing) (check_duration data existing)
           (Some appointment_id) w) in
  (available verdict = false ->
   exists text,
     availability_message verdict = Some text
     /\ update_appointment appointment_id data w
        = (mkReply false text None (conflicting_appointment verdict), w))
  /\ (available verdict = true ->
      conflict (fst (update_appointment appointment_id data w)) = None)
  /\ verdict
     = fst (check_time_slot_conflict (check_doctor data existing)
              (check_date data existing) (check_time data existing)
              (check_duration data existing) None
              (with_table (without appointment_id (table w)) w))
  /\ (forall info,
        conflict (fst (update_appointment appointment_id data w)) = Some info ->
        exists apt,
          In apt (table w) /\ id apt <> appointment_id
          /\ patient info = patient_name apt
          /\ booked_time info = Py.slice_to 5 (str_time (time apt))
          /\ booked_duration info = duration apt)
  /\ (forall minutes,
        data = duration_only minutes -> times_valid w ->
        (forall apt,
            In apt (table w) -> id apt <> appointment_id ->
            doctor_name apt = doctor_name existing -> date apt = date existing ->
            status apt <> "Cancelled" ->
            ~ (minutes_of (time existing) < minutes_of (time apt) + duration apt
               /\ minutes_of (time existing) + minutes > minutes_of (time apt))) ->
        available verdict = true
        /\ conflict (fst (update_appointment appointment_id data w)) = None).
Proof.
  intros Hw Hkey M Ht Hval verdict.
  destruct (update_after_check w appointment_id data existing others Hw M Ht Hval)
    as [Refused Passed].
  fold verdict in Refused, Passed.
  assert (Tk : truthy (Some appointment_id) = true).
  { simpl. apply negb_true_iff. now apply String.eqb_neq. }
  split; [exact Refused|]. split; [exact Passed|]. split; [|split].
  - subst verdict. rewrite !check_fst.
    destruct (minutes_of_text _) as [e|start]; [reflexivity|].
    rewrite Tk. cbn [truthy].
    rewrite (execute_query_fst _ (SelectActiveOfDoctor (check_doctor data existing)
                                    (check_date data existing) None)
               w (with_table (without appointment_id (table w)) w));
      [reflexivity|reflexivity|].
    cbn [run_query table with_table]. now rewrite active_excluding.
  - intros info Hc.
    destruct (available verdict) eqn:Ha.
    + rewrite (Passed eq_refl) in Hc. discriminate.
    + destruct (Refused eq_refl) as (text & _ & E). rewrite E in Hc. cbn in Hc.
      subst verdict. rewrite check_fst in Hc, Ha.
      destruct (minutes_of_text _) as [e|start]; [discriminate|].
      rewrite Tk in Hc, Ha. rewrite (execute_query_healthy _ _ Hw) in Hc, Ha.
      cbn [run_query Py.ret fst] in Hc, Ha.
      destruct (first_overlap _ _ _) as [e|answer] eqn:F; [discriminate|].
      destruct (first_overlap_origin _ _ _ _ _ F Hc) as (apt & Hin & R).
      apply filter_In in Hin as [Hin Hact]. exists apt.
      split; [assumption|]. split; [|exact R].
      unfold is_active_of in Hact. rewrite !andb_true_iff in Hact.
      destruct Hact as [_ Hact]. now apply negb_true_iff, String.eqb_neq in Hact.
  - intros minutes -> Hv Hfree.
    assert (Hin : In existing (matching appointment_id (table w)))
      by (rewrite M; now left).
    apply filter_In in Hin as [Hin _].
    assert (Vr : valid_time (time existing) = true).
    { unfold times_valid in Hv. rewrite Forall_forall in Hv. now apply Hv. }
    assert (A : available verdict = true).
    { subst verdict. unfold check_doctor, check_date, check_time, check_duration.
      cbn [duration_only Data.doctorName Data.date Data.time Data.duration get].
      pose proof (check_find w (doctor_name existing) (date existing)
                    (Py.slice_to 5 (str_time (time existing))) minutes
                    (Some appointment_id) (minutes_of (time existing)) Hw Hv
                    (minutes_of_text_stored _ Vr)) as H.
      destruct (find _ _) as [apt|] eqn:F; [exfalso|now rewrite H].
      apply find_some in F as [Ha Ho]. apply filter_In in Ha as [Ha Hc].
      apply is_active_of_candidate in Hc. apply overlaps_iff in Ho.
      destruct Hc as (Hd & Hy & Hs & He).
      apply (Hfree apt Ha (He appointment_id eq_refl Hkey) Hd Hy Hs Ho). }
    split; [exact A|now apply Passed].
Qed.

(** Alice's own 09:00 booking does not stand in the way of making it
    longer. *)
Lemma update_appointment_excludes_own_row_witness :
  available
    (fst (check_time_slot_conflict "Dr. Smith" "2025-12-15" "09:00" 45 (Some "a1")
            (open_store [alice]))) = true
  /\ conflict (fst (update_appointment "a1" (duration_only 45) (open_store [alice])))
     = None.
Proof.
  pose proof (update_appointment_excludes_own_row (open_store [alice]) "a1"
                (duration_only 45) alice []) as H.
  cbv zeta in H.
  destruct H as (_ & _ & _ & _ & H).
  - reflexivity.
  - discriminate.
  - reflexivity.
  - reflexivity.
  - intros at_time E. discriminate.
  - apply (H 45 eq_refl).
    + repeat constructor.
    + intros apt [<-|[]] N. now contradiction N.
Defined.

(* ------------------------------------------------------------------ *)
(** *** Which conflict is reported *)

(** A request for 09:45-10:15 overlaps both; the check names Carol, the
    row the store returns first, though Dave starts earlier. *)
Lemma check_reports_first_stored_not_earliest :
  conflicting_appointment
    (fst (check_time_slot_conflict "Dr. Smith" "2025-12-15" "09:45" 30 None
            carol_then_dave))
  = Some (mkConflictInfo "Carol" "10:00" "10:30" 30)
  /\ ~ reports_earliest carol_then_dave "Dr. Smith" "2025-12-15" "09:45" 30 None.
Proof.
  split; [reflexivity|].
  intros H.
  destruct (H 585 (mkConflictInfo "Carol" "10:00" "10:30" 30) eq_refl eq_refl)
    as (apt & Hin & _ & Einfo & Hmin).
  vm_compute in Hin. destruct Hin as [<-|[<-|[]]].
  - assert (L : 600 <= 570).
    { apply (Hmin (mkRow "apt-1" "Dave" "Dr. Smith" "2025-12-15" (mkTime 9 30 0) 30
                         "Scheduled" "In-Person" "" 1 1)).
      - vm_compute. tauto.
      - unfold candidate. simpl. repeat split; discriminate.
      - reflexivity. }
    lia.
  - vm_compute in Einfo. discriminate.
Qed.

Lemma find_first {A} (f : A -> bool) (l : list A) (x : A) :
  find f l = Some x ->
  exists before after,
    l = (before ++ x :: after)%list /\ f x = true /\ forall y, In y before -> f y = false.
Proof.
  induction l as [|a l IH]; simpl; [discriminate|].
  destruct (f a) eqn:Fa.
  - intros E. inversion E; subst. exists [], l. repeat split; [assumption|intros y []].
  - intros E. destruct (IH E) as (before & after & -> & Fx & Hb).
    exists (a :: before), after. repeat split; [assumption|].
    intros y [<-|Hy]; [assumption|now apply Hb].
Qed.

Lemma sorted_from (before after : list Row) (x other : Row) :
  StronglySorted starts_no_later (before ++ x :: after)%list ->
  In other (x :: after) -> starts_no_later x other.
Proof.
  induction before as [|b before IH]; simpl; intros S Hin.
  - inversion S as [|? ? _ F]; subst.
    destruct Hin as [<-|Hin]; [unfold starts_no_later; lia|].
    rewrite Forall_forall in F. now apply F.
  - inversion S; subst. now apply IH.
Qed.

(** C8, as the code has it.  On a healthy connection the check scans the
    active rows of the doctor and date in the order the store returns them
    (the SELECT has no ORDER BY) and reports the first that overlaps: no
    row before it overlaps.  Asking again on the same data gives the same
    answer.  The reported row is the earliest-starting overlap when the
    store returns the rows in ascending order of time. *)
Theorem check_time_slot_conflict_first_in_store_order
    (w : World) (doctor day at_time : string) (minutes : Z)
    (exclude : option string) (start : Z) :
  healthy w -> times_valid w -> minutes_of_text at_time = inr start ->
  let selected :=
    filter (is_active_of doctor day (if truthy exclude then exclude else None))
           (table w) in
  let hit := find (overlaps start (start + minutes)) selected in
  conflicting_appointment
    (fst (check_time_slot_conflict doctor day at_time minutes exclude w))
  = option_map info_of hit
  /\ check_time_slot_conflict doctor day at_time minutes exclude
       (snd (check_time_slot_conflict doctor day at_time minutes exclude w))
     = check_time_slot_conflict doctor day at_time minutes exclude w
  /\ forall first,
       hit = Some first ->
       (exists before after,
           selected = (before ++ first :: after)%list
           /\ overlaps start (start + minutes) first = true
           /\ forall apt, In apt before -> overlaps start (start + minutes) apt = false)
       /\ (StronglySorted starts_no_later selected ->
           forall other,
             In other (table w) -> candidate doctor day exclude other ->
             overlaps start (start + minutes) other = true ->
             minutes_of (time first) <= minutes_of (time other)).
Proof.
  intros Hw Hv Ht selected hit.
  split; [|split].
  - pose proof (check_find w doctor day at_time minutes exclude start Hw Hv Ht) as H.
    fold selected in H. fold hit in H.
    destruct hit as [apt|].
    + destruct H as [text H]. now rewrite H.
    + now rewrite H.
  - now rewrite check_snd_healthy.
  - intros first Hf. subst hit.
    destruct (find_first _ _ _ Hf) as (before & after & E & Ffirst & Hbefore).
    split; [now exists before, after|].
    intros S other Hin Hc Ho.
    assert (I : In other selected).
    { apply filter_In. split; [assumption|]. now apply is_active_of_candidate. }
    rewrite E in I, S. apply in_app_or in I as [I|I].
    + rewrite (Hbefore other I) in Ho. discriminate.
    + exact (sorted_from before after first other S I).
Qed.

(** With Carol stored before Dave, Carol is reported, and again when asked
    again. *)
Lemma check_time_slot_conflict_first_in_store_order_witness :
  conflicting_appointment
    (fst (check_time_slot_conflict "Dr. Smith" "2025-12-15" "09:45" 30 None
            carol_then_dave))
  = option_map info_of
      (find (overlaps 585 615)
         (filter (is_active_of "Dr. Smith" "2025-12-15" None) (table carol_then_dave)))
  /\ check_time_slot_conflict "Dr. Smith" "2025-12-15" "09:45" 30 None
       (snd (check_time_slot_conflict "Dr. Smith" "2025-12-15" "09:45" 30 None
               carol_then_dave))
     = check_time_slot_conflict "Dr. Smith" "2025-12-15" "09:45" 30 None carol_then_dave.
Proof.
  assert (Hw : healthy carol_then_dave) by reflexivity.
  assert (Hv : times_valid carol_then_dave) by (repeat constructor).
  pose proof (check_time_slot_conflict_first_in_store_order carol_then_dave
                "Dr. Smith" "2025-12-15" "09:45" 30 None 585 Hw Hv eq_refl) as H.
  cbv zeta in H. destruct H as (H1 & H2 & _). split; [exact H1|exact H2].
Defined.

(* ------------------------------------------------------------------ *)
(** *** When the check itself fails *)

Lemma execute_query_same (q : Query) (w : World) :
  same_store w (snd (Db.execute_query q w)).
Proof.
  assert (T : forall v, same_store v (snd (Db.try_query q v))).
  { intros v. unfold Db.try_query. pose proof (next_outage_same v) as H.
    destruct (Db.next_outage v) as [down v1]. now destruct down. }
  unfold Db.execute_query. pose proof (T w) as H.
  destruct (Db.try_query q w) as [[e|rows] w1]; [|assumption].
  exact (same_store_trans _ _ _ H (T w1)).
Qed.

Lemma check_same (w : World) (doctor day at_time : string) (minutes : Z)
    (exclude : option string) :
  same_store w (snd (check_time_slot_conflict doctor day at_time minutes exclude w)).
Proof.
  unfold check_time_slot_conflict, guarded, Db.bind, Db.lift.
  destruct (minutes_of_text at_time) as [e|start]; [apply same_store_refl|].
  pose proof (execute_query_same
                (SelectActiveOfDoctor doctor day (if truthy exclude then exclude else None))
                w) as H.
  destruct (Db.execute_query _ w) as [[e|existing] w1]; [assumption|].
  now destruct (first_overlap _ _ _).
Qed.

(** C10.  [check_time_slot_conflict] answers in every case: a time text
    that does not read as hour and minute is answered "not available" with
    the error as message, without a query; a query that raises after its
    retry is answered the same way; and every "not available" carries a
    message.  A create, or an update that runs the check, whose check says
    "not available" is answered with failure and writes nothing. *)
Theorem check_time_slot_conflict_never_raises :
  (forall w doctor day at_time minutes exclude e,
      minutes_of_text at_time = inl e ->
      check_time_slot_conflict doctor day at_time minutes exclude w
      = (mkAvailability false
           (Some ("Error checking availability: " ++ Py.str_exn e)) None, w))
  /\ (forall w doctor day at_time minutes exclude start e w',
        minutes_of_text at_time = inr start ->
        Db.execute_query
          (SelectActiveOfDoctor doctor day (if truthy exclude then exclude else None)) w
        = (inl e, w') ->
        check_time_slot_conflict doctor day at_time minutes exclude w
        = (mkAvailability false
             (Some ("Error checking availability: " ++ Py.str_exn e)) None, w'))
  /\ (forall w doctor day at_time minutes exclude,
        available (fst (check_time_slot_conflict doctor day at_time minutes exclude w))
        = false ->
        exists text,
          availability_message
            (fst (check_time_slot_conflict doctor day at_time minutes exclude w))
          = Some text)
  /\ (forall w data doctor day at_time minutes,
        Data.doctorName data = Some doctor -> Data.date data = Some day ->
        Data.time data = Some at_time -> Data.duration data = Some minutes ->
        available (fst (check_time_slot_conflict doctor day at_time minutes None w))
        = false ->
        success (fst (create_appointment data w)) = false
        /\ table (snd (create_appointment data w)) = table w)
  /\ (forall w appointment_id data existing others w1,
        Db.execute_query (SelectById appointment_id) w = (inr (existing :: others), w1) ->
        touches_schedule data = true ->
        available
          (fst (check_time_slot_conflict
                  (check_doctor data existing) (check_date data existing)
                  (check_time data existing) (check_duration data existing)
                  (Some appointment_id) w1))
        = false ->
        success (fst (update_appointment appointment_id data w)) = false
        /\ table (snd (update_appointment appointment_id data w)) = table w).
Proof.
  split; [|split; [|split; [|split]]].
  - intros w doctor day at_time minutes exclude e H.
    unfold check_time_slot_conflict, guarded, Db.bind, Db.lift. now rewrite H.
  - intros w doctor day at_time minutes exclude start e w' H Q.
    unfold check_time_slot_conflict, guarded, Db.bind, Db.lift. now rewrite H, Q.
  - intros w doctor day at_time minutes exclude. apply check_message.
  - intros w data doctor day at_time minutes Dd Dy Dt Dm Ha.
    destruct (check_message _ _ _ _ _ _ Ha) as [text Et].
    pose proof (check_table w doctor day at_time minutes None) as Tb.
    destruct (create_appointment data w) as [reply after] eqn:E. cbn [fst snd].
    unfold create_appointment, guarded, Db.bind, item, call in E.
    rewrite Dt in E. unfold Db.ret at 1 in E. cbv beta iota in E.
    destruct (valid (validate_appointment_time at_time)); cbn [negb] in E.
    + rewrite Dd, Dy, Dm in E. unfold Db.ret at 1 2 3 in E. cbv beta iota in E.
      destruct (check_time_slot_conflict doctor day at_time minutes None w)
        as [answer w1].
      cbn [fst snd] in *. rewrite Ha, Et in E. cbn [negb] in E.
      inversion E; subst. now split.
    + destruct (validation_message _); inversion E; subst; now split.
  - intros w key data existing others w1 Q Ht Ha.
    destruct (check_message _ _ _ _ _ _ Ha) as [text Et].
    pose proof (check_table w1 (check_doctor data existing) (check_date data existing)
                  (check_time data existing) (check_duration data existing) (Some key))
      as Tb.
    pose proof (execute_query_table (SelectById key) w) as Tq.
    rewrite Q in Tq. cbn [snd] in Tq.
    destruct (update_appointment key data w) as [reply after] eqn:E. cbn [fst snd].
    unfold update_appointment, guarded, Db.bind, item, call in E.
    rewrite Q in E.
    destruct (valid _); cbn [negb] in E.
    + rewrite Ht in E.
      fold (check_doctor data existing) (check_date data existing)
           (check_time data existing) (check_duration data existing) in E.
      destruct (check_time_slot_conflict _ _ _ _ _ w1) as [answer w2].
      cbn [fst snd] in *. rewrite Ha, Et in E. cbn [negb] in E.
      inversion E; subst. split; [reflexivity|congruence].
    + destruct (validation_message _); inversion E; subst; now split.
Qed.

(** A time without minutes, and a connection that is down for both
    attempts of the query; the create that meets the latter writes
    nothing. *)
Lemma check_time_slot_conflict_never_raises_witness :
  available (fst (check_time_slot_conflict "Dr. Smith" "2025-12-15" "09" 30 None
                    (open_store [alice]))) = false
  /\ fst (check_time_slot_conflict "Dr. Smith" "2025-12-15" "10:00" 30 None
            (with_outages [true; true] (open_store [alice])))
     = mkAvailability false (Some "Error checking availability: connection lost") None
  /\ success (fst (create_appointment (request "Bob" "Dr. Smith" "2025-12-15" "10:00" 30)
                     (with_outages [true; true] (open_store [alice])))) = false
  /\ table (snd (create_appointment (request "Bob" "Dr. Smith" "2025-12-15" "10:00" 30)
                   (with_outages [true; true] (open_store [alice])))) = [alice]
  /\ success (fst (update_appointment "a1" (duration_only 45)
                     (with_outages [false; true; true] (open_store [alice])))) = false.
Proof.
  destruct check_time_slot_conflict_never_raises as (Unread & Down & _ & Create & Update).
  split; [|split; [|split; [|split]]].
  - now rewrite (Unread (open_store [alice]) "Dr. Smith" "2025-12-15" "09" 30 None
                   (Py.IndexError "list index out of range") eq_refl).
  - now rewrite (Down (with_outages [true; true] (open_store [alice]))
                   "Dr. Smith" "2025-12-15" "10:00" 30 None 600
                   Db.connection_lost (with_outages [] (open_store [alice]))
                   eq_refl eq_refl).
  - apply (Create (with_outages [true; true] (open_store [alice])) _
                  "Dr. Smith" "2025-12-15" "10:00" 30); reflexivity.
  - apply (Create (with_outages [true; true] (open_store [alice]))
                  (request "Bob" "Dr. Smith" "2025-12-15" "10:00" 30)
                  "Dr. Smith" "2025-12-15" "10:00" 30); reflexivity.
  - apply (Update (with_outages [false; true; true] (open_store [alice])) "a1"
                  (duration_only 45) alice []
                  (with_outages [true; true] (open_store [alice])));
      reflexivity.
Defined.

(* ------------------------------------------------------------------ *)
(** *** Durations *)

(** A create for zero minutes and an update to minus five minutes both go
    through on a store whose table declares no constraint. *)
Lemma create_and_update_admit_nonpositive_duration :
  (durations_positive (open_store [])
   /\ success (fst (create_appointment
                      (request "Bob" "Dr. Smith" "2025-12-15" "09:00" 0)
                      (open_store []))) = true
   /\ ~ durations_positive
          (snd (create_appointment
                  (request "Bob" "Dr. Smith" "2025-12-15" "09:00" 0) (open_store []))))
  /\ (durations_positive (open_store [alice])
      /\ success (fst (update_appointment "a1" (duration_only (-5))
                         (open_store [alice]))) = true
      /\ ~ durations_positive
             (snd (update_appointment "a1" (duration_only (-5)) (open_store [alice])))).
Proof.
  split; (split; [repeat constructor|split; [reflexivity|]]).
  - intros H. vm_compute in H. inversion H as [|? ? P _]. discriminate P.
  - intros H. vm_compute in H. inversion H as [|? ? P _]. discriminate P.
Qed.

Lemma matching_changed (key : string) (change : Row -> Row) (rows : list Row) :
  (forall r, id (change r) = id r) ->
  matching key (map (changed key change) rows) = map change (matching key rows).
Proof.
  intros Hid. unfold matching.
  induction rows as [|r rest IH]; simpl; [reflexivity|].
  unfold changed at 1 2. destruct (String.eqb (id r) key) eqn:K.
  - rewrite Hid, K. simpl. now rewrite IH.
  - rewrite K. exact IH.
Qed.

(** With no other active booking of the doctor and date in the way, the
    check for a new duration of a stored booking passes. *)
Lemma own_slot_free (w : World) (key : string) (minutes : Z)
    (existing : Row) (others : list Row) :
  healthy w -> times_valid w -> key <> "" ->
  matching key (table w) = existing :: others ->
  (forall apt,
      In apt (table w) -> id apt <> key ->
      doctor_name apt = doctor_name existing -> date apt = date existing ->
      status apt <> "Cancelled" ->
      ~ (minutes_of (time existing) < minutes_of (time apt) + duration apt
         /\ minutes_of (time existing) + minutes > minutes_of (time apt))) ->
  check_time_slot_conflict (doctor_name existing) (date existing)
    (Py.slice_to 5 (str_time (time existing))) minutes (Some key) w
  = (mkAvailability true None None, w).
Proof.
  intros Hw Hv Hkey M Hfree.
  assert (Hin : In existing (matching key (table w))) by (rewrite M; now left).
  apply filter_In in Hin as [Hin _].
  assert (Vr : valid_time (time existing) = true).
  { unfold times_valid in Hv. rewrite Forall_forall in Hv. now apply Hv. }
  pose proof (check_find w (doctor_name existing) (date existing)
                (Py.slice_to 5 (str_time (time existing))) minutes
                (Some key) (minutes_of (time existing)) Hw Hv
                (minutes_of_text_stored _ Vr)) as H.
  destruct (find _ _) as [apt|] eqn:F; [exfalso|exact H].
  apply find_some in F as [Ha Ho]. apply filter_In in Ha as [Ha Hc].
  apply is_active_of_candidate in Hc. apply overlaps_iff in Ho.
  destruct Hc as (Hd & Hy & Hs & He).
  apply (Hfree apt Ha (He key eq_refl Hkey) Hd Hy Hs Ho).
Qed.

Lemma update_duration_succeeds (w : World) (key : string) (minutes : Z)
    (existing : Row) (others : list Row) :
  healthy w -> times_valid w -> key <> "" ->
  matching key (table w) = existing :: others ->
  (forall apt,
      In apt (table w) -> id apt <> key ->
      doctor_name apt = doctor_name existing -> date apt = date existing ->
      status apt <> "Cancelled" ->
      ~ (minutes_of (time existing) < minutes_of (time apt) + duration apt
         /\ minutes_of (time existing) + minutes > minutes_of (time apt))) ->
  (forall r, In r (matching key (table w)) ->
             accepts w (relengthened minutes (clock w) r) = true) ->
  update_appointment key (duration_only minutes) w
  = (mkReply true "Appointment updated successfully"
       (Some (_format_appointment (relengthened minutes (clock w) existing))) None,
     tick (with_table (map (changed key (relengthened minutes (clock w))) (table w)) w)).
Proof.
  intros Hw Hv Hkey M Hfree Hacc.
  set (w2 := tick (with_table (map (changed key (relengthened minutes (clock w)))
                                   (table w)) w)).
  assert (H2 : healthy w2) by exact Hw.
  assert (Upd : Db.execute_mutation (UpdateFields [SetDuration minutes] key) w
                = (inr (Z.of_nat (List.length (existing :: others))), w2)).
  { rewrite (execute_mutation_healthy _ _ Hw).
    cbn [run_mutation convert_all convert Py.bind Py.ret].
    change (fun r => set_updated_at (clock w) (set_duration minutes r))
      with (relengthened minutes (clock w)).
    rewrite (update_where_accepted _ _ _ _ Hacc), M. reflexivity. }
  unfold update_appointment, guarded, Db.bind, call.
  rewrite (execute_query_healthy _ _ Hw), select_by_id, M.
  cbn [Py.ret duration_only Data.time Data.date Data.doctorName Data.duration
       valid negb touches_schedule has orb get].
  rewrite (own_slot_free w key minutes existing others Hw Hv Hkey M Hfree).
  cbn [available negb update_fields Data.name Data.doctorName Data.date Data.time
       Data.duration Data.status Data.mode Data.notes duration_only app].
  rewrite Upd.
  assert (P : (Z.of_nat (List.length (existing :: others)) >? 0) = true).
  { apply Z.gtb_lt. cbn [List.length]. lia. }
  rewrite P. rewrite (execute_query_healthy _ _ H2), select_by_id.
  unfold w2 at 1. cbn [table tick with_table].
  rewrite matching_changed by reflexivity. rewrite M. reflexivity.
Qed.

Lemma in_changed (key : string) (change : Row -> Row) (rows : list Row) (r : Row) :
  In r (map (changed key change) rows) ->
  In r rows \/ exists r0, In r0 (matching key rows) /\ r = change r0.
Proof.
  intros H. apply in_map_iff in H as (r0 & <- & H0). unfold changed.
  destruct (String.eqb (id r0) key) eqn:K; [right|now left].
  exists r0. split; [|reflexivity]. apply filter_In. now split.
Qed.

(** Every row a mutation of the service leaves in the table was there
    before or has been accepted by the store. *)
Lemma run_mutation_rows (m : Mutation) (w w' : World) (count : Z) (r : Row) :
  run_mutation m w = inr (count, w') ->
  In r (table w') -> In r (table w) \/ accepts w r = true.
Proof.
  destruct m as [who doctor day at_time minutes state how note|key|sets key|state key];
    cbn [run_mutation].
  - destruct (pg_time_in at_time) as [t|]; [|discriminate].
    destruct (accepts w _) eqn:A; [|discriminate].
    intros E. inversion E; subst. cbn [table tick bump_id with_table].
    intros H. apply in_app_or in H as [H|[<-|[]]]; [now left|now right].
  - intros E. inversion E; subst. cbn [table tick with_table].
    intros H. apply filter_In in H as [H _]. now left.
  - destruct (convert_all sets) as [e|change]; [discriminate|]. cbn [Py.bind].
    destruct (update_where _ _ _ _) as [e|[n rows]] eqn:U; [discriminate|].
    intros E. inversion E; subst. cbn [table tick with_table].
    apply update_where_done in U as (-> & _ & Hok).
    intros H. apply in_changed in H as [H|(r0 & H0 & ->)]; [now left|].
    right. now apply Hok.
  - destruct (update_where _ _ _ _) as [e|[n rows]] eqn:U; [discriminate|].
    intros E. inversion E; subst. cbn [table tick with_table].
    apply update_where_done in U as (-> & _ & Hok).
    intros H. apply in_changed in H as [H|(r0 & H0 & ->)]; [now left|].
    right. now apply Hok.
Qed.

Lemma execute_mutation_rows (m : Mutation) (w : World) (r : Row) :
  In r (table (snd (Db.execute_mutation m w))) -> In r (table w) \/ accepts w r = true.
Proof.
  pose proof (execute_mutation_cases m w) as C.
  destruct (Db.execute_mutation m w) as [[e|count] w']; cbn [snd].
  - destruct C as (T & _). rewrite T. now left.
  - destruct C as (w1 & (T & A & _) & R). intros H.
    destruct (run_mutation_rows m w1 w' count r R H) as [H1|H1].
    + left. now rewrite <- T.
    + right. now rewrite <- A.
Qed.

(** The same for the two use cases that write rows, on any connection. *)
Lemma create_rows (data : Data.t) (w : World) (r : Row) :
  In r (table (snd (create_appointment data w))) ->
  In r (table w) \/ accepts w r = true.
Proof.
  unfold create_appointment, guarded, Db.bind, item, call.
  destruct (Data.time data) as [at_time|]; [|now left].
  unfold Db.ret at 1. cbv beta iota.
  destruct (valid (validate_appointment_time at_time)); cbn [negb];
    [|destruct (validation_message _); now left].
  destruct (Data.doctorName data) as [doctor|]; [|now left].
  unfold Db.ret at 1. cbv beta iota.
  destruct (Data.date data) as [day|]; [|now left].
  unfold Db.ret at 1. cbv beta iota.
  destruct (Data.duration data) as [minutes|]; [|now left].
  unfold Db.ret at 1. cbv beta iota.
  pose proof (check_same w doctor day at_time minutes None) as S.
  destruct (check_time_slot_conflict doctor day at_time minutes None w) as [answer w1].
  cbn [snd] in S. destruct S as (T1 & A1 & _).
  destruct (available answer); cbn [negb];
    [|destruct (availability_message answer); cbn; rewrite T1; now left].
  destruct (Data.name data) as [who|]; [|cbn; rewrite T1; now left].
  unfold Db.ret at 1. cbv beta iota.
  match goal with
  | |- context [Db.execute_mutation ?m w1] =>
      pose proof (execute_mutation_rows m w1 r) as R;
      destruct (Db.execute_mutation m w1) as [[e|count] w2]
  end; cbn [snd] in R; rewrite T1, A1 in R; [exact R|].
  destruct (count >? 0); [|exact R].
  match goal with
  | |- context [Db.execute_query ?q w2] =>
      pose proof (execute_query_table q w2) as Q;
      destruct (Db.execute_query q w2) as [[e|created] w3]
  end; cbn [snd] in Q; [cbn; now rewrite Q|].
  destruct created; cbn; now rewrite Q.
Qed.

Lemma update_rows (key : string) (data : Data.t) (w : World) (r : Row) :
  In r (table (snd (update_appointment key data w))) ->
  In r (table w) \/ accepts w r = true.
Proof.
  unfold update_appointment, guarded, Db.bind, item.
  pose proof (execute_query_same (SelectById key) w) as S0.
  destruct (Db.execute_query (SelectById key) w) as [[e|result] w0].
  { cbn [snd] in *. destruct S0 as (T0 & _). rewrite T0. now left. }
  cbn [snd] in S0. destruct S0 as (T0 & A0 & _).
  destruct result as [|existing others]; [cbn; rewrite T0; now left|].
  destruct (valid _); cbn [negb];
    [|destruct (validation_message _); cbn; rewrite T0; now left].
  assert (S : exists answer w1,
             (if touches_schedule data
              then
                call (check_time_slot_conflict
                        (get (Data.doctorName data) (doctor_name existing))
                        (get (Data.date data) (date existing))
                        (get (Data.time data) (Py.slice_to 5 (str_time (time existing))))
                        (get (Data.duration data) (duration existing)) (Some key))
              else Db.ret (mkAvailability true None None)) w0 = (inr answer, w1)
             /\ table w1 = table w /\ accepts w1 = accepts w).
  { destruct (touches_schedule data); unfold call.
    - pose proof (check_same w0
                    (get (Data.doctorName data) (doctor_name existing))
                    (get (Data.date data) (date existing))
                    (get (Data.time data) (Py.slice_to 5 (str_time (time existing))))
                    (get (Data.duration data) (duration existing)) (Some key)) as C.
      destruct (check_time_slot_conflict _ _ _ _ _ w0) as [answer w1].
      cbn [snd] in C. destruct C as (T1 & A1 & _).
      exists answer, w1. repeat split; congruence.
    - exists (mkAvailability true None None), w0. now repeat split. }
  destruct S as (answer & w1 & -> & T1 & A1).
  destruct (available answer); cbn [negb];
    [|destruct (availability_message answer); cbn; rewrite T1; now left].
  pose proof (execute_mutation_rows (UpdateFields (update_fields data) key) w1 r) as R.
  destruct (Db.execute_mutation _ w1) as [[e|count] w2];
    cbn [snd] in R; rewrite T1, A1 in R; [exact R|].
  destruct (count >? 0); [|exact R].
  pose proof (execute_query_table (SelectById key) w2) as Q.
  destruct (Db.execute_query (SelectById key) w2) as [[e|updated] w3];
    cbn [snd] in Q; [cbn; now rewrite Q|].
  unfold Db.lift. destruct (Py.index updated 0); cbn; now rewrite Q.
Qed.

(** C6, as the code has it.  Neither [create_appointment] nor
    [update_appointment] looks at the sign of the duration.  A create that
    passes the business-hours and conflict checks stores the row with the
    duration it was given, and an update of the duration of a stored
    booking sets it to the value it was given, whatever integer that is,
    provided the store accepts the row.  Stored durations stay positive
    through both use cases when the table declaration itself refuses the
    others. *)
Theorem durations_are_stored_as_given :
  (forall w data who doctor day at_time minutes start t,
      Data.name data = Some who -> Data.doctorName data = Some doctor ->
      Data.date data = Some day -> Data.time data = Some at_time ->
      Data.duration data = Some minutes ->
      healthy w -> times_valid w ->
      valid (validate_appointment_time at_time) = true ->
      minutes_of_text at_time = inr start ->
      pg_time_in at_time = Some t ->
      (forall apt, In apt (table w) -> candidate doctor day None apt ->
         ~ (start < minutes_of (time apt) + duration apt
            /\ start + minutes > minutes_of (time apt))) ->
      accepts w (inserted w who doctor day t minutes data) = true ->
      success (fst (create_appointment data w)) = true
      /\ In (inserted w who doctor day t minutes data)
            (table (snd (create_appointment data w)))
      /\ duration (inserted w who doctor day t minutes data) = minutes)
  /\ (forall w appointment_id minutes existing others,
        healthy w -> times_valid w -> appointment_id <> "" ->
        matching appointment_id (table w) = existing :: others ->
        (forall apt,
            In apt (table w) -> id apt <> appointment_id ->
            doctor_name apt = doctor_name existing -> date apt = date existing ->
            status apt <> "Cancelled" ->
            ~ (minutes_of (time existing) < minutes_of (time apt) + duration apt
               /\ minutes_of (time existing) + minutes > minutes_of (time apt))) ->
        (forall r, In r (matching appointment_id (table w)) ->
                   accepts w (relengthened minutes (clock w) r) = true) ->
        success (fst (update_appointment appointment_id (duration_only minutes) w)) = true
        /\ table (snd (update_appointment appointment_id (duration_only minutes) w))
           = map (changed appointment_id (relengthened minutes (clock w))) (table w)
        /\ duration (relengthened minutes (clock w) existing) = minutes)
  /\ (forall w,
        (forall r, accepts w r = true -> 0 < duration r) ->
        durations_positive w ->
        forall appointment_id data,
          durations_positive (snd (create_appointment data w))
          /\ durations_positive (snd (update_appointment appointment_id data w))).
Proof.
  split; [|split].
  - intros w data who doctor day at_time minutes start t
           Dn Dd Dy Dt Dm Hw Hv Hval Hstart Hpg Hfree Hacc.
    destruct (create_appointment_succeeds w data who doctor day at_time minutes start t
                Dn Dd Dy Dt Dm Hw Hv Hval Hstart Hpg Hfree Hacc) as [Ok After].
    split; [exact Ok|]. split; [|reflexivity].
    rewrite After. cbn [table tick bump_id with_table].
    apply in_or_app. right. now left.
  - intros w key minutes existing others Hw Hv Hkey M Hfree Hacc.
    rewrite (update_duration_succeeds w key minutes existing others
               Hw Hv Hkey M Hfree Hacc).
    repeat split.
  - intros w Enforced Hpos key data. unfold durations_positive in *.
    rewrite Forall_forall in Hpos.
    split; apply Forall_forall; intros r Hr.
    + destruct (create_rows data w r Hr) as [H|H]; [now apply Hpos|now apply Enforced].
    + destruct (update_rows key data w r Hr) as [H|H]; [now apply Hpos|now apply Enforced].
Qed.

(** The zero-minute create and the update to minus five minutes, and a
    store that refuses such rows. *)
Lemma durations_are_stored_as_given_witness :
  success (fst (create_appointment (request "Bob" "Dr. Smith" "2025-12-15" "09:00" 0)
                  (open_store []))) = true
  /\ table (snd (update_appointment "a1" (duration_only (-5)) (open_store [alice])))
     = [relengthened (-5) 1 alice]
  /\ durations_positive
       (snd (create_appointment (request "Bob" "Dr. Smith" "2025-12-15" "09:00" 0)
               (mkWorld [alice] (fun r => 0 <? duration r) 1 1 []))).
Proof.
  destruct durations_are_stored_as_given as (Create & Update & Enforced).
  split; [|split].
  - assert (Hv : times_valid (open_store [])) by constructor.
    assert (Hf : forall apt,
               In apt (table (open_store [])) ->
               candidate "Dr. Smith" "2025-12-15" None apt ->
               ~ (540 < minutes_of (time apt) + duration apt
                  /\ 540 + 0 > minutes_of (time apt)))
      by (intros apt []).
    destruct (Create (open_store []) (request "Bob" "Dr. Smith" "2025-12-15" "09:00" 0)
                     "Bob" "Dr. Smith" "2025-12-15" "09:00" 0 540 (mkTime 9 0 0)
                     eq_refl eq_refl eq_refl eq_refl eq_refl eq_refl Hv
                     eq_refl eq_refl eq_refl Hf eq_refl) as (Ok & _).
    exact Ok.
  - assert (Hv : times_valid (open_store [alice])) by (repeat constructor).
    assert (Hk : "a1" <> "") by discriminate.
    assert (Hf : forall apt,
               In apt (table (open_store [alice])) -> id apt <> "a1" ->
               doctor_name apt = doctor_name alice -> date apt = date alice ->
               status apt <> "Cancelled" ->
               ~ (minutes_of (time alice) < minutes_of (time apt) + duration apt
                  /\ minutes_of (time alice) + -5 > minutes_of (time apt))).
    { intros apt [<-|[]] N. now contradiction N. }
    assert (Ha : forall r, In r (matching "a1" (table (open_store [alice]))) ->
                 accepts (open_store [alice])
                   (relengthened (-5) (clock (open_store [alice])) r) = true)
      by reflexivity.
    destruct (Update (open_store [alice]) "a1" (-5) alice [] eq_refl Hv Hk eq_refl Hf Ha)
      as (_ & T & _).
    exact T.
  - assert (He : forall r,
               accepts (mkWorld [alice] (fun r => 0 <? duration r) 1 1 []) r = true ->
               0 < duration r)
      by (intros r H; now apply Z.ltb_lt).
    assert (Hp : durations_positive (mkWorld [alice] (fun r => 0 <? duration r) 1 1 []))
      by (repeat constructor).
    destruct (Enforced _ He Hp "a1" (request "Bob" "Dr. Smith" "2025-12-15" "09:00" 0))
      as (Kept & _).
    exact Kept.
Defined.

(* ------------------------------------------------------------------ *)
(** *** The status enum *)

(** The status-only update keeps the stored statuses among the four
    values, on any connection and whatever the store accepts. *)
Lemma update_appointment_status_keeps_statuses_valid
    (appointment_id new_status : string) (w : World) :
  statuses_valid w ->
  statuses_valid (snd (update_appointment_status appointment_id new_status w)).
Proof.
  unfold statuses_valid. intros Hw.
  unfold update_appointment_status, guarded, Db.bind.
  destruct (Py.contains new_status valid_statuses) eqn:V; cbn [negb]; [|exact Hw].
  apply contains_In in V.
  pose proof (execute_mutation_cases (UpdateStatus new_status appointment_id) w) as C.
  destruct (Db.execute_mutation _ w) as [[e|count] w'].
  - destruct C as (T & _). cbn [snd]. now rewrite T.
  - destruct C as (w1 & (T & _) & R). cbn [run_mutation] in R.
    destruct (update_where _ _ _ _) as [e|[n rows]] eqn:U; [discriminate|].
    cbn [Py.bind Py.ret] in R. inversion R; subst count w'. clear R.
    apply update_where_done in U as (-> & _ & _).
    assert (G : Forall (fun r => In (status r) valid_statuses)
                  (map (changed appointment_id
                          (fun r => set_updated_at (clock w1) (set_status new_status r)))
                       (table w1))).
    { rewrite T. rewrite Forall_forall in *. intros r Hr.
      apply in_map_iff in Hr as (r0 & <- & H0). unfold changed.
      destruct (String.eqb (id r0) appointment_id); [exact V|now apply Hw]. }
    destruct (n >? 0); exact G.
Qed.

(** C7, at the failing input.  On a store whose table declares no
    constraint and whose one booking has a status among the four, a create
    carrying the status "Bogus" and a field update to the status "Bogus"
    both succeed and leave that status in the table, while the status-only
    update refuses "Bogus" and takes each of the four values. *)
Theorem create_and_update_store_unchecked_status :
  statuses_valid (open_store [alice])
  /\ success (fst (create_appointment
                     (request_with_status "Bob" "Dr. Smith" "2025-12-15" "11:00" 30 "Bogus")
                     (open_store [alice]))) = true
  /\ map status
       (table (snd (create_appointment
                      (request_with_status "Bob" "Dr. Smith" "2025-12-15" "11:00" 30 "Bogus")
                      (open_store [alice]))))
     = ["Scheduled"; "Bogus"]
  /\ ~ statuses_valid
         (snd (create_appointment
                 (request_with_status "Bob" "Dr. Smith" "2025-12-15" "11:00" 30 "Bogus")
                 (open_store [alice])))
  /\ success (fst (update_appointment "a1" (status_only "Bogus") (open_store [alice])))
     = true
  /\ map status (table (snd (update_appointment "a1" (status_only "Bogus")
                               (open_store [alice]))))
     = ["Bogus"]
  /\ ~ statuses_valid (snd (update_appointment "a1" (status_only "Bogus")
                              (open_store [alice])))
  /\ update_appointment_status "a1" "Bogus" (open_store [alice])
     = (mkStatusReply false
          "Invalid status. Must be one of: Confirmed, Scheduled, Upcoming, Cancelled"
          "a1" None None, open_store [alice])
  /\ Forall (fun state =>
               map status (table (snd (update_appointment_status "a1" state
                                         (open_store [alice]))))
               = [state])
            valid_statuses.
Proof.
  assert (Bogus : ~ In "Bogus" valid_statuses).
  { simpl. intros [H|[H|[H|[H|[]]]]]; discriminate. }
  split; [repeat constructor; simpl; tauto|].
  split; [reflexivity|]. split; [reflexivity|]. split.
  { intros H. vm_compute in H. inversion H as [|? ? _ H1].
    inversion H1 as [|? ? B _]. now apply Bogus. }
  split; [reflexivity|]. split; [reflexivity|]. split.
  { intros H. vm_compute in H. inversion H as [|? ? B _]. now apply Bogus. }
  split; [reflexivity|].
  repeat constructor.
Qed.

(* ================================================================== *)
(** ** Further properties of the service and its gateway *)

(* ------------------------------------------------------------------ *)
(** *** The gateway when the connection fails *)

Lemma run_query_outages (q : Query) (o : list bool) (w : World) :
  run_query q (with_outages o w) = run_query q w.
Proof. now apply run_query_table. Qed.

(** A statement does not look at the state of the connection. *)
Lemma run_mutation_outages (m : Mutation) (o : list bool) (w : World) :
  run_mutation m (with_outages o w)
  = match run_mutation m w with
    | inl e => inl e
    | inr (count, w') => inr (count, with_outages o w')
    end.
Proof.
  destruct m as [who doctor day at_time minutes state how note|key|sets key|state key];
    cbn [run_mutation table accepts clock next_id with_outages].
  - destruct (pg_time_in at_time) as [t|]; [|reflexivity].
    now destruct (accepts w _).
  - reflexivity.
  - destruct (convert_all sets) as [e|change]; [reflexivity|]. cbn [Py.bind].
    now destruct (update_where _ _ _ _) as [e|[n rows']].
  - now destruct (update_where _ _ _ _) as [e|[n rows']].
Qed.

(** [execute_query] and [execute_mutation] hide one lost connection: when
    the first attempt finds the connection lost and the second does not,
    the caller gets what the statement gives on the store as it stands, a
    mutation being committed once.  When both attempts find it lost, the
    call raises and the store is as it was. *)
Theorem gateway_hides_one_outage (w : World) (rest : list bool) :
  (outages w = true :: false :: rest ->
   (forall q, Db.execute_query q w = (run_query q w, with_outages rest w))
   /\ (forall m,
         Db.execute_mutation m w
         = match run_mutation m w with
           | inl e => (inl e, with_outages rest w)
           | inr (count, w') => (inr count, with_outages rest w')
           end))
  /\ (outages w = true :: true :: rest ->
      (forall q, Db.execute_query q w = (inl Db.connection_lost, with_outages rest w))
      /\ (forall m,
            Db.execute_mutation m w = (inl Db.connection_lost, with_outages rest w))).
Proof.
  split; intros Ho; split.
  - intros q. unfold Db.execute_query, Db.try_query, Db.next_outage.
    rewrite Ho. cbn [outages with_outages]. now rewrite !run_query_outages.
  - intros m. unfold Db.execute_mutation, Db.try_mutation, Db.next_outage.
    rewrite Ho. cbn [outages with_outages].
    rewrite !run_mutation_outages.
    destruct (run_mutation m w) as [e|[count w']]; reflexivity.
  - intros q. unfold Db.execute_query, Db.try_query, Db.next_outage.
    rewrite Ho. reflexivity.
  - intros m. unfold Db.execute_mutation, Db.try_mutation, Db.next_outage.
    rewrite Ho. reflexivity.
Qed.

(** One outage before Alice's booking is deleted: it is deleted all the
    same; two outages: it stays. *)
Lemma gateway_hides_one_outage_witness :
  table (snd (Db.execute_mutation (DeleteById "a1")
                (with_outages [true; false] (open_store [alice])))) = []
  /\ Db.execute_mutation (DeleteById "a1")
       (with_outages [true; true] (open_store [alice]))
     = (inl Db.connection_lost, open_store [alice]).
Proof.
  destruct (gateway_hides_one_outage
              (with_outages [true; false] (open_store [alice])) []) as [Once _].
  destruct (gateway_hides_one_outage
              (with_outages [true; true] (open_store [alice])) []) as [_ Twice].
  split.
  - destruct (Once eq_refl) as [_ M]. now rewrite M.
  - destruct (Twice eq_refl) as [_ M]. now rewrite M.
Defined.

(* ------------------------------------------------------------------ *)
(** *** Keys a create cannot do without *)

(** A create whose dictionary lacks one of [name], [doctorName], [date],
    [time] or [duration] is answered with failure, without data, and
    leaves the table as it was, on any connection.  A missing [time] is
    met first, before anything is asked of the store. *)
Theorem create_appointment_requires_five_keys (data : Data.t) (w : World) :
  (Data.name data = None \/ Data.doctorName data = None \/ Data.date data = None
   \/ Data.time data = None \/ Data.duration data = None ->
   success (fst (create_appointment data w)) = false
   /\ AppointmentService.data (fst (create_appointment data w)) = None
   /\ table (snd (create_appointment data w)) = table w)
  /\ (Data.time data = None ->
      create_appointment data w
      = (mkReply false "Error creating appointment: 'time'" None None, w)).
Proof.
  split.
  - intros Missing.
    destruct (create_appointment data w) as [reply after] eqn:E. cbn [fst snd].
    unfold create_appointment, guarded, Db.bind, item, call in E.
    destruct (Data.time data) as [at_time|];
      [|inversion E; subst; now repeat split].
    unfold Db.ret at 1 in E. cbv beta iota in E.
    destruct (valid (validate_appointment_time at_time)); cbn [negb] in E;
      [|destruct (validation_message _); inversion E; subst; now repeat split].
    destruct (Data.doctorName data) as [doctor|];
      [|inversion E; subst; now repeat split].
    unfold Db.ret at 1 in E. cbv beta iota in E.
    destruct (Data.date data) as [day|];
      [|inversion E; subst; now repeat split].
    unfold Db.ret at 1 in E. cbv beta iota in E.
    destruct (Data.duration data) as [minutes|];
      [|inversion E; subst; now repeat split].
    unfold Db.ret at 1 in E. cbv beta iota in E.
    pose proof (check_table w doctor day at_time minutes None) as T.
    destruct (check_time_slot_conflict doctor day at_time minutes None w) as [answer w1].
    cbn [snd] in T.
    destruct (available answer); cbn [negb] in E;
      [|destruct (availability_message answer); inversion E; subst; now repeat split].
    destruct (Data.name data) as [who|];
      [|inversion E; subst; now repeat split].
    destruct Missing as [M|[M|[M|[M|M]]]]; discriminate M.
  - intros Dt. unfold create_appointment, guarded, Db.bind, item. now rewrite Dt.
Qed.

(** A request without a name passes the checks and is refused only when
    the INSERT is put together; one without a time is refused at once. *)
Lemma create_appointment_requires_five_keys_witness :
  success (fst (create_appointment
                  (Data.mk None (Some "Dr. Smith") (Some "2025-12-15") (Some "10:00")
                           (Some 30) None None None)
                  (open_store [alice]))) = false
  /\ create_appointment
       (Data.mk (Some "Bob") (Some "Dr. Smith") (Some "2025-12-15") None
                (Some 30) None None None)
       (open_store [alice])
     = (mkReply false "Error creating appointment: 'time'" None None, open_store [alice]).
Proof.
  split.
  - destruct (create_appointment_requires_five_keys
                (Data.mk None (Some "Dr. Smith") (Some "2025-12-15") (Some "10:00")
                         (Some 30) None None None)
                (open_store [alice])) as [H _].
    destruct H as (F & _); [now left|exact F].
  - destruct (create_appointment_requires_five_keys
                (Data.mk (Some "Bob") (Some "Dr. Smith") (Some "2025-12-15") None
                         (Some 30) None None None)
                (open_store [alice])) as [_ H].
    exact (H eq_refl).
Defined.

(* ------------------------------------------------------------------ *)
(** *** What the check looks at *)

Lemma active_of_doctor_and_day (doctor day : string) (exclude : option string)
    (rows : list Row) :
  filter (is_active_of doctor day exclude) (filter (of_doctor_and_day doctor day) rows)
  = filter (is_active_of doctor day exclude) rows.
Proof.
  induction rows as [|r rest IH]; simpl; [reflexivity|].
  unfold of_doctor_and_day at 1.
  destruct (String.eqb (doctor_name r) doctor && String.eqb (date r) day) eqn:S; simpl.
  - now rewrite IH.
  - rewrite IH. unfold is_active_of at 2. now rewrite S.
Qed.

(** [check_time_slot_conflict] reads and never writes, and its answer
    depends only on the rows of the doctor and the day asked about:
    bookings of other doctors or on other days have no part in it. *)
Theorem check_looks_only_at_doctor_and_day
    (w : World) (doctor day at_time : string) (minutes : Z) (exclude : option string) :
  table (snd (check_time_slot_conflict doctor day at_time minutes exclude w)) = table w
  /\ fst (check_time_slot_conflict doctor day at_time minutes exclude w)
     = fst (check_time_slot_conflict doctor day at_time minutes exclude
              (with_table (filter (of_doctor_and_day doctor day) (table w)) w)).
Proof.
  split; [apply check_table|].
  rewrite !check_fst.
  destruct (minutes_of_text at_time) as [e|start]; [reflexivity|].
  rewrite (execute_query_fst _ (SelectActiveOfDoctor doctor day
                                  (if truthy exclude then exclude else None))
             w (with_table (filter (of_doctor_and_day doctor day) (table w)) w));
    [reflexivity|reflexivity|].
  cbn [run_query table with_table]. now rewrite active_of_doctor_and_day.
Qed.

(** Whether two bookings of one doctor and day are in each other's way
    does not depend on which of them is stored and which is asked for. *)
Theorem conflict_does_not_depend_on_order (a b : Row) (wa wb : World) :
  healthy wa -> healthy wb -> table wa = [a] -> table wb = [b] ->
  valid_time (time a) = true -> valid_time (time b) = true ->
  doctor_name a = doctor_name b -> date a = date b ->
  status a <> "Cancelled" -> status b <> "Cancelled" ->
  available
    (fst (check_time_slot_conflict (doctor_name b) (date b)
            (Py.slice_to 5 (str_time (time b))) (duration b) None wa))
  = available
      (fst (check_time_slot_conflict (doctor_name a) (date a)
              (Py.slice_to 5 (str_time (time a))) (duration a) None wb)).
Proof.
  intros Ha Hb Ta Tb Va Vb Ed Ey Sa Sb.
  assert (Hva : times_valid wa) by (unfold times_valid; rewrite Ta; now repeat constructor).
  assert (Hvb : times_valid wb) by (unfold times_valid; rewrite Tb; now repeat constructor).
  pose proof (check_find wa (doctor_name b) (date b) (Py.slice_to 5 (str_time (time b)))
                (duration b) None (minutes_of (time b)) Ha Hva
                (minutes_of_text_stored _ Vb)) as Fa.
  pose proof (check_find wb (doctor_name a) (date a) (Py.slice_to 5 (str_time (time a)))
                (duration a) None (minutes_of (time a)) Hb Hvb
                (minutes_of_text_stored _ Va)) as Fb.
  rewrite Ta in Fa. rewrite Tb in Fb. cbn [truthy filter] in Fa, Fb.
  assert (Ca : is_active_of (doctor_name b) (date b) None a = true).
  { apply (is_active_of_candidate _ _ None). unfold candidate.
    repeat split; try assumption. intros key K. discriminate K. }
  assert (Cb : is_active_of (doctor_name a) (date a) None b = true).
  { apply (is_active_of_candidate _ _ None). unfold candidate.
    repeat split; try (symmetry; assumption); try assumption.
    intros key K. discriminate K. }
  rewrite Ca in Fa. rewrite Cb in Fb. cbn [find] in Fa, Fb.
  assert (O : overlaps (minutes_of (time b)) (minutes_of (time b) + duration b) a
              = overlaps (minutes_of (time a)) (minutes_of (time a) + duration a) b).
  { unfold overlaps. rewrite !Z.gtb_ltb. apply andb_comm. }
  rewrite O in Fa.
  destruct (overlaps (minutes_of (time a)) (minutes_of (time a) + duration a) b).
  - destruct Fa as [ta Fa], Fb as [tb Fb]. now rewrite Fa, Fb.
  - now rewrite Fa, Fb.
Qed.

(** Alice 09:00-09:30 and a booking 09:15-09:45: each refuses the other. *)
Lemma conflict_does_not_depend_on_order_witness :
  available
    (fst (check_time_slot_conflict "Dr. Smith" "2025-12-15" "09:15" 30 None
            (open_store [alice])))
  = available
      (fst (check_time_slot_conflict "Dr. Smith" "2025-12-15" "09:00" 30 None
              (open_store
                 [booking "b1" "Bob" "Dr. Smith" "2025-12-15" (mkTime 9 15 0) 30
                          "Confirmed"]))).
Proof.
  apply (conflict_does_not_depend_on_order alice
           (booking "b1" "Bob" "Dr. Smith" "2025-12-15" (mkTime 9 15 0) 30 "Confirmed")
           (open_store [alice])
           (open_store [booking "b1" "Bob" "Dr. Smith" "2025-12-15" (mkTime 9 15 0) 30
                                "Confirmed"]));
    try reflexivity; discriminate.
Defined.

(* ------------------------------------------------------------------ *)
(** *** Time texts, read and written *)

(** The HH:MM text that [_format_appointment] and the update's merged view
    derive from a stored time has five characters, reads back in
    [check_time_slot_conflict] as the minutes since midnight of that time,
    and passes the business-hours test exactly when the stored hour is
    from 8 to 20. *)
Theorem shown_time_reads_back (t : TimeOfDay) :
  valid_time t = true ->
  let text := Py.slice_to 5 (str_time t) in
  String.length text = 5%nat
  /\ minutes_of_text text = inr (minutes_of t)
  /\ (valid (validate_appointment_time text) = true <-> (8 <= hour t < 21)%nat).
Proof.
  intros V text. subst text. split; [|split].
  - rewrite (slice_str_time t V).
    unfold valid_time in V.
    apply andb_true_iff in V as [V Vs]. apply andb_true_iff in V as [Vh Vm].
    apply Nat.ltb_lt in Vh, Vm.
    destruct (two_digits_shape (hour t)) as (a & b & Eh); [lia|].
    destruct (two_digits_shape (minute t)) as (c & d & Em); [lia|].
    rewrite Eh, Em. reflexivity.
  - now apply minutes_of_text_stored.
  - rewrite (validate_stored t V), andb_true_iff, Nat.leb_le, Nat.ltb_lt. reflexivity.
Qed.

(** Twenty to nine in the evening. *)
Lemma shown_time_reads_back_witness :
  minutes_of_text (Py.slice_to 5 (str_time (mkTime 20 40 15))) = inr 1240.
Proof.
  destruct (shown_time_reads_back (mkTime 20 40 15) eq_refl) as (_ & H & _).
  exact H.
Defined.

Lemma digit_cases (c : ascii) : is_digit c = true -> In c digit_chars.
Proof.
  intros H.
  assert (L : digit_listed c = true).
  { destruct c as [[] [] [] [] [] [] [] []]; reflexivity. }
  unfold digit_listed in L. rewrite H in L. cbn [negb orb] in L.
  apply existsb_exists in L as (d & Hd & E).
  apply Ascii.eqb_eq in E. now subst.
Qed.

(** A field the store reads as a number is read by [int] as the same
    number. *)
Lemma field_int (s : string) (n : nat) :
  field s = Some n -> Py.int s = inr (Z.of_nat n).
Proof.
  intros F.
  assert (A : field_agrees s = true).
  { unfold field in F.
    destruct s as [|c1 [|c2 [|c3 s]]]; cbn [String.length Nat.leb andb] in F;
      try discriminate F.
    - cbn [list_ascii_of_string forallb] in F.
      destruct (is_digit c1) eqn:D1; [|discriminate F].
      apply digit_cases in D1.
      assert (G : forallb (fun c => field_agrees (String c "")) digit_chars = true)
        by (vm_compute; reflexivity).
      rewrite forallb_forall in G. now apply G.
    - cbn [list_ascii_of_string forallb] in F.
      destruct (is_digit c1) eqn:D1; [|discriminate F].
      destruct (is_digit c2) eqn:D2; [|discriminate F].
      apply digit_cases in D1, D2.
      assert (G : forallb (fun a =>
                    forallb (fun b => field_agrees (String a (String b ""))) digit_chars)
                    digit_chars = true)
        by (vm_compute; reflexivity).
      rewrite forallb_forall in G. specialize (G c1 D1).
      rewrite forallb_forall in G. now apply G. }
  unfold field_agrees in A. rewrite F in A. unfold Py.int.
  destruct (Py.int_literal s) as [z|]; [|discriminate A].
  apply Z.eqb_eq in A. now subst.
Qed.

Lemma checked_valid (t t' : TimeOfDay) : checked t = Some t' -> t' = t /\ valid_time t = true.
Proof.
  unfold checked. destruct (valid_time t); [|discriminate].
  intros E. inversion E. now split.
Qed.

(** A time text the store takes is read by the check as the minutes of
    the time that gets stored, and by the business-hours test as its
    hour. *)
Lemma pg_time_in_checked (s : string) (t : TimeOfDay) :
  pg_time_in s = Some t ->
  valid_time t = true
  /\ minutes_of_text s = inr (minutes_of t)
  /\ valid (validate_appointment_time s) = ((8 <=? hour t) && (hour t <? 21))%nat.
Proof.
  unfold pg_time_in, minutes_of_text, validate_appointment_time.
  destruct (Py.split_colon s) as [|h [|m [|sec [|x l]]]]; try discriminate.
  - destruct (field h) as [h'|] eqn:Fh; [|discriminate].
    destruct (field m) as [m'|] eqn:Fm; [|discriminate].
    intros C. apply checked_valid in C as [-> V]. split; [exact V|].
    cbn [Py.index nth_error Py.bind Py.ret].
    rewrite (field_int _ _ Fh), (field_int _ _ Fm). cbn [Py.bind Py.ret hour].
    split; [reflexivity|].
    destruct (Z.of_nat h' <? 8) eqn:A, (Z.of_nat h' >=? 21) eqn:B,
             (8 <=? h')%nat eqn:A', (h' <? 21)%nat eqn:B'; try reflexivity;
      rewrite ?Z.ltb_lt, ?Z.ltb_ge in A; rewrite Z.geb_leb in B;
      rewrite ?Z.leb_le, ?Z.leb_gt in B;
      rewrite ?Nat.leb_le, ?Nat.leb_gt in A';
      rewrite ?Nat.ltb_lt, ?Nat.ltb_ge in B'; lia.
  - destruct (field h) as [h'|] eqn:Fh; [|discriminate].
    destruct (field m) as [m'|] eqn:Fm; [|discriminate].
    destruct (field sec) as [s'|] eqn:Fs; [|discriminate].
    intros C. apply checked_valid in C as [-> V]. split; [exact V|].
    cbn [Py.index nth_error Py.bind Py.ret].
    rewrite (field_int _ _ Fh), (field_int _ _ Fm). cbn [Py.bind Py.ret hour].
    split; [reflexivity|].
    destruct (Z.of_nat h' <? 8) eqn:A, (Z.of_nat h' >=? 21) eqn:B,
             (8 <=? h')%nat eqn:A', (h' <? 21)%nat eqn:B'; try reflexivity;
      rewrite ?Z.ltb_lt, ?Z.ltb_ge in A; rewrite Z.geb_leb in B;
      rewrite ?Z.leb_le, ?Z.leb_gt in B;
      rewrite ?Nat.leb_le, ?Nat.leb_gt in A';
      rewrite ?Nat.ltb_lt, ?Nat.ltb_ge in B'; lia.
Qed.

(** What the store makes of a text is a time of day. *)
Lemma pg_time_in_valid (s : string) (t : TimeOfDay) :
  pg_time_in s = Some t -> valid_time t = true.
Proof.
  unfold pg_time_in.
  destruct (Py.split_colon s) as [|h [|m [|sec [|x l]]]]; try discriminate.
  - destruct (field h), (field m); try discriminate.
    intros C. now apply checked_valid in C as [-> V].
  - destruct (field h), (field m), (field sec); try discriminate.
    intros C. now apply checked_valid in C as [-> V].
Qed.

(** The HH:MM texts the service shows are read alike. *)
Lemma shown_reads_alike (t : TimeOfDay) :
  valid_time t = true -> reads_alike (Py.slice_to 5 (str_time t)).
Proof.
  intros V t' P. rewrite (pg_time_in_stored t V) in P. injection P as <-.
  now rewrite (minutes_of_text_stored t V).
Qed.

(* ------------------------------------------------------------------ *)
(** *** What a create answers with *)

Lemma newest_first_last (l : list Row) (r : Row) :
  (forall x, In x l -> created_at x < created_at r) ->
  exists rest, newest_first (l ++ [r]) = r :: rest.
Proof.
  induction l as [|x l IH]; intros Old; [now exists []|].
  destruct IH as [rest IH]; [intros y Hy; apply Old; now right|].
  cbn [app newest_first fold_right]. fold (newest_first (l ++ [r])). rewrite IH.
  cbn [insert_newest].
  assert (L : (created_at r <=? created_at x) = false).
  { apply Z.leb_gt, Old. now left. }
  rewrite L. now eexists.
Qed.

Lemma filter_last {A} (f : A -> bool) (l : list A) (r : A) :
  f r = true -> filter f (l ++ [r]) = (filter f l ++ [r])%list.
Proof. intros H. rewrite filter_app. simpl. now rewrite H. Qed.

Lemma without_fresh (key : string) (l : list Row) (r : Row) :
  id r = key -> (forall x, In x l -> id x <> key) ->
  without key (l ++ [r]) = l /\ matching key (l ++ [r]) = [r].
Proof.
  intros K Fresh. unfold without, matching. rewrite !filter_app. simpl.
  rewrite K, String.eqb_refl. simpl.
  assert (E1 : filter (fun x => negb (String.eqb (id x) key)) l = l).
  { induction l as [|x l IH]; simpl; [reflexivity|].
    assert (N : String.eqb (id x) key = false)
      by (apply String.eqb_neq, Fresh; now left).
    rewrite N. simpl. f_equal. apply IH. intros y Hy. apply Fresh. now right. }
  assert (E2 : filter (fun x => String.eqb (id x) key) l = []).
  { apply (matching_nil key l). exact Fresh. }
  rewrite E1, E2, app_nil_r. now split.
Qed.

(** The created entity round-trips.  On a healthy connection, for a
    request that passes the checks, with the stored rows older than the
    store's clock, [create_appointment] answers with the row it inserted:
    the fields of the request, the time as HH:MM, and "Scheduled",
    "In-Person" and "" where the request names no status, mode or notes.
    If the generated id is new, deleting that id next answers with the
    same entity and leaves the table as it was before the create. *)
Theorem create_appointment_round_trip
    (w : World) (data : Data.t) (who doctor day at_time : string)
    (minutes start : Z) (t : TimeOfDay) :
  Data.name data = Some who -> Data.doctorName data = Some doctor ->
  Data.date data = Some day -> Data.time data = Some at_time ->
  Data.duration data = Some minutes ->
  healthy w -> times_valid w ->
  valid (validate_appointment_time at_time) = true ->
  minutes_of_text at_time = inr start ->
  pg_time_in at_time = Some t ->
  (forall apt, In apt (table w) -> candidate doctor day None apt ->
     ~ (start < minutes_of (time apt) + duration apt
        /\ start + minutes > minutes_of (time apt))) ->
  accepts w (inserted w who doctor day t minutes data) = true ->
  (forall r, In r (table w) -> created_at r < clock w) ->
  let row := inserted w who doctor day t minutes data in
  let after := snd (create_appointment data w) in
  fst (create_appointment data w)
  = mkReply true "Appointment created successfully"
      (Some (Wire.mk (gen_id (next_id w)) who doctor day
                     (two_digits (hour t) ++ ":" ++ two_digits (minute t)) minutes
                     (get (Data.status data) "Scheduled")
                     (get (Data.mode data) "In-Person")
                     (get (Data.notes data) "") (clock w)))
      None
  /\ table after = (table w ++ [row])%list
  /\ ((forall r, In r (table w) -> id r <> gen_id (next_id w)) ->
      AppointmentService.data (fst (delete_appointment (gen_id (next_id w)) after))
      = AppointmentService.data (fst (create_appointment data w))
      /\ table (snd (delete_appointment (gen_id (next_id w)) after)) = table w).
Proof.
  intros Dn Dd Dy Dt Dm Hw Hv Hval Hstart Hpg Hfree Hacc Old row after.
  destruct (create_appointment_succeeds w data who doctor day at_time minutes start t
              Dn Dd Dy Dt Dm Hw Hv Hval Hstart Hpg Hfree Hacc) as [_ After].
  fold row in After.
  destruct (pg_time_in_checked _ _ Hpg) as (Vt & _ & _).
  assert (Shown : _format_appointment row
                  = Wire.mk (gen_id (next_id w)) who doctor day
                      (two_digits (hour t) ++ ":" ++ two_digits (minute t)) minutes
                      (get (Data.status data) "Scheduled")
                      (get (Data.mode data) "In-Person")
                      (get (Data.notes data) "") (clock w)).
  { unfold _format_appointment, row, inserted.
    cbn [id patient_name doctor_name date time duration status mode notes created_at].
    now rewrite (slice_str_time t Vt). }
  assert (Reply : fst (create_appointment data w)
                  = mkReply true "Appointment created successfully"
                      (Some (_format_appointment row)) None).
  { set (w2 := tick (bump_id (with_table (table w ++ [row]) w))) in *.
    assert (H2 : healthy w2) by exact Hw.
    assert (Chk : check_time_slot_conflict doctor day at_time minutes None w
                  = (mkAvailability true None None, w)).
    { pose proof (check_find w doctor day at_time minutes None start Hw Hv Hstart) as H.
      destruct (find _ _) as [apt|] eqn:F; [|exact H]. exfalso.
      apply find_some in F as [Hin Ho]. apply filter_In in Hin as [Hin Hc].
      apply is_active_of_candidate in Hc. apply overlaps_iff in Ho.
      now apply (Hfree apt Hin Hc). }
    assert (Ins : Db.execute_mutation
                    (InsertAppointment who doctor day at_time minutes
                       (get (Data.status data) "Scheduled")
                       (get (Data.mode data) "In-Person")
                       (get (Data.notes data) "")) w = (inr 1, w2)).
    { rewrite (execute_mutation_healthy _ _ Hw). cbn [run_mutation].
      rewrite Hpg. fold (inserted w who doctor day t minutes data).
      rewrite Hacc. reflexivity. }
    unfold create_appointment, guarded, Db.bind, item, call.
    rewrite Dt. unfold Db.ret at 1. cbv beta iota.
    rewrite Hval. cbn [negb]. rewrite Dd, Dy, Dm. unfold Db.ret at 1 2 3.
    cbv beta iota. rewrite Chk. cbn [available negb]. rewrite Dn.
    unfold Db.ret at 1. cbv beta iota. rewrite Ins.
    change (1 >? 0) with true. cbv beta iota.
    rewrite (execute_query_healthy _ _ H2). cbn [run_query]. rewrite Hpg.
    unfold w2 at 1. cbn [table tick bump_id with_table].
    rewrite filter_last
      by (unfold row, inserted; cbn [patient_name date time];
          now rewrite !String.eqb_refl, time_eqb_refl).
    destruct (newest_first_last
                (filter (fun r => String.eqb (patient_name r) who
                                  && String.eqb (date r) day && time_eqb (time r) t)
                        (table w)) row) as [rest N].
    { intros x Hx. apply filter_In in Hx as [Hx _]. now apply Old. }
    rewrite N. reflexivity. }
  split; [now rewrite Reply, Shown|].
  split; [subst after; now rewrite After|].
  intros Fresh. subst after. rewrite After, Reply.
  set (w2 := tick (bump_id (with_table (table w ++ [row]) w))).
  assert (H2 : healthy w2) by exact Hw.
  destruct (without_fresh (gen_id (next_id w)) (table w) row eq_refl Fresh) as [Wo Ma].
  assert (D : delete_appointment (gen_id (next_id w)) w2
              = (mkReply true "Appointment deleted successfully"
                   (Some (_format_appointment row)) None,
                 tick (with_table (table w) w2))).
  { unfold delete_appointment, guarded, Db.bind.
    rewrite (execute_query_healthy _ _ H2), select_by_id.
    unfold w2 at 1. cbn [table tick bump_id with_table]. rewrite Ma. cbn [Py.ret].
    rewrite (execute_mutation_healthy _ _ H2). cbn [run_mutation Py.ret].
    unfold w2 at 1 2. cbn [table tick bump_id with_table].
    fold (matching (gen_id (next_id w)) (table w ++ [row])).
    fold (without (gen_id (next_id w)) (table w ++ [row])).
    rewrite Ma, Wo. reflexivity. }
  rewrite D. split; reflexivity.
Qed.

(** Bob books 10:00 beside Alice's 09:00; deleting what was created gives
    the table back. *)
Lemma create_appointment_round_trip_witness :
  fst (create_appointment (request "Bob" "Dr. Smith" "2025-12-15" "10:00" 45)
         (open_store [alice]))
  = mkReply true "Appointment created successfully"
      (Some (Wire.mk "apt-1" "Bob" "Dr. Smith" "2025-12-15" "10:00" 45
                     "Scheduled" "In-Person" "" 1))
      None
  /\ table (snd (delete_appointment "apt-1"
                   (snd (create_appointment
                           (request "Bob" "Dr. Smith" "2025-12-15" "10:00" 45)
                           (open_store [alice])))))
     = [alice].
Proof.
  assert (Hv : times_valid (open_store [alice])) by (repeat constructor).
  assert (Hf : forall apt,
             In apt (table (open_store [alice])) ->
             candidate "Dr. Smith" "2025-12-15" None apt ->
             ~ (600 < minutes_of (time apt) + duration apt
                /\ 600 + 45 > minutes_of (time apt))).
  { intros apt [<-|[]] _ [H _]. vm_compute in H. discriminate H. }
  assert (Old : forall r, In r (table (open_store [alice])) ->
                created_at r < clock (open_store [alice])).
  { intros r [<-|[]]. reflexivity. }
  assert (Fresh : forall r, In r (table (open_store [alice])) ->
                  id r <> gen_id (next_id (open_store [alice]))).
  { intros r [<-|[]]. discriminate. }
  destruct (create_appointment_round_trip (open_store [alice])
              (request "Bob" "Dr. Smith" "2025-12-15" "10:00" 45)
              "Bob" "Dr. Smith" "2025-12-15" "10:00" 45 600 (mkTime 10 0 0)
              eq_refl eq_refl eq_refl eq_refl eq_refl eq_refl Hv
              eq_refl eq_refl eq_refl Hf eq_refl Old) as (R & _ & D).
  split; [exact R|].
  destruct (D Fresh) as [_ T]. exact T.
Defined.

(* ------------------------------------------------------------------ *)
(** *** A connection lost between the INSERT and the re-read *)

Lemma execute_query_up (q : Query) (w : World) (rest : list bool) (rows : list Row) :
  outages w = false :: rest -> run_query q w = inr rows ->
  Db.execute_query q w = (inr rows, with_outages rest w).
Proof.
  intros Ho R. unfold Db.execute_query, Db.try_query, Db.next_outage.
  rewrite Ho. now rewrite run_query_outages, R.
Qed.

Lemma execute_mutation_up (m : Mutation) (w w' : World) (rest : list bool) (count : Z) :
  outages w = false :: rest -> run_mutation m w = inr (count, w') ->
  Db.execute_mutation m w = (inr count, with_outages rest w').
Proof.
  intros Ho R. unfold Db.execute_mutation, Db.try_mutation, Db.next_outage.
  rewrite Ho. now rewrite run_mutation_outages, R.
Qed.

Lemma find_app_none {A} (f : A -> bool) (l l' : list A) :
  (forall x, In x l -> f x = false) -> find f (l ++ l') = find f l'.
Proof.
  induction l as [|a l IH]; intros H; [reflexivity|]. simpl.
  rewrite (H a (or_introl eq_refl)). apply IH. intros x Hx. apply H. now right.
Qed.

(** When the connection is lost for both attempts of the re-read that
    follows the INSERT, [create_appointment] answers with failure although
    the booking is stored, at the time the store makes of the text.  When
    the store reads that text as the service does, sending the same request
    again on the restored connection is then refused as a conflict with
    that very booking (for a positive duration and a status other than
    Cancelled). *)
Theorem create_can_fail_after_the_insert
    (w : World) (data : Data.t) (who doctor day at_time : string)
    (minutes start : Z) (t : TimeOfDay) (rest : list bool) :
  Data.name data = Some who -> Data.doctorName data = Some doctor ->
  Data.date data = Some day -> Data.time data = Some at_time ->
  Data.duration data = Some minutes ->
  outages w = false :: false :: true :: true :: rest ->
  times_valid w ->
  valid (validate_appointment_time at_time) = true ->
  minutes_of_text at_time = inr start ->
  pg_time_in at_time = Some t ->
  (forall apt, In apt (table w) -> candidate doctor day None apt ->
     ~ (start < minutes_of (time apt) + duration apt
        /\ start + minutes > minutes_of (time apt))) ->
  accepts w (inserted w who doctor day t minutes data) = true ->
  let row := inserted w who doctor day t minutes data in
  let after := snd (create_appointment data w) in
  fst (create_appointment data w)
  = mkReply false "Error creating appointment: connection lost" None None
  /\ table after = (table w ++ [row])%list
  /\ (rest = [] -> 0 < minutes -> get (Data.status data) "Scheduled" <> "Cancelled" ->
      start = minutes_of t ->
      success (fst (create_appointment data after)) = false
      /\ conflict (fst (create_appointment data after)) = Some (info_of row)
      /\ table (snd (create_appointment data after)) = table after).
Proof.
  intros Dn Dd Dy Dt Dm Ho Hv Hval Hstart Hpg Hfree Hacc row after.
  pose proof (pg_time_in_valid _ _ Hpg) as Vt.
  set (w1 := with_outages (false :: true :: true :: rest) w).
  set (w2 := tick (bump_id (with_table (table w ++ [row]) w))).
  assert (Chk : check_time_slot_conflict doctor day at_time minutes None w
                = (mkAvailability true None None, w1)).
  { unfold check_time_slot_conflict, guarded, Db.bind, Db.lift.
    rewrite Hstart. cbn [truthy].
    rewrite (execute_query_up (SelectActiveOfDoctor doctor day None) w _
               (filter (is_active_of doctor day None) (table w)) Ho eq_refl).
    pose proof (first_overlap_find _ start (start + minutes)
                  (times_valid_filter (is_active_of doctor day None) w Hv)) as F.
    destruct (find _ _) as [apt|] eqn:E.
    - exfalso. apply find_some in E as [Hin Hov].
      apply filter_In in Hin as [Hin Hc].
      apply (is_active_of_candidate doctor day None) in Hc.
      apply overlaps_iff in Hov. now apply (Hfree apt Hin Hc).
    - now rewrite F. }
  assert (Ins : Db.execute_mutation
                  (InsertAppointment who doctor day at_time minutes
                     (get (Data.status data) "Scheduled")
                     (get (Data.mode data) "In-Person")
                     (get (Data.notes data) "")) w1
                = (inr 1, with_outages (true :: true :: rest) w2)).
  { rewrite (execute_mutation_up _ w1
               (with_outages (false :: true :: true :: rest) w2)
               (true :: true :: rest) 1 eq_refl); [reflexivity|].
    unfold w1. rewrite run_mutation_outages. cbn [run_mutation].
    rewrite Hpg. fold (inserted w who doctor day t minutes data).
    rewrite Hacc. reflexivity. }
  assert (Lost : Db.execute_query (SelectCreated who day at_time)
                   (with_outages (true :: true :: rest) w2)
                 = (inl Db.connection_lost, with_outages rest w2)) by reflexivity.
  assert (E : create_appointment data w
              = (mkReply false "Error creating appointment: connection lost" None None,
                 with_outages rest w2)).
  { unfold create_appointment, guarded, Db.bind, item, call.
    rewrite Dt. unfold Db.ret at 1. cbv beta iota.
    rewrite Hval. cbn [negb]. rewrite Dd, Dy, Dm. unfold Db.ret at 1 2 3.
    cbv beta iota. rewrite Chk. cbn [available negb]. rewrite Dn.
    unfold Db.ret at 1. cbv beta iota. rewrite Ins.
    change (1 >? 0) with true. cbv beta iota. rewrite Lost. reflexivity. }
  subst after. rewrite E. cbn [fst snd].
  split; [reflexivity|]. split; [reflexivity|].
  intros -> Hpos Hactive Agree. subst start.
  set (w3 := with_outages [] w2).
  assert (H3 : healthy w3) by reflexivity.
  assert (V3 : times_valid w3).
  { unfold times_valid, w3, w2. cbn [table tick bump_id with_table with_outages].
    apply Forall_app. split; [exact Hv|]. now repeat constructor. }
  assert (Act : is_active_of doctor day None row = true).
  { apply (is_active_of_candidate doctor day None). unfold candidate, row, inserted.
    cbn [doctor_name date status id]. repeat split; try assumption.
    intros key K. discriminate K. }
  assert (Own : overlaps (minutes_of t) (minutes_of t + minutes) row = true).
  { apply overlaps_iff. unfold row, inserted. cbn [time duration]. lia. }
  pose proof (check_find w3 doctor day at_time minutes None (minutes_of t)
                H3 V3 Hstart) as F.
  cbn [truthy] in F. unfold w3 at 1, w2 at 1 in F.
  cbn [table tick bump_id with_table with_outages] in F.
  rewrite (filter_last _ _ _ Act) in F.
  rewrite find_app_none in F.
  2:{ intros x Hx. apply filter_In in Hx as [Hx Hc].
      apply (is_active_of_candidate doctor day None) in Hc.
      destruct (overlaps (minutes_of t) (minutes_of t + minutes) x) eqn:O;
        [|reflexivity].
      apply overlaps_iff in O. exfalso. now apply (Hfree x Hx Hc). }
  cbn [find] in F. rewrite Own in F. destruct F as [text F].
  assert (E2 : create_appointment data w3
               = (mkReply false text None (Some (info_of row)), w3)).
  { unfold create_appointment, guarded, Db.bind, item, call.
    rewrite Dt. unfold Db.ret at 1. cbv beta iota.
    rewrite Hval. cbn [negb]. rewrite Dd, Dy, Dm. unfold Db.ret at 1 2 3.
    cbv beta iota. rewrite F. reflexivity. }
  rewrite E2. now repeat split.
Qed.

(** Bob's 10:00 booking with the connection lost after the INSERT. *)
Lemma create_can_fail_after_the_insert_witness :
  success (fst (create_appointment (request "Bob" "Dr. Smith" "2025-12-15" "10:00" 45)
                  (with_outages [false; false; true; true] (open_store [alice]))))
  = false
  /\ List.length
       (table (snd (create_appointment
                      (request "Bob" "Dr. Smith" "2025-12-15" "10:00" 45)
                      (with_outages [false; false; true; true] (open_store [alice])))))
     = 2%nat
  /\ success
       (fst (create_appointment (request "Bob" "Dr. Smith" "2025-12-15" "10:00" 45)
               (snd (create_appointment
                       (request "Bob" "Dr. Smith" "2025-12-15" "10:00" 45)
                       (with_outages [false; false; true; true]
                          (open_store [alice]))))))
     = false.
Proof.
  assert (Hv : times_valid (with_outages [false; false; true; true] (open_store [alice])))
    by (repeat constructor).
  assert (Hf : forall apt,
             In apt (table (with_outages [false; false; true; true]
                              (open_store [alice]))) ->
             candidate "Dr. Smith" "2025-12-15" None apt ->
             ~ (600 < minutes_of (time apt) + duration apt
                /\ 600 + 45 > minutes_of (time apt))).
  { intros apt [<-|[]] _ [H _]. vm_compute in H. discriminate H. }
  assert (Hp : 0 < 45) by lia.
  assert (Hs : get (Data.status (request "Bob" "Dr. Smith" "2025-12-15" "10:00" 45))
                   "Scheduled" <> "Cancelled") by discriminate.
  destruct (create_can_fail_after_the_insert
              (with_outages [false; false; true; true] (open_store [alice]))
              (request "Bob" "Dr. Smith" "2025-12-15" "10:00" 45)
              "Bob" "Dr. Smith" "2025-12-15" "10:00" 45 600 (mkTime 10 0 0) []
              eq_refl eq_refl eq_refl eq_refl eq_refl eq_refl Hv
              eq_refl eq_refl eq_refl Hf eq_refl) as (R & T & Again).
  destruct (Again eq_refl Hp Hs eq_refl) as (Refused & _).
  split; [now rewrite R|]. split; [now rewrite T|]. exact Refused.
Defined.

(* ------------------------------------------------------------------ *)
(** *** No double booking *)

Lemma clash_sym (a b : Row) : clash a b -> clash b a.
Proof. unfold clash. intros (?&?&?&?&?&?). repeat split; try congruence; lia. Qed.

(** An accepting check, on any connection, means that no row it looks at
    overlaps the slot it was asked about. *)
Lemma check_available_free (w : World) (doctor day at_time : string) (minutes : Z)
    (exclude : option string) :
  times_valid w ->
  available (fst (check_time_slot_conflict doctor day at_time minutes exclude w)) = true ->
  exists start,
    minutes_of_text at_time = inr start
    /\ forall apt, In apt (table w) -> candidate doctor day exclude apt ->
         ~ (start < minutes_of (time apt) + duration apt
            /\ start + minutes > minutes_of (time apt)).
Proof.
  intros Hv. rewrite check_fst.
  destruct (minutes_of_text at_time) as [e|start]; [discriminate|].
  destruct (Db.execute_query _ w) as [[e|existing] w1] eqn:Q; cbn [fst];
    [discriminate|].
  apply execute_query_rows in Q. cbn [run_query Py.ret] in Q. inversion Q as [R].
  pose proof (first_overlap_find _ start (start + minutes)
                (times_valid_filter
                   (is_active_of doctor day (if truthy exclude then exclude else None))
                   w Hv)) as F.
  destruct (find _ _) as [apt|] eqn:E.
  - destruct F as [text F]. rewrite F. discriminate.
  - intros _. exists start. split; [reflexivity|].
    intros apt Hin Hc Ho. rewrite find_none_iff in E.
    assert (O : overlaps start (start + minutes) apt = false).
    { apply E, filter_In. split; [assumption|]. now apply is_active_of_candidate. }
    apply overlaps_iff in Ho. congruence.
Qed.

(** What a create leaves in the table, on any connection: nothing new, or
    one more row, for a slot its check found free. *)
Lemma create_table_cases (data : Data.t) (w : World) :
  table (snd (create_appointment data w)) = table w
  \/ exists doctor day at_time minutes t row,
       Data.time data = Some at_time
       /\ pg_time_in at_time = Some t
       /\ available (fst (check_time_slot_conflict doctor day at_time minutes None w))
          = true
       /\ doctor_name row = doctor /\ date row = day /\ time row = t
       /\ duration row = minutes
       /\ table (snd (create_appointment data w)) = (table w ++ [row])%list.
Proof.
  destruct (create_appointment data w) as [reply after] eqn:E. cbn [snd].
  unfold create_appointment, guarded, Db.bind, item, call in E.
  destruct (Data.time data) as [at_time|]; [|inversion E; now left].
  unfold Db.ret at 1 in E. cbv beta iota in E.
  destruct (valid (validate_appointment_time at_time)); cbn [negb] in E;
    [|destruct (validation_message _); inversion E; now left].
  destruct (Data.doctorName data) as [doctor|]; [|inversion E; now left].
  unfold Db.ret at 1 in E. cbv beta iota in E.
  destruct (Data.date data) as [day|]; [|inversion E; now left].
  unfold Db.ret at 1 in E. cbv beta iota in E.
  destruct (Data.duration data) as [minutes|]; [|inversion E; now left].
  unfold Db.ret at 1 in E. cbv beta iota in E.
  pose proof (check_same w doctor day at_time minutes None) as S.
  destruct (check_time_slot_conflict doctor day at_time minutes None w)
    as [answer w1] eqn:C.
  cbn [snd] in S. destruct S as (T1 & A1 & C1 & N1).
  destruct (available answer) eqn:Av; cbn [negb] in E;
    [|destruct (availability_message answer); inversion E; subst; now left].
  destruct (Data.name data) as [who|]; [|inversion E; subst; now left].
  unfold Db.ret at 1 in E. cbv beta iota in E.
  pose proof (execute_mutation_cases
                (InsertAppointment who doctor day at_time minutes
                   (get (Data.status data) "Scheduled")
                   (get (Data.mode data) "In-Person")
                   (get (Data.notes data) "")) w1) as M.
  destruct (Db.execute_mutation _ w1) as [[e|count] w2].
  { destruct M as (T2 & _). inversion E; subst. left. congruence. }
  destruct M as (w3 & (T3 & A3 & C3 & N3) & R). cbn [run_mutation] in R.
  destruct (pg_time_in at_time) as [t|] eqn:Pg; [|discriminate R].
  destruct (accepts w3 _); [|discriminate R].
  cbn [Py.ret] in R. inversion R as [[Hc Hw2]]. clear R. subst count.
  right. exists doctor, day, at_time, minutes, t.
  exists (mkRow (gen_id (next_id w3)) who doctor day t minutes
                (get (Data.status data) "Scheduled") (get (Data.mode data) "In-Person")
                (get (Data.notes data) "") (clock w3) (clock w3)).
  split; [reflexivity|].
  split; [exact Pg|]. split; [rewrite C; exact Av|].
  split; [reflexivity|]. split; [reflexivity|]. split; [reflexivity|].
  split; [reflexivity|].
  change (1 >? 0) with true in E. cbv beta iota in E.
  pose proof (execute_query_table (SelectCreated who day at_time) w2) as Q.
  destruct (Db.execute_query (SelectCreated who day at_time) w2) as [[e|created] w4];
    cbn [snd] in Q.
  - inversion E; subst. rewrite Q. cbn [table tick bump_id with_table].
    now rewrite T3, T1.
  - destruct created; inversion E; subst; rewrite Q;
      cbn [table tick bump_id with_table]; now rewrite T3, T1.
Qed.

(** [create_appointment] never books a doctor twice when the store reads
    the time text of the request as the service does: on any connection,
    if no two appointments of the table are in each other's way before
    such a create, none are after it.  The check runs on the service's
    reading of the text and the row is stored at the store's reading, so
    nothing is promised for a text the two read differently. *)
Theorem create_appointment_keeps_bookings_apart (data : Data.t) (w : World) :
  times_valid w -> bookings_apart w ->
  (forall at_time, Data.time data = Some at_time -> reads_alike at_time) ->
  bookings_apart (snd (create_appointment data w)).
Proof.
  intros Hv Apart Alike.
  destruct (create_table_cases data w)
    as [E|(doctor & day & at_time & minutes & t & row
           & Dt & Pg & Av & Rd & Ry & Rt & Rm & E)].
  - unfold bookings_apart. now rewrite E.
  - destruct (check_available_free _ _ _ _ _ _ Hv Av) as (start & Hs & Free).
    pose proof (Alike at_time Dt t Pg) as Hs'.
    rewrite Hs' in Hs. inversion Hs as [Es]. subst start.
    assert (New : forall a, In a (table w) -> ~ clash a row).
    { intros a Ha (Cd & Cy & Sa & _ & O1 & O2).
      apply (Free a Ha).
      - unfold candidate. repeat split; congruence.
      - rewrite Rt, Rm in *. lia. }
    unfold bookings_apart. rewrite E. intros a b Ha Hb Hid.
    apply in_app_or in Ha as [Ha|[<-|[]]]; apply in_app_or in Hb as [Hb|[<-|[]]].
    + now apply Apart.
    + now apply New.
    + intros C. apply clash_sym in C. now apply (New b Hb).
    + now contradiction Hid.
Qed.

(** A request that overlaps Alice does not get in, one that does not
    does; either way nobody is booked twice. *)
Lemma create_appointment_keeps_bookings_apart_witness :
  bookings_apart
    (snd (create_appointment (request "Bob" "Dr. Smith" "2025-12-15" "09:15" 30)
            (open_store [alice])))
  /\ bookings_apart
       (snd (create_appointment (request "Bob" "Dr. Smith" "2025-12-15" "09:30" 30)
               (open_store [alice]))).
Proof.
  assert (Hv : times_valid (open_store [alice])) by (repeat constructor).
  assert (Ha : bookings_apart (open_store [alice])).
  { intros a b [<-|[]] [<-|[]] N. now contradiction N. }
  split; apply create_appointment_keeps_bookings_apart; try assumption.
  - intros at_time E. injection E as <-.
    exact (shown_reads_alike (mkTime 9 15 0) eq_refl).
  - intros at_time E. injection E as <-.
    exact (shown_reads_alike (mkTime 9 30 0) eq_refl).
Defined.

(* ------------------------------------------------------------------ *)
(** *** What an update writes *)

Lemma convert_all_applied (sets : list Assignment) (change : Row -> Row) :
  convert_all sets = inr change ->
  (forall r, change r = fold_left applied sets r)
  /\ (forall a, In a sets -> exists f, convert a = inr f).
Proof.
  revert change. induction sets as [|a rest IH]; intros change H.
  - cbn in H. injection H as <-. split; [reflexivity|intros a []].
  - cbn [convert_all] in H.
    destruct (convert a) as [e|first] eqn:Ca; [discriminate H|]. cbn [Py.bind] in H.
    destruct (convert_all rest) as [e|others] eqn:Cr; [discriminate H|].
    cbn [Py.bind Py.ret] in H. injection H as <-.
    destruct (IH others eq_refl) as [P Q]. split.
    + intros r. cbn [fold_left]. unfold applied at 2. rewrite Ca. apply P.
    + intros b [<-|Hb]; [now exists first|now apply Q].
Qed.

(** The assignments built from a payload replace the columns whose key is
    present, and leave the others, the id and the time stamps as they
    are. *)
Lemma convert_update_fields (data : Data.t) (change : Row -> Row) :
  convert_all (update_fields data) = inr change ->
  exists new_time,
    match Data.time data with
    | Some at_time => pg_time_in at_time = Some new_time
    | None => True
    end
    /\ forall r, change r = patched data new_time r.
Proof.
  intros H. apply convert_all_applied in H as [P Q].
  assert (T : exists new_time,
             match Data.time data with
             | Some at_time => pg_time_in at_time = Some new_time
             | None => True
             end).
  { destruct (Data.time data) as [at_time|] eqn:Dt; [|now exists (mkTime 0 0 0)].
    destruct (Q (SetTime at_time)) as [f Cf].
    - unfold update_fields. rewrite Dt.
      apply in_or_app; right. apply in_or_app; right. apply in_or_app; right.
      apply in_or_app; left. now left.
    - cbn [convert] in Cf. destruct (pg_time_in at_time) as [t|]; [|discriminate Cf].
      now exists t. }
  destruct T as [new_time T]. exists new_time. split; [exact T|].
  intros r. rewrite P. unfold update_fields, patched. rewrite !fold_left_app.
  destruct (Data.time data) as [at_time|]; cbn [has];
    destruct (Data.name data), (Data.doctorName data), (Data.date data),
             (Data.duration data), (Data.status data), (Data.mode data),
             (Data.notes data);
    cbn [fold_left]; unfold applied; cbn [convert]; rewrite ?T;
    destruct r; reflexivity.
Qed.

Lemma changed_ext (key : string) (f g : Row -> Row) (rows : list Row) :
  (forall r, f r = g r) -> map (changed key f) rows = map (changed key g) rows.
Proof.
  intros H. apply map_ext. intros r. unfold changed.
  destruct (String.eqb (id r) key); [apply H|reflexivity].
Qed.

(** What an update leaves in the table, on any connection: the table as
    it was, or the rows of the id with the payload laid over them, after a
    check that, if the payload touches the schedule, found the new slot
    free. *)
Lemma update_table_cases (key : string) (data : Data.t) (w : World) :
  table (snd (update_appointment key data w)) = table w
  \/ exists existing others new_time w0,
       matching key (table w) = existing :: others
       /\ table w0 = table w
       /\ match Data.time data with
          | Some at_time => pg_time_in at_time = Some new_time
          | None => True
          end
       /\ (touches_schedule data = true ->
           available
             (fst (check_time_slot_conflict
                     (check_doctor data existing) (check_date data existing)
                     (check_time data existing) (check_duration data existing)
                     (Some key) w0)) = true)
       /\ table (snd (update_appointment key data w))
          = map (changed key (fun r => set_updated_at (clock w) (patched data new_time r)))
                (table w).
Proof.
  destruct (update_appointment key data w) as [reply after] eqn:E. cbn [snd].
  unfold update_appointment, guarded, Db.bind, item in E.
  pose proof (execute_query_same (SelectById key) w) as S0.
  destruct (Db.execute_query (SelectById key) w) as [[e|result] w0] eqn:Q.
  { cbn [snd] in S0. destruct S0 as (T0 & _). inversion E; subst. now left. }
  cbn [snd] in S0. destruct S0 as (T0 & A0 & C0 & N0).
  apply execute_query_rows in Q. rewrite select_by_id in Q. inversion Q as [R]. clear Q.
  subst result.
  destruct (matching key (table w)) as [|existing others] eqn:M;
    [inversion E; subst; left; congruence|].
  destruct (valid _); cbn [negb] in E;
    [|destruct (validation_message _); inversion E; subst; left; congruence].
  fold (check_doctor data existing) (check_date data existing)
       (check_time data existing) (check_duration data existing) in E.
  assert (S : exists answer w1,
             (if touches_schedule data
              then call (check_time_slot_conflict
                           (check_doctor data existing) (check_date data existing)
                           (check_time data existing) (check_duration data existing)
                           (Some key))
              else Db.ret (mkAvailability true None None)) w0 = (inr answer, w1)
             /\ same_store w0 w1
             /\ (touches_schedule data = true ->
                 answer = fst (check_time_slot_conflict
                                 (check_doctor data existing) (check_date data existing)
                                 (check_time data existing) (check_duration data existing)
                                 (Some key) w0))).
  { destruct (touches_schedule data); unfold call.
    - pose proof (check_same w0 (check_doctor data existing) (check_date data existing)
                    (check_time data existing) (check_duration data existing)
                    (Some key)) as C.
      destruct (check_time_slot_conflict _ _ _ _ _ w0) as [answer w1].
      exists answer, w1. split; [reflexivity|]. split; [exact C|reflexivity].
    - exists (mkAvailability true None None), w0.
      split; [reflexivity|]. split; [apply same_store_refl|discriminate]. }
  destruct S as (answer & w1 & Es & (T1 & A1 & C1 & N1) & Ans).
  rewrite Es in E. clear Es.
  destruct (available answer) eqn:Av; cbn [negb] in E;
    [|destruct (availability_message answer); inversion E; subst; left; congruence].
  pose proof (execute_mutation_cases (UpdateFields (update_fields data) key) w1) as Mu.
  destruct (Db.execute_mutation _ w1) as [[e|count] w2].
  { destruct Mu as (T2 & _). inversion E; subst. left. congruence. }
  destruct Mu as (w3 & (T3 & A3 & C3 & N3) & Ru). cbn [run_mutation] in Ru.
  destruct (convert_all (update_fields data)) as [e|change] eqn:Cv; [discriminate Ru|].
  cbn [Py.bind] in Ru.
  destruct (update_where _ _ _ _) as [e|[n rows]] eqn:U; [discriminate Ru|].
  cbn [Py.ret] in Ru. inversion Ru as [[Hc Hw2]]. clear Ru. subst count.
  apply update_where_done in U as (Hrows & _ & _).
  destruct (convert_update_fields data change Cv) as (new_time & Tm & Pt).
  assert (Tab : table w2
                = map (changed key
                         (fun r => set_updated_at (clock w) (patched data new_time r)))
                      (table w)).
  { rewrite <- Hw2. cbn [table tick with_table]. rewrite Hrows.
    rewrite T3, T1, T0, C3, C1, C0.
    apply changed_ext. intros r. now rewrite Pt. }
  assert (Fin : table after = table w2).
  { destruct (n >? 0); [|now inversion E].
    pose proof (execute_query_table (SelectById key) w2) as Q2.
    destruct (Db.execute_query (SelectById key) w2) as [[e|updated] w4];
      cbn [snd] in Q2; [now inversion E; subst|].
    unfold Db.lift in E. destruct (Py.index updated 0); now inversion E; subst. }
  right. exists existing, others, new_time, w0.
  split; [reflexivity|]. split; [exact T0|]. split; [exact Tm|].
  split; [intros Ts; now rewrite <- (Ans Ts)|].
  now rewrite Fin.
Qed.

Lemma unique_row (l : list Row) (a b : Row) :
  NoDup (map id l) -> In a l -> In b l -> id a = id b -> a = b.
Proof.
  induction l as [|x l IH]; intros N Ha Hb E; [contradiction Ha|].
  cbn [map] in N. inversion N as [|? ? Nx Nl]; subst.
  destruct Ha as [<-|Ha], Hb as [<-|Hb].
  - reflexivity.
  - exfalso. apply Nx. rewrite E. now apply in_map.
  - exfalso. apply Nx. rewrite <- E. now apply in_map.
  - now apply IH.
Qed.

Lemma touches_nothing (data : Data.t) :
  touches_schedule data = false ->
  Data.time data = None /\ Data.date data = None
  /\ Data.doctorName data = None /\ Data.duration data = None.
Proof.
  unfold touches_schedule, has.
  destruct (Data.time data), (Data.date data), (Data.doctorName data),
           (Data.duration data); try discriminate.
  now repeat split.
Qed.

(** An update never books a doctor twice when it names a key of the
    schedule or leaves the status alone, and the store reads a time text
    it names as the service does: on any connection, with ids that are
    unique, if no two appointments are in each other's way before such an
    update, none are after it. *)
Theorem update_appointment_keeps_bookings_apart
    (appointment_id : string) (data : Data.t) (w : World) :
  times_valid w -> unique_ids w -> bookings_apart w ->
  touches_schedule data = true \/ Data.status data = None ->
  (forall at_time, Data.time data = Some at_time -> reads_alike at_time) ->
  bookings_apart (snd (update_appointment appointment_id data w)).
Proof.
  intros Hv Hu Apart Cond Alike.
  destruct (update_table_cases appointment_id data w)
    as [E|(existing & others & new_time & w0 & M & T0 & Tm & Chk & E)].
  { unfold bookings_apart. now rewrite E. }
  set (f := fun r => set_updated_at (clock w) (patched data new_time r)) in *.
  assert (Hex : In existing (table w) /\ id existing = appointment_id).
  { assert (I : In existing (matching appointment_id (table w)))
      by (rewrite M; now left).
    apply filter_In in I as [I K]. apply String.eqb_eq in K. now split. }
  destruct Hex as [Hex Kex].
  assert (Vex : valid_time (time existing) = true).
  { unfold times_valid in Hv. rewrite Forall_forall in Hv. now apply Hv. }
  assert (Key : forall b, In b (table w) -> id b <> appointment_id ->
                ~ clash (f existing) b).
  { intros b Hb Nb (Cd & Cy & Sa & Sb & O1 & O2).
    unfold f, patched in Cd, Cy, Sa, O1, O2.
    cbn [set_updated_at doctor_name date status time duration] in Cd, Cy, Sa, O1, O2.
    destruct (touches_schedule data) eqn:Ts.
    - assert (Hv0 : times_valid w0) by (unfold times_valid; now rewrite T0).
      destruct (check_available_free _ _ _ _ _ _ Hv0 (Chk eq_refl))
        as (start & Hs & Free).
      assert (Es : start = minutes_of (if has (Data.time data) then new_time
                                       else time existing)).
      { unfold check_time in Hs.
        destruct (Data.time data) as [at_time|]; cbn [get has] in *.
        - pose proof (Alike at_time eq_refl new_time Tm) as Hs'. congruence.
        - rewrite (minutes_of_text_stored _ Vex) in Hs. congruence. }
      apply (Free b).
      + now rewrite T0.
      + unfold candidate, check_doctor, check_date.
        split; [congruence|]. split; [congruence|]. split; [assumption|].
        intros key K _. inversion K. now subst.
      + unfold check_duration. rewrite Es. lia.
    - destruct Cond as [C|Cs]; [discriminate C|].
      destruct (touches_nothing data Ts) as (Dt & Dy & Dd & Dm).
      rewrite Dt, Dy, Dd, Dm, Cs in *. cbn [get has] in *.
      apply (Apart existing b Hex Hb); [congruence|].
      unfold clash. now repeat split. }
  unfold bookings_apart. rewrite E. intros a' b' Ha Hb Hid.
  apply in_map_iff in Ha as (a & <- & Ha). apply in_map_iff in Hb as (b & <- & Hb).
  unfold changed in *.
  destruct (String.eqb (id a) appointment_id) eqn:Ka,
           (String.eqb (id b) appointment_id) eqn:Kb.
  - apply String.eqb_eq in Ka, Kb.
    exfalso. apply Hid. unfold f, set_updated_at, patched. cbn [id]. congruence.
  - apply String.eqb_eq in Ka. apply String.eqb_neq in Kb.
    assert (a = existing)
      by (apply (unique_row (table w) _ _ Hu); try assumption; congruence).
    subst a. now apply Key.
  - apply String.eqb_neq in Ka. apply String.eqb_eq in Kb.
    assert (b = existing)
      by (apply (unique_row (table w) _ _ Hu); try assumption; congruence).
    subst b. intros C. apply clash_sym in C. now apply (Key a).
  - now apply Apart.
Qed.

(** Alice's booking moved to 09:40 beside a booking at 09:45: refused,
    and nobody is booked twice. *)
Lemma update_appointment_keeps_bookings_apart_witness :
  bookings_apart
    (snd (update_appointment "a1"
            (Data.mk None None None (Some "09:40") None None None None)
            (open_store
               [alice;
                booking "b1" "Bob" "Dr. Smith" "2025-12-15" (mkTime 9 45 0) 30
                        "Confirmed"]))).
Proof.
  apply update_appointment_keeps_bookings_apart.
  - repeat constructor.
  - unfold unique_ids. cbn. repeat constructor; cbn; intuition discriminate.
  - intros a b [<-|[<-|[]]] [<-|[<-|[]]] N (_ & _ & _ & _ & O1 & O2);
      try (now contradiction N); vm_compute in O1, O2; discriminate.
  - now left.
  - intros at_time E. injection E as <-.
    exact (shown_reads_alike (mkTime 9 40 0) eq_refl).
Defined.

Lemma delete_table_cases (key : string) (w : World) :
  table (snd (delete_appointment key w)) = table w
  \/ table (snd (delete_appointment key w)) = without key (table w).
Proof.
  unfold delete_appointment, guarded, Db.bind.
  pose proof (execute_query_table (SelectById key) w) as T.
  destruct (Db.execute_query (SelectById key) w) as [[e|rows] w1];
    cbn [snd] in T; [now left|].
  destruct rows as [|found others]; [now left|].
  pose proof (execute_mutation_cases (DeleteById key) w1) as C.
  destruct (Db.execute_mutation (DeleteById key) w1) as [[e|count] w2].
  - destruct C as (C & _). left. simpl. now rewrite C.
  - destruct C as (w3 & (St & _) & C). cbn [run_mutation Py.ret] in C.
    inversion C as [[Hc Hw2]]. right.
    destruct (_ >? 0); unfold Db.ret, without; simpl; now rewrite St, T.
Qed.

Lemma status_update_table_cases (key state : string) (w : World) :
  table (snd (update_appointment_status key state w)) = table w
  \/ table (snd (update_appointment_status key state w))
     = map (changed key (restamped state (clock w))) (table w).
Proof.
  unfold update_appointment_status, guarded, Db.bind.
  destruct (Py.contains state valid_statuses); cbn [negb]; [|now left].
  pose proof (execute_mutation_cases (UpdateStatus state key) w) as C.
  destruct (Db.execute_mutation _ w) as [[e|count] w'].
  - destruct C as (T & _). now left.
  - destruct C as (w1 & (T & _ & Ck & _) & R). cbn [run_mutation] in R.
    destruct (update_where _ _ _ _) as [e|[n rows]] eqn:U; [discriminate|].
    cbn [Py.bind Py.ret] in R. inversion R; subst count w'. clear R.
    apply update_where_done in U as (-> & _ & _).
    right. rewrite T, Ck.
    destruct (n >? 0); reflexivity.
Qed.

(** Deleting an appointment or setting its status to Cancelled never books
    a doctor twice: on any connection, if no two appointments are in each
    other's way before, none are after. *)
Theorem delete_and_cancel_keep_bookings_apart (appointment_id : string) (w : World) :
  bookings_apart w ->
  bookings_apart (snd (delete_appointment appointment_id w))
  /\ bookings_apart (snd (update_appointment_status appointment_id "Cancelled" w)).
Proof.
  intros Apart. split.
  - unfold bookings_apart.
    destruct (delete_table_cases appointment_id w) as [E|E]; rewrite E;
      [exact Apart|].
    intros a b Ha Hb. apply filter_In in Ha as [Ha _]. apply filter_In in Hb as [Hb _].
    now apply Apart.
  - unfold bookings_apart.
    destruct (status_update_table_cases appointment_id "Cancelled" w) as [E|E];
      rewrite E; [exact Apart|].
    intros a' b' Ha Hb Hid (Cd & Cy & Sa & Sb & O).
    apply in_map_iff in Ha as (a & <- & Ha). apply in_map_iff in Hb as (b & <- & Hb).
    unfold changed in *.
    destruct (String.eqb (id a) appointment_id); [now apply Sa|].
    destruct (String.eqb (id b) appointment_id); [now apply Sb|].
    apply (Apart a b Ha Hb Hid). unfold clash. tauto.
Qed.

(** Alice's booking deleted, or cancelled. *)
Lemma delete_and_cancel_keep_bookings_apart_witness :
  bookings_apart (snd (delete_appointment "a1" (open_store [alice])))
  /\ bookings_apart (snd (update_appointment_status "a1" "Cancelled" (open_store [alice]))).
Proof.
  apply delete_and_cancel_keep_bookings_apart.
  intros a b [<-|[]] [<-|[]] N. now contradiction N.
Defined.

(** A field update of the status alone, on a healthy connection. *)
Lemma update_status_only_succeeds (w : World) (key state : string)
    (existing : Row) (others : list Row) :
  healthy w -> matching key (table w) = existing :: others ->
  (forall r, In r (matching key (table w)) ->
             accepts w (restamped state (clock w) r) = true) ->
  update_appointment key (status_only state) w
  = (mkReply true "Appointment updated successfully"
       (Some (_format_appointment (restamped state (clock w) existing))) None,
     tick (with_table (map (changed key (restamped state (clock w))) (table w)) w)).
Proof.
  intros Hw M Hacc.
  set (w2 := tick (with_table (map (changed key (restamped state (clock w)))
                                   (table w)) w)).
  assert (H2 : healthy w2) by exact Hw.
  assert (Upd : Db.execute_mutation (UpdateFields [SetStatus state] key) w
                = (inr (Z.of_nat (List.length (existing :: others))), w2)).
  { rewrite (execute_mutation_healthy _ _ Hw).
    cbn [run_mutation convert_all convert Py.bind Py.ret].
    change (fun r => set_updated_at (clock w) (set_status state r))
      with (restamped state (clock w)).
    rewrite (update_where_accepted _ _ _ _ Hacc), M. reflexivity. }
  unfold update_appointment, guarded, Db.bind, call.
  rewrite (execute_query_healthy _ _ Hw), select_by_id, M.
  cbn [Py.ret status_only Data.time Data.date Data.doctorName Data.duration
       valid negb touches_schedule has orb get available update_fields
       Data.name Data.status Data.mode Data.notes app].
  unfold Db.ret at 1. cbn [available negb].
  rewrite Upd.
  assert (P : (Z.of_nat (List.length (existing :: others)) >? 0) = true).
  { apply Z.gtb_lt. cbn [List.length]. lia. }
  rewrite P. rewrite (execute_query_healthy _ _ H2), select_by_id.
  unfold w2 at 1. cbn [table tick with_table].
  rewrite matching_changed by reflexivity. rewrite M. reflexivity.
Qed.

(** Status changes are never checked against the schedule.  On a healthy
    connection, with an active booking [a] and a booking [b] of the same
    doctor and date whose slot overlaps it, setting [b] to a status other
    than Cancelled succeeds, through the status-only update and through a
    field update naming the status alone; afterwards the doctor is booked
    twice, even if nobody was before. *)
Theorem status_change_can_double_book (w : World) (a b : Row) (state : string) :
  healthy w -> bookings_apart w ->
  In a (table w) -> In b (table w) -> id a <> id b ->
  doctor_name a = doctor_name b -> date a = date b -> status a <> "Cancelled" ->
  minutes_of (time a) < minutes_of (time b) + duration b ->
  minutes_of (time a) + duration a > minutes_of (time b) ->
  In state valid_statuses -> state <> "Cancelled" ->
  (forall r, In r (matching (id b) (table w)) ->
             accepts w (restamped state (clock w) r) = true) ->
  status b = "Cancelled"
  /\ status_success (fst (update_appointment_status (id b) state w)) = true
  /\ ~ bookings_apart (snd (update_appointment_status (id b) state w))
  /\ success (fst (update_appointment (id b) (status_only state) w)) = true
  /\ ~ bookings_apart (snd (update_appointment (id b) (status_only state) w)).
Proof.
  intros Hw Apart Ha Hb Hid Ed Ey Sa O1 O2 Hs Hn Hacc.
  assert (Sb : status b = "Cancelled").
  { destruct (String.eqb (status b) "Cancelled") eqn:K;
      [now apply String.eqb_eq in K|].
    apply String.eqb_neq in K. exfalso.
    apply (Apart a b Ha Hb Hid). unfold clash. tauto. }
  assert (Broken : forall v,
             table v = map (changed (id b) (restamped state (clock w))) (table w) ->
             ~ bookings_apart v).
  { intros v Tv Ap.
    apply (Ap a (restamped state (clock w) b)).
    - rewrite Tv. apply in_map_iff. exists a. split; [|assumption].
      unfold changed. apply String.eqb_neq in Hid. now rewrite Hid.
    - rewrite Tv. apply in_map_iff. exists b. split; [|assumption].
      unfold changed. now rewrite String.eqb_refl.
    - exact Hid.
    - unfold clash, restamped, set_updated_at, set_status.
      cbn [doctor_name date status time duration]. tauto. }
  assert (Found : exists first others, matching (id b) (table w) = first :: others).
  { destruct (matching (id b) (table w)) as [|first others] eqn:M; [|now eauto].
    exfalso. exact (proj1 (matching_nil (id b) (table w)) M b Hb eq_refl). }
  destruct Found as (first & others & M).
  split; [exact Sb|].
  assert (Up : Db.execute_mutation (UpdateStatus state (id b)) w
               = (inr (Z.of_nat (List.length (first :: others))),
                  tick (with_table (map (changed (id b) (restamped state (clock w)))
                                        (table w)) w))).
  { rewrite (execute_mutation_healthy _ _ Hw). cbn [run_mutation].
    fold (restamped state (clock w)).
    rewrite (update_where_accepted _ _ _ _ Hacc), M. reflexivity. }
  assert (St : update_appointment_status (id b) state w
               = (mkStatusReply true ("Appointment status updated to " ++ state)
                    (id b) (Some state) (Some (clock w + 1)),
                  tick (with_table (map (changed (id b) (restamped state (clock w)))
                                        (table w)) w))).
  { unfold update_appointment_status, guarded, Db.bind.
    apply contains_In in Hs. rewrite Hs. cbn [negb]. rewrite Up.
    assert (P : (Z.of_nat (List.length (first :: others)) >? 0) = true)
      by (apply Z.gtb_lt; cbn [List.length]; lia).
    rewrite P. reflexivity. }
  rewrite St, (update_status_only_succeeds w (id b) state first others Hw M Hacc).
  cbn [fst snd status_success success].
  repeat split; try (apply Broken; reflexivity).
Qed.

(** Bob's cancelled 09:15 booking beside Alice's 09:00 one, set to
    Confirmed. *)
Lemma status_change_can_double_book_witness :
  status (booking "b1" "Bob" "Dr. Smith" "2025-12-15" (mkTime 9 15 0) 30 "Cancelled")
  = "Cancelled"
  /\ status_success
       (fst (update_appointment_status "b1" "Confirmed"
               (open_store
                  [alice;
                   booking "b1" "Bob" "Dr. Smith" "2025-12-15" (mkTime 9 15 0) 30
                           "Cancelled"]))) = true
  /\ ~ bookings_apart
         (snd (update_appointment_status "b1" "Confirmed"
                 (open_store
                    [alice;
                     booking "b1" "Bob" "Dr. Smith" "2025-12-15" (mkTime 9 15 0) 30
                             "Cancelled"])))
  /\ success
       (fst (update_appointment "b1" (status_only "Confirmed")
               (open_store
                  [alice;
                   booking "b1" "Bob" "Dr. Smith" "2025-12-15" (mkTime 9 15 0) 30
                           "Cancelled"]))) = true
  /\ ~ bookings_apart
         (snd (update_appointment "b1" (status_only "Confirmed")
                 (open_store
                    [alice;
                     booking "b1" "Bob" "Dr. Smith" "2025-12-15" (mkTime 9 15 0) 30
                             "Cancelled"]))).
Proof.
  apply (status_change_can_double_book
           (open_store
              [alice;
               booking "b1" "Bob" "Dr. Smith" "2025-12-15" (mkTime 9 15 0) 30
                       "Cancelled"])
           alice
           (booking "b1" "Bob" "Dr. Smith" "2025-12-15" (mkTime 9 15 0) 30 "Cancelled")
           "Confirmed").
  - reflexivity.
  - intros a b [<-|[<-|[]]] [<-|[<-|[]]] N (_ & _ & Sa & Sb & _);
      try (now contradiction N); try (now apply Sa); now apply Sb.
  - now left.
  - right. now left.
  - discriminate.
  - reflexivity.
  - reflexivity.
  - discriminate.
  - vm_compute. reflexivity.
  - vm_compute. reflexivity.
  - now left.
  - discriminate.
  - reflexivity.
Defined.

Lemma Forall2_same {A} (R : A -> A -> Prop) (l : list A) :
  (forall x, In x l -> R x x) -> Forall2 R l l.
Proof.
  induction l as [|x l IH]; intros H; constructor.
  - apply H. now left.
  - apply IH. intros y Hy. apply H. now right.
Qed.

Lemma Forall2_changed (R : Row -> Row -> Prop) (key : string) (f : Row -> Row)
    (rows : list Row) :
  (forall r, id r = key -> R r (f r)) -> (forall r, id r <> key -> R r r) ->
  Forall2 R rows (map (changed key f) rows).
Proof.
  intros Hf Hr. induction rows as [|r rows IH]; cbn [map]; constructor; [|exact IH].
  unfold changed. destruct (String.eqb (id r) key) eqn:K.
  - apply Hf. now apply String.eqb_eq.
  - apply Hr. now apply String.eqb_neq.
Qed.

(** A field update rewrites only the appointment it names.  On any
    connection and for any payload, the table afterwards has the same rows
    in the same places, each with its id and creation stamp, and every row
    with another id exactly as it was. *)
Theorem update_appointment_touches_only_its_row
    (appointment_id : string) (data : Data.t) (w : World) :
  Forall2 (same_unless_named appointment_id)
          (table w) (table (snd (update_appointment appointment_id data w))).
Proof.
  destruct (update_table_cases appointment_id data w)
    as [E|(existing & others & new_time & w0 & _ & _ & _ & _ & E)]; rewrite E.
  - apply Forall2_same. intros r _. now repeat split.
  - apply Forall2_changed; intros r K; now repeat split.
Qed.

(** A status update changes nothing but the status and the update stamp,
    and only of the appointment it names: on any connection and for any
    status, valid or not, every row keeps its place and all its other
    columns, and a row with another id stays as it was. *)
Theorem update_appointment_status_touches_only_status
    (appointment_id new_status : string) (w : World) :
  Forall2 (fun before after =>
             same_but_status before after
             /\ (id before <> appointment_id -> after = before))
          (table w)
          (table (snd (update_appointment_status appointment_id new_status w))).
Proof.
  destruct (status_update_table_cases appointment_id new_status w) as [E|E];
    rewrite E.
  - apply Forall2_same. intros r _. unfold same_but_status. now repeat split.
  - apply Forall2_changed; intros r K; unfold same_but_status; now repeat split.
Qed.

(** Creating and deleting leave the other appointments alone.  On any
    connection, [create_appointment] keeps every stored row in place and
    adds at most one row after them; [delete_appointment] leaves the table
    as it was or removes exactly the rows with the given id. *)
Theorem create_and_delete_leave_other_rows
    (data : Data.t) (appointment_id : string) (w : World) :
  (table (snd (create_appointment data w)) = table w
   \/ exists row, table (snd (create_appointment data w)) = (table w ++ [row])%list)
  /\ (table (snd (delete_appointment appointment_id w)) = table w
      \/ table (snd (delete_appointment appointment_id w))
         = filter (fun r => negb (String.eqb (id r) appointment_id)) (table w)).
Proof.
  split.
  - destruct (create_table_cases data w)
      as [E|(doctor & day & at_time & minutes & t & row
             & _ & _ & _ & _ & _ & _ & _ & E)].
    + now left.
    + right. now exists row.
  - exact (delete_table_cases appointment_id w).
Qed.

(* ------------------------------------------------------------------ *)
(** *** The same request twice *)

Lemma find_last {A} (f g : A -> bool) (l : list A) (r : A) :
  g r = true -> f r = true ->
  (forall x, In x l -> g x = true -> f x = false) ->
  find f (filter g (l ++ [r])) = Some r.
Proof.
  intros Gr Fr Old. induction l as [|x l IH]; cbn [app filter find].
  - now rewrite Gr; cbn [find]; rewrite Fr.
  - destruct (g x) eqn:Gx; cbn [find].
    + rewrite (Old x (or_introl eq_refl) Gx). apply IH.
      intros y Hy. apply Old. now right.
    + apply IH. intros y Hy. apply Old. now right.
Qed.

(** What a successful create on a healthy connection went through. *)
Lemma create_success_healthy (data : Data.t) (w : World) :
  healthy w -> success (fst (create_appointment data w)) = true ->
  exists who doctor day at_time minutes t,
    Data.name data = Some who /\ Data.doctorName data = Some doctor
    /\ Data.date data = Some day /\ Data.time data = Some at_time
    /\ Data.duration data = Some minutes
    /\ valid (validate_appointment_time at_time) = true
    /\ pg_time_in at_time = Some t
    /\ available (fst (check_time_slot_conflict doctor day at_time minutes None w))
       = true
    /\ accepts w (inserted w who doctor day t minutes data) = true.
Proof.
  intros Hw. destruct (create_appointment data w) as [reply after] eqn:E. cbn [fst].
  unfold create_appointment, guarded, Db.bind, item, call in E.
  destruct (Data.time data) as [at_time|]; [|inversion E; subst; discriminate].
  unfold Db.ret at 1 in E. cbv beta iota in E.
  destruct (valid (validate_appointment_time at_time)) eqn:Hval; cbn [negb] in E;
    [|destruct (validation_message _); inversion E; subst; discriminate].
  destruct (Data.doctorName data) as [doctor|]; [|inversion E; subst; discriminate].
  unfold Db.ret at 1 in E. cbv beta iota in E.
  destruct (Data.date data) as [day|]; [|inversion E; subst; discriminate].
  unfold Db.ret at 1 in E. cbv beta iota in E.
  destruct (Data.duration data) as [minutes|]; [|inversion E; subst; discriminate].
  unfold Db.ret at 1 in E. cbv beta iota in E.
  pose proof (check_snd_healthy w doctor day at_time minutes None Hw) as S.
  destruct (check_time_slot_conflict doctor day at_time minutes None w)
    as [answer w1] eqn:C.
  cbn [snd] in S. subst w1.
  destruct (available answer) eqn:Av; cbn [negb] in E;
    [|destruct (availability_message answer); inversion E; subst; discriminate].
  destruct (Data.name data) as [who|]; [|inversion E; subst; discriminate].
  unfold Db.ret at 1 in E. cbv beta iota in E.
  rewrite (execute_mutation_healthy _ _ Hw) in E. cbn [run_mutation] in E.
  destruct (pg_time_in at_time) as [t|] eqn:Pg;
    [|inversion E; subst; discriminate].
  fold (inserted w who doctor day t minutes data) in E.
  destruct (accepts w (inserted w who doctor day t minutes data)) eqn:Acc;
    [|inversion E; subst; discriminate].
  intros _. exists who, doctor, day, at_time, minutes, t.
  repeat split; try reflexivity; try assumption. now rewrite C.
Qed.

(** A request that was just booked is refused when it is sent again, if
    the store reads its time text as the service does.  On a healthy
    connection, after a create that succeeded with a positive duration and
    a status other than Cancelled, the same request is then answered with
    failure and with the appointment just stored as the conflicting one,
    and the store keeps the one row. *)
Theorem create_appointment_twice_is_refused (data : Data.t) (w : World) (minutes : Z) :
  healthy w -> times_valid w ->
  Data.duration data = Some minutes -> 0 < minutes ->
  Data.status data <> Some "Cancelled" ->
  (forall at_time, Data.time data = Some at_time -> reads_alike at_time) ->
  success (fst (create_appointment data w)) = true ->
  exists row,
    table (snd (create_appointment data w)) = (table w ++ [row])%list
    /\ success (fst (create_appointment data (snd (create_appointment data w)))) = false
    /\ conflict (fst (create_appointment data (snd (create_appointment data w))))
       = Some (info_of row)
    /\ snd (create_appointment data (snd (create_appointment data w)))
       = snd (create_appointment data w).
Proof.
  intros Hw Hv Dm Pos Ns Alike Ok.
  destruct (create_success_healthy data w Hw Ok)
    as (who & doctor & day & at_time & minutes' & t
        & Dn & Dd & Dy & Dt & Dm' & Hval & Pg & Av & Acc).
  assert (minutes' = minutes) by congruence. subst minutes'. clear Dm'.
  pose proof (pg_time_in_valid _ _ Pg) as Vt.
  pose proof (Alike at_time Dt t Pg) as Hs.
  destruct (check_available_free _ _ _ _ _ _ Hv Av) as (start & Hs' & Free).
  assert (start = minutes_of t) by congruence. subst start. clear Hs'.
  destruct (create_appointment_succeeds w data who doctor day at_time minutes
              (minutes_of t) t Dn Dd Dy Dt Dm Hw Hv Hval Hs Pg Free Acc) as (_ & W).
  rewrite W.
  set (row := inserted w who doctor day t minutes data) in *.
  set (w2 := tick (bump_id (with_table (table w ++ [row]) w))).
  exists row. split; [reflexivity|].
  assert (H2 : healthy w2) by exact Hw.
  assert (V2 : times_valid w2).
  { unfold times_valid, w2. cbn [table tick bump_id with_table].
    apply Forall_app. split; [exact Hv|]. now constructor. }
  assert (Active : is_active_of doctor day None row = true).
  { apply (is_active_of_candidate doctor day None). unfold candidate, row, inserted.
    cbn [doctor_name date status]. repeat split; try discriminate.
    destruct (Data.status data) as [state|]; cbn [get]; [congruence|discriminate]. }
  assert (Over : overlaps (minutes_of t) (minutes_of t + minutes) row = true).
  { apply overlaps_iff. unfold row, inserted. cbn [time duration]. lia. }
  assert (F : find (overlaps (minutes_of t) (minutes_of t + minutes))
                   (filter (is_active_of doctor day None) (table w2)) = Some row).
  { unfold w2. cbn [table tick bump_id with_table].
    apply find_last; [exact Active|exact Over|].
    intros x Hx Gx. apply (is_active_of_candidate doctor day None) in Gx.
    destruct (overlaps _ _ x) eqn:O; [|reflexivity].
    apply overlaps_iff in O. now destruct (Free x Hx Gx). }
  pose proof (check_find w2 doctor day at_time minutes None (minutes_of t) H2 V2 Hs)
    as Chk.
  cbn [truthy] in Chk. rewrite F in Chk. destruct Chk as [text Chk].
  assert (R : create_appointment data w2
              = (mkReply false text None (Some (info_of row)), w2)).
  { unfold create_appointment, guarded, Db.bind, item, call.
    rewrite Dt. unfold Db.ret at 1. cbv beta iota.
    rewrite Hval. cbn [negb]. rewrite Dd, Dy, Dm. unfold Db.ret at 1 2 3.
    cbv beta iota. rewrite Chk. reflexivity. }
  rewrite R. now repeat split.
Qed.

(** Bob books 10:00 with Dr. Smith twice. *)
Lemma create_appointment_twice_is_refused_witness :
  exists row,
    table (snd (create_appointment (request "Bob" "Dr. Smith" "2025-12-15" "10:00" 30)
                  (open_store [alice])))
    = ([alice] ++ [row])%list
    /\ success
         (fst (create_appointment (request "Bob" "Dr. Smith" "2025-12-15" "10:00" 30)
                 (snd (create_appointment
                         (request "Bob" "Dr. Smith" "2025-12-15" "10:00" 30)
                         (open_store [alice]))))) = false
    /\ conflict
         (fst (create_appointment (request "Bob" "Dr. Smith" "2025-12-15" "10:00" 30)
                 (snd (create_appointment
                         (request "Bob" "Dr. Smith" "2025-12-15" "10:00" 30)
                         (open_store [alice])))))
       = Some (info_of row)
    /\ snd (create_appointment (request "Bob" "Dr. Smith" "2025-12-15" "10:00" 30)
              (snd (create_appointment
                      (request "Bob" "Dr. Smith" "2025-12-15" "10:00" 30)
                      (open_store [alice]))))
       = snd (create_appointment (request "Bob" "Dr. Smith" "2025-12-15" "10:00" 30)
                (open_store [alice])).
Proof.
  apply (create_appointment_twice_is_refused
           (request "Bob" "Dr. Smith" "2025-12-15" "10:00" 30) (open_store [alice]) 30).
  - reflexivity.
  - repeat constructor.
  - reflexivity.
  - lia.
  - discriminate.
  - intros at_time E. injection E as <-.
    exact (shown_reads_alike (mkTime 10 0 0) eq_refl).
  - vm_compute. reflexivity.
Defined.

(* ------------------------------------------------------------------ *)
(** *** Shorter requests *)

Lemma find_none_weaker {A} (f g : A -> bool) (l : list A) :
  (forall x, In x l -> g x = true -> f x = true) ->
  find f l = None -> find g l = None.
Proof.
  intros Imp. rewrite !find_none_iff. intros N x Hx.
  destruct (g x) eqn:G; [|reflexivity].
  rewrite <- (N x Hx). symmetry. now apply Imp.
Qed.

(** A slot that is free stays free when the request is shortened: if
    [check_time_slot_conflict] finds a start time available for some
    duration, it finds it available for every duration that is not
    longer, on the same store and connection. *)
Theorem shorter_request_stays_free
    (w : World) (doctor day at_time : string) (minutes shorter : Z)
    (exclude : option string) :
  times_valid w -> shorter <= minutes ->
  available (fst (check_time_slot_conflict doctor day at_time minutes exclude w)) = true ->
  available (fst (check_time_slot_conflict doctor day at_time shorter exclude w)) = true.
Proof.
  intros Hv Le. rewrite !check_fst.
  destruct (minutes_of_text at_time) as [e|start]; [discriminate|].
  destruct (Db.execute_query _ w) as [[e|existing] w1] eqn:Q; cbn [fst];
    [discriminate|].
  apply execute_query_rows in Q. cbn [run_query Py.ret] in Q. inversion Q as [R].
  pose proof (times_valid_filter
                (is_active_of doctor day (if truthy exclude then exclude else None))
                w Hv) as V.
  pose proof (first_overlap_find _ start (start + minutes) V) as Long.
  pose proof (first_overlap_find _ start (start + shorter) V) as Short.
  destruct (find (overlaps start (start + minutes)) _) as [apt|] eqn:F.
  - destruct Long as [text Long]. rewrite Long. discriminate.
  - intros _.
    rewrite (find_none_weaker (overlaps start (start + minutes))
               (overlaps start (start + shorter)) _) in Short; [|  |exact F].
    + now rewrite Short.
    + intros x _ O. apply overlaps_iff in O. apply overlaps_iff. lia.
Qed.

(** 09:30 for an hour with Dr. Smith is free beside Alice, and so is
    09:30 for twenty minutes. *)
Lemma shorter_request_stays_free_witness :
  available
    (fst (check_time_slot_conflict "Dr. Smith" "2025-12-15" "09:30" 20 None
            (open_store [alice]))) = true.
Proof.
  apply (shorter_request_stays_free (open_store [alice]) "Dr. Smith" "2025-12-15"
           "09:30" 60 20 None).
  - repeat constructor.
  - lia.
  - vm_compute. reflexivity.
Defined.
